(** * Trial matching: eligibility extraction, threshold evaluation, chunked
    filtering and code crosswalk.

    A shallow embedding of [patient.py] and of [UmlsApi] in [apis.py].

    Python [str] values are modelled as [string], one [ascii] per code point,
    so the text ranges over the code points 0..255; the character classes of
    [re] and [str.lower] are the ones CPython has on that range.  Python
    [dict]s that are only read are [gmap]s; the ones whose insertion order is
    observable are association lists.  A raised exception is [None]. *)

From Stdlib Require Import Ascii String ZArith Bool Permutation.
From stdpp Require Import base option list strings gmap.

Local Open Scope Z_scope.

(** ** Python strings *)

Module PyStr.

Definition code (c : ascii) : N := N_of_ascii c.

Definition between (lo hi : N) (c : ascii) : bool :=
  ((lo <=? code c) && (code c <=? hi))%N.

(** [str.lower] on one code point. *)
Definition lower_char (c : ascii) : ascii :=
  if between 65 90 c || between 192 214 c || between 216 222 c
  then ascii_of_N (code c + 32) else c.

Fixpoint lower (s : string) : string :=
  match s with
  | EmptyString => EmptyString
  | String c s' => String (lower_char c) (lower s')
  end.

Definition len (s : string) : Z := Z.of_nat (String.length s).

Fixpoint str_take (n : nat) (s : string) : string :=
  match n, s with
  | S n', String c s' => String c (str_take n' s')
  | _, _ => EmptyString
  end.

Fixpoint str_drop (n : nat) (s : string) : string :=
  match n, s with
  | S n', String _ s' => str_drop n' s'
  | _, _ => s
  end.

(** The index a slice bound [k] denotes in a string of [n] characters:
    negative bounds count from the end, and every bound is clipped. *)
Definition slice_index (n : nat) (k : Z) : nat :=
  if k <? 0 then Z.to_nat (Z.max 0 (Z.of_nat n + k)) else Z.to_nat k.

(** [s[:k]] and [s[k:]]. *)
Definition slice_to (s : string) (k : Z) : string :=
  str_take (slice_index (String.length s) k) s.
Definition slice_from (s : string) (k : Z) : string :=
  str_drop (slice_index (String.length s) k) s.

(** [sub in s] *)
Fixpoint contains (sub s : string) : bool :=
  String.prefix sub s ||
  match s with
  | EmptyString => false
  | String _ s' => contains sub s'
  end.

(** [s.replace(old, new)] for a non-empty [old]: occurrences are replaced
    from the left and do not overlap.  [skip] counts the characters of an
    occurrence that are still to be dropped. *)
Fixpoint replace_go (old new : string) (skip : nat) (s : string) : string :=
  match s with
  | EmptyString => EmptyString
  | String c s' =>
      match skip with
      | S k => replace_go old new k s'
      | O =>
          if String.prefix old s
          then new +:+ replace_go old new (String.length old - 1) s'
          else String c (replace_go old new 0 s')
      end
  end.
Definition replace (old new s : string) : string := replace_go old new 0 s.

(** [sep.join(l)] *)
Definition join (sep : string) (l : list string) : string :=
  String.concat sep l.

Definition CRLF : string := String "013" (String "010" EmptyString).

End PyStr.

(** ** The fragment of [re] the two patterns use *)

Module Re.

Import PyStr.

Definition is_space (c : ascii) : bool :=
  between 9 13 c || between 28 32 c || between 133 133 c || between 160 160 c.

Definition is_digit (c : ascii) : bool := between 48 57 c.

Definition is_word (c : ascii) : bool :=
  between 48 57 c || between 65 90 c || between 95 95 c || between 97 122 c
  || between 170 170 c || between 178 179 c || between 181 181 c
  || between 185 186 c || between 188 190 c || between 192 214 c
  || between 216 246 c || between 248 255 c.

Definition is_char (a : ascii) (c : ascii) : bool := bool_decide (a = c).

(** [[\>\=\<]] *)
Definition is_cmp (c : ascii) : bool :=
  is_char ">" c || is_char "=" c || is_char "<" c.

Inductive regex : Type :=
| Chars (p : ascii → bool)
| Lit (s : string)
| Seq (r1 r2 : regex)
| Alt (r1 r2 : regex)
| Opt (r : regex)
| Many (p : ascii → bool)
| Many1 (p : ascii → bool)
| Group (n : nat) (r : regex).

(** Captured groups, the most recent binding first. *)
Definition captures : Type := list (nat * string).

(** Remainders after a greedy run of [p]: the longest run first, then one
    character less at a time, down to the empty run. *)
Fixpoint many (p : ascii → bool) (s : string) : list string :=
  match s with
  | EmptyString => [s]
  | String c s' => if p c then many p s' ++ [s] else [s]
  end.

(** Every way [r] matches a prefix of [s], in the order a backtracking
    matcher tries them, each with the captures made and the text left. *)
Fixpoint run (r : regex) (caps : captures) (s : string)
  : list (captures * string) :=
  match r with
  | Chars p =>
      match s with
      | String c s' => if p c then [(caps, s')] else []
      | EmptyString => []
      end
  | Lit l =>
      if String.prefix l s then [(caps, str_drop (String.length l) s)] else []
  | Seq r1 r2 =>
      flat_map (λ st, run r2 st.1 st.2) (run r1 caps s)
  | Alt r1 r2 => run r1 caps s ++ run r2 caps s
  | Opt r1 => run r1 caps s ++ [(caps, s)]
  | Many p => map (λ rest, (caps, rest)) (many p s)
  | Many1 p =>
      match s with
      | String c s' => if p c then map (λ rest, (caps, rest)) (many p s') else []
      | EmptyString => []
      end
  | Group n r1 =>
      map (λ st, ((n, str_take (String.length s - String.length st.2) s) :: st.1, st.2))
          (run r1 caps s)
  end.

(** [pattern.match] at the head of [s]: the first way found. *)
Definition match_here (r : regex) (s : string) : option (captures * string) :=
  head (run r [] s).

(** [m.group(n)], with [findall]'s empty string for a group that did not
    take part in the match. *)
Fixpoint group (n : nat) (caps : captures) : string :=
  match caps with
  | [] => EmptyString
  | (k, v) :: caps' => if bool_decide (k = n) then v else group n caps'
  end.

(** The non-overlapping matches of [r] in [s], left to right.  [skip] counts
    the characters of the last match not yet passed.  Both patterns below
    consume at least two characters per match. *)
Fixpoint scan (r : regex) (skip : nat) (s : string) : list captures :=
  match s with
  | EmptyString => []
  | String _ s' =>
      match skip with
      | S k => scan r k s'
      | O =>
          match match_here r s with
          | Some (caps, rest) =>
              caps :: scan r (String.length s - String.length rest - 1) s'
          | None => scan r 0 s'
          end
      end
  end.

(** [findall] for a pattern with one group, and with three. *)
Definition findall1 (r : regex) (s : string) : list string :=
  map (group 1) (scan r 0 s).
Definition findall3 (r : regex) (s : string) : list (string * string * string) :=
  map (λ caps, (group 1 caps, group 2 caps, group 3 caps)) (scan r 0 s).

Fixpoint seq_of (rs : list regex) : regex :=
  match rs with
  | [] => Lit EmptyString
  | [r] => r
  | r :: rs' => Seq r (seq_of rs')
  end.

End Re.

(** ** patient.py: the two patterns *)

Import PyStr Re.

Definition cell_types : list string := ["hemoglobin"; "platelets"; "leukocytes"].

(** [match_type = 'hemoglobin|platelets|leukocytes'] *)
Definition match_type : regex :=
  Alt (Lit "hemoglobin") (Alt (Lit "platelets") (Lit "leukocytes")).

Definition is_dot_or_comma (c : ascii) : bool := is_char "." c || is_char "," c.

(** The pattern compiled in [find_conditions]; group 1 is the whole pattern,
    group 2 the cell type, group 3 the optional exponent. *)
Definition conditions_pattern : regex :=
  Group 1 (seq_of
    [ Opt (Chars (is_char "["));                (* \[? *)
      Group 2 match_type;                       (* (hemoglobin|platelets|leukocytes) *)
      Opt (Chars (is_char "]"));                (* \]? *)
      Opt (Chars is_space);                     (* \s? *)
      Many1 is_cmp;                             (* [\>\=\<]+ *)
      Opt (Chars is_space);                     (* \s? *)
      Many1 is_digit;                           (* \d+ *)
      Opt (Chars is_dot_or_comma);              (* [\.\,]? *)
      Many is_digit;                            (* \d* *)
      Opt (Chars is_space);                     (* \s? *)
      Many1 is_word;                            (* \w+ *)
      Opt (Chars (is_char "/"));                (* \/? *)
      Opt (Chars is_space);                     (* \s? *)
      Many1 is_word;                            (* \w+ *)
      Opt (Group 3 (Seq (Chars (is_char "^")) (Many is_digit))) (* ( \^ \d* )? *)
    ]).

(** The pattern compiled in [convert_expressions]; group 1 is the whole
    pattern. *)
Definition expression_pattern : regex :=
  Group 1 (seq_of
    [ Opt (Chars is_space);                     (* \s? *)
      Many1 is_cmp;                             (* [\>\=\<]+ *)
      Opt (Chars is_space);                     (* \s? *)
      Many1 is_digit;                           (* \d+ *)
      Opt (Chars is_dot_or_comma);              (* [\,\.]? *)
      Many is_digit                             (* \d* *)
    ]).

(** ** Dictionaries whose iteration order is observed

    A Python [dict] iterates in insertion order, and assigning to a key it
    already has keeps the key's place. *)

Module Dict.

Section Ordered.
Context {V : Type}.

Fixpoint get (k : string) (d : list (string * V)) : option V :=
  match d with
  | [] => None
  | (k', v) :: d' => if bool_decide (k' = k) then Some v else get k d'
  end.

(** [d[k] = v] *)
Fixpoint set (k : string) (v : V) (d : list (string * V)) : list (string * V) :=
  match d with
  | [] => [(k, v)]
  | (k', v') :: d' =>
      if bool_decide (k' = k) then (k, v) :: d' else (k', v') :: set k v d'
  end.

Definition keys (d : list (string * V)) : list string := d.*1.
End Ordered.

End Dict.

(** ** patient.py: data *)

(** One entry of [eligibility.unstructured] in a trial's JSON. *)
Record Criterion := {
  inclusion_indicator : bool;
  description : string
}.

(** The part of a trial's JSON that [find_conditions] reads. *)
Record TrialJson := {
  eligibility_unstructured : list Criterion
}.

(** A trial object: its JSON, and the decisions attached while filtering. *)
Record Trial := {
  trial_json : TrialJson;
  filter_condition : list (string * bool)
}.

Definition set_filter_condition (trial : Trial) (fc : list (string * bool)) : Trial :=
  {| trial_json := trial_json trial; filter_condition := fc |}.

(** An entity of the detection service's answer: its text and the texts of its
    attributes (no [Attributes] key and an empty list are both falsy). *)
Record Entity := {
  Text : string;
  Attributes : list string
}.

(** A lab value as [get_lab_observations_by_patient] stores it:
    [(str(value), unit)]. *)
Definition LabValue : Type := string * string.

(** ** patient.py: [split_description] *)

(** The [while] loop; [None] when the fuel runs out before the loop ends. *)
Fixpoint split_description_loop (fuel : nat) (data : list string)
    (description : string) (limit : Z) : option (list string) :=
  match fuel with
  | O => None
  | S fuel' =>
      if len description >? limit
      then split_description_loop fuel' (data ++ [slice_to description limit])
             (slice_from description limit) limit
      else Some (data ++ [description])
  end.

Definition split_description (fuel : nat) (description : string) (limit : Z)
  : option (list string) :=
  split_description_loop fuel [] description limit.

(** ** patient.py: the entity-detection fallback *)

Definition limit : Z := 19999.

Definition prepare (value : string) : string :=
  replace "," "" (lower (replace CRLF " " value)).

(** The chunks the generator [get_description] yields, in order.  The call of
    [split_description] is given one round per character and one more, which
    is enough for the positive [limit]. *)
Fixpoint get_description (data : string) (descriptions : list string) : list string :=
  match descriptions with
  | [] => [data]
  | value :: rest =>
      let description := prepare value in
      if len description >? limit then
        default [] (split_description (S (String.length description)) description limit)
          ++ get_description data rest
      else if len data + len description >? limit then
        data :: get_description description rest
      else
        get_description (data +:+ description) rest
  end.

Section Extraction.

(** [client.detect_entities(Text=...)['Entities']]; [None] when the call
    raises. *)
Variable detect_entities : string → option (list Entity).

(** The inner [for entity in entities] loop. *)
Definition record_entity (conditions : list (string * string)) (entity : Entity)
  : list (string * string) :=
  let entity_type := Text entity in
  if existsb (λ cell_type, bool_decide (cell_type = lower entity_type)) cell_types then
    match Attributes entity with
    | [] => conditions
    | attribute :: _ => Dict.set entity_type (entity_type +:+ attribute) conditions
    end
  else conditions.

(** The loop over the chunks.  The state is the dictionary built so far and
    the texts the detection service has been called with. *)
Fixpoint detect_chunks (chunks : list string)
    (st : list (string * string) * list string)
  : list (string * string) * list string :=
  match chunks with
  | [] => st
  | chunk :: rest =>
      let '(conditions, calls) := st in
      match detect_entities chunk with
      | Some entities =>
          detect_chunks rest (foldl record_entity conditions entities, calls ++ [chunk])
      | None => detect_chunks rest (conditions, calls ++ [chunk])
      end
  end.

Definition get_mapping_with_aws_comprehend (descriptions : list string)
  : list (string * string) * list string :=
  detect_chunks (get_description "" descriptions) ([], []).

(** [parser.find(trial)]: the descriptions of the inclusion criteria. *)
Definition unstructured_descriptions (trial : TrialJson) : list string :=
  description <$> filter (λ c, inclusion_indicator c = true) (eligibility_unstructured trial).

Definition mentions_cell_type (value : string) : bool :=
  existsb (λ cell_type, contains cell_type (lower value)) cell_types.

Definition joined_description (trial : TrialJson) : string :=
  join " " ((λ value, lower (replace CRLF " " value)) <$>
            filter (λ value, mentions_cell_type value = true) (unstructured_descriptions trial)).

(** [{match[1]: str(match[0]) for match in matches}] *)
Definition conditions_of_matches (matches : list (string * string * string))
  : list (string * string) :=
  foldl (λ conditions m, Dict.set m.1.2 m.1.1 conditions) [] matches.

(** [find_conditions], with the texts sent to the detection service. *)
Definition find_conditions_calls (trial : TrialJson)
  : list (string * string) * list string :=
  let description := joined_description trial in
  if bool_decide (description ≠ "") then
    let matches := findall3 conditions_pattern description in
    match matches with
    | _ :: _ =>
        let conditions := conditions_of_matches matches in
        if bool_decide (length conditions = 3%nat) then (conditions, [])
        else get_mapping_with_aws_comprehend (unstructured_descriptions trial)
    | [] => get_mapping_with_aws_comprehend (unstructured_descriptions trial)
    end
  else ([], []).

Definition find_conditions (trial : TrialJson) : list (string * string) :=
  (find_conditions_calls trial).1.

End Extraction.

(** ** patient.py: [convert_expressions] *)

Definition convert_expressions (lab_value : LabValue) (condition : string)
  : string * string :=
  match findall1 expression_pattern condition with
  | [] => ("0", "")
  | first :: _ => (lab_value.1, replace "," "" first)
  end.

(** ** patient.py: [filter_trials_from_description] *)

Section Filtering.

Variable detect_entities : string → option (list Entity).

(** The truth value of [eval(text)]; [None] when [eval] raises. *)
Variable py_eval : string → option bool.

Variable lab_results : gmap string LabValue.

(** The loop over [conditions.items()].  The state is [include_trail] and
    [trial.filter_condition]. *)
Fixpoint check_conditions (conditions : list (string * string))
    (include_trail : bool) (filter_condition : list (string * bool))
  : option (bool * list (string * bool)) :=
  match conditions with
  | [] => Some (include_trail, filter_condition)
  | (cell_type, condition) :: rest =>
      match lab_results !! cell_type with
      | None =>
          check_conditions rest include_trail (filter_condition ++ [(condition, true)])
      | Some lab_value =>
          let '(lab_value, converted_condition) :=
            convert_expressions lab_value condition in
          holds ← (if bool_decide (lab_value ≠ "0")
                   then py_eval (lab_value +:+ converted_condition)
                   else Some false);
          if holds : bool
          then check_conditions rest include_trail (filter_condition ++ [(condition, true)])
          else check_conditions rest false (filter_condition ++ [(condition, false)])
      end
  end.

(** The loop over [trials]. *)
Fixpoint filter_trials_loop (trials filtered_trials excluded_trials : list Trial)
  : option (list Trial * list Trial) :=
  match trials with
  | [] => Some (filtered_trials, excluded_trials)
  | trial :: rest =>
      match find_conditions detect_entities (trial_json trial) with
      | [] =>
          filter_trials_loop rest
            (filtered_trials ++
               [set_filter_condition trial [("No Inclusion Criteria Found", true)]])
            excluded_trials
      | conditions =>
          '(include_trail, decisions) ← check_conditions conditions true [];
          if include_trail : bool
          then filter_trials_loop rest
                 (filtered_trials ++ [set_filter_condition trial decisions]) excluded_trials
          else filter_trials_loop rest
                 filtered_trials (excluded_trials ++ [set_filter_condition trial decisions])
      end
  end.

Definition filter_trials_from_description (trials : list Trial)
  : option (list Trial * list Trial) :=
  filter_trials_loop trials [] [].

(** What one condition evaluates to: a missing lab value passes it; otherwise
    it is [(lab_value != "0") and eval(...)] on what [convert_expressions]
    returns. *)
Definition passes (cell_type condition : string) : option bool :=
  match lab_results !! cell_type with
  | None => Some true
  | Some lab_value =>
      let '(value, converted_condition) := convert_expressions lab_value condition in
      if bool_decide (value ≠ "0") then py_eval (value +:+ converted_condition)
      else Some false
  end.

(** What the body of the loop over [trials] does with one trial: the trial
    with its decisions attached, and whether it is kept. *)
Definition judge (trial : Trial) : option (Trial * bool) :=
  match find_conditions detect_entities (trial_json trial) with
  | [] =>
      Some (set_filter_condition trial [("No Inclusion Criteria Found", true)], true)
  | conditions =>
      '(include_trail, decisions) ← check_conditions conditions true [];
      Some (set_filter_condition trial decisions, include_trail)
  end.

Definition kept (verdicts : list (Trial * bool)) : list Trial :=
  (filter (λ v, v.2 = true) verdicts).*1.
Definition dropped (verdicts : list (Trial * bool)) : list Trial :=
  (filter (λ v, v.2 = false) verdicts).*1.

End Filtering.

(** ** patient.py: [filter_by_inclusion_criteria] *)

(** The dict under a trial set's ["ncit"] key: its own ["ncit"] entry, the
    code, and whatever else it carries. *)
Record NcitCode := {
  ncit : string;
  ncit_details : list (string * string)
}.

(** [{"ncit": ..., "trials": ...}]: the shape of the input's trial sets and of
    the groups of both outputs. *)
Record Bundle := {
  bundle_ncit : NcitCode;
  bundle_trials : list Trial
}.

(** A spawned greenlet: its [value] once it is done ([None] when the function
    it ran raised) and the entry [tasks] keeps for it. *)
Record Task := {
  task_value : option (list Trial * list Trial);
  task_ncit : NcitCode
}.

(** The three dictionaries of the fan-in. *)
Record Merged := {
  filtered : list (string * list Trial);
  excluded : list (string * list Trial);
  ncit_codes : list (string * NcitCode)
}.

Definition max_trials_in_future : nat := 10.

(** [if k not in d: d[k] = v] *)
Definition setdefault {V} (k : string) (v : V) (d : list (string * V))
  : list (string * V) :=
  match Dict.get k d with
  | None => Dict.set k v d
  | Some _ => d
  end.

(** The keys of a dictionary after a first use of [k]. *)
Definition touch (k : string) (ks : list string) : list string :=
  if bool_decide (k ∈ ks) then ks else ks ++ [k].

(** [filtered = {}], [excluded = {}], [ncit_codes = {}] *)
Definition empty_merged : Merged :=
  {| filtered := []; excluded := []; ncit_codes := [] |}.

(** The chunks the outer [while] cuts from position [next_future] on. *)
Fixpoint chunks_from (fuel : nat) (all : list Trial) (next_future : nat)
  : list (list Trial) :=
  match fuel with
  | O => []
  | S fuel' =>
      if bool_decide (next_future < length all)%nat then
        firstn max_trials_in_future (skipn next_future all)
          :: chunks_from fuel' all (next_future + max_trials_in_future)
      else []
  end.

(** The chunks one trial set is cut into. *)
Definition chunks_of (trialset : Bundle) : list (list Trial) :=
  if bool_decide (length (bundle_trials trialset) ≤ max_trials_in_future)%nat
  then [bundle_trials trialset]
  else chunks_from (length (bundle_trials trialset)) (bundle_trials trialset) 0.

Section Orchestrator.

Variable detect_entities : string → option (list Entity).
Variable py_eval : string → option bool.

(** The order in which [iwait] hands over the greenlets of [tasks]. *)
Variable iwait : list Task → list Task.

Variable lab_results : gmap string LabValue.

Definition spawn (trials : list Trial) (code : NcitCode) : Task :=
  {| task_value :=
       filter_trials_from_description detect_entities py_eval lab_results trials;
     task_ncit := code |}.

(** The inner [while]: [budget] is how many values [cnt] can still take,
    [max_trials_in_future + 1 - cnt]; [all !! next_future] is defined
    exactly when [next_future < total]. *)
Fixpoint take_trials (all : list Trial) (budget next_future : nat)
    (trials : list Trial) : nat * list Trial :=
  match budget with
  | O => (next_future, trials)
  | S budget' =>
      match all !! next_future with
      | Some trial => take_trials all budget' (S next_future) (trials ++ [trial])
      | None => (next_future, trials)
      end
  end.

(** The outer [while]; every round moves [next_future] forward, so [total]
    rounds are enough fuel. *)
Fixpoint spawn_chunks (fuel : nat) (trialset : Bundle) (next_future : nat)
    (tasks : list Task) : list Task :=
  match fuel with
  | O => tasks
  | S fuel' =>
      if bool_decide (next_future < length (bundle_trials trialset))%nat then
        let '(next_future', trials) :=
          take_trials (bundle_trials trialset) max_trials_in_future next_future [] in
        spawn_chunks fuel' trialset next_future'
          (tasks ++ [spawn trials (bundle_ncit trialset)])
      else tasks
  end.

(** The tasks after the spawns for one trial set. *)
Definition dispatch (trialset : Bundle) (tasks : list Task) : list Task :=
  let total := length (bundle_trials trialset) in
  if bool_decide (total ≤ max_trials_in_future)%nat
  then tasks ++ [spawn (bundle_trials trialset) (bundle_ncit trialset)]
  else spawn_chunks total trialset 0 tasks.

(** The body of [for future in iwait(tasks)]. *)
Definition collect (m : Merged) (future : Task) : option Merged :=
  let ncit_code := ncit (task_ncit future) in
  let ncit_codes := setdefault ncit_code (task_ncit future) (ncit_codes m) in
  let filtered := setdefault ncit_code [] (filtered m) in
  filtered_list ← Dict.get ncit_code filtered;
  let excluded := setdefault ncit_code [] (excluded m) in
  excluded_list ← Dict.get ncit_code excluded;
  '(filtered_trials, excluded_trials) ← task_value future;
  Some {| filtered := Dict.set ncit_code (filtered_list ++ filtered_trials) filtered;
          excluded := Dict.set ncit_code (excluded_list ++ excluded_trials) excluded;
          ncit_codes := ncit_codes |}.

Fixpoint collect_all (futures : list Task) (m : Merged) : option Merged :=
  match futures with
  | [] => Some m
  | future :: rest => m' ← collect m future; collect_all rest m'
  end.

(** [for ncit_code in d: out.append({"ncit": ncit_codes[ncit_code],
    "trials": d[ncit_code]})] *)
Definition bundles (ncit_codes : list (string * NcitCode))
    (d : list (string * list Trial)) : option (list Bundle) :=
  mapM (λ entry, code ← Dict.get entry.1 ncit_codes;
                 Some {| bundle_ncit := code; bundle_trials := entry.2 |}) d.

(** The loop over [trials_by_ncit].  [tasks] is never reset; the two output
    lists are rebuilt in every round from all the tasks spawned so far. *)
Fixpoint for_trialsets (trials_by_ncit : list Bundle) (tasks : list Task)
    (out : list Bundle * list Bundle) : option (list Bundle * list Bundle) :=
  match trials_by_ncit with
  | [] => Some out
  | trialset :: rest =>
      let tasks := dispatch trialset tasks in
      m ← collect_all (iwait tasks) empty_merged;
      filtered_trials_by_ncit ← bundles (ncit_codes m) (filtered m);
      excluded_trials_by_ncit ← bundles (ncit_codes m) (excluded m);
      for_trialsets rest tasks (filtered_trials_by_ncit, excluded_trials_by_ncit)
  end.

Definition filter_by_inclusion_criteria (trials_by_ncit : list Bundle)
  : option (list Bundle * list Bundle) :=
  for_trialsets trials_by_ncit [] ([], []).

(** The tasks spawned for one trial set, and for all of them. *)
Definition spawned_for (trialset : Bundle) : list Task :=
  (λ chunk, spawn chunk (bundle_ncit trialset)) <$> chunks_of trialset.

Definition spawned (trials_by_ncit : list Bundle) : list Task :=
  concat (spawned_for <$> trials_by_ncit).

End Orchestrator.

(** ** Measures in which the properties of the orchestrator are stated *)

(** [ceil(n / 10)] *)
Definition chunk_count (n : nat) : nat := ((n + 9) `div` 10)%nat.

Definition task_code (future : Task) : string := ncit (task_ncit future).

(** How many trials a finished task hands back. *)
Definition task_size (future : Task) : nat :=
  match task_value future with
  | Some (filtered_trials, excluded_trials) =>
      (length filtered_trials + length excluded_trials)%nat
  | None => 0%nat
  end.

(** How many trials the tasks of code [c] hand back together. *)
Fixpoint load (c : string) (futures : list Task) : nat :=
  match futures with
  | [] => 0%nat
  | future :: rest =>
      ((if bool_decide (task_code future = c) then task_size future else 0) + load c rest)%nat
  end.

(** How many trials a dictionary holds under code [c]. *)
Definition size_at (c : string) (d : list (string * list Trial)) : nat :=
  length (default [] (Dict.get c d)).

(** The three dictionaries have the same keys in the same order, and
    [ncit_codes] keeps under each code a dict with that code. *)
Definition consistent (m : Merged) : Prop :=
  Dict.keys (filtered m) = Dict.keys (ncit_codes m)
  ∧ Dict.keys (excluded m) = Dict.keys (ncit_codes m)
  ∧ NoDup (Dict.keys (ncit_codes m))
  ∧ ∀ k v, Dict.get k (ncit_codes m) = Some v → ncit v = k.

Definition bundle_code (b : Bundle) : string := ncit (bundle_ncit b).

(** How many trials the input lists under code [c]. *)
Fixpoint demand (c : string) (trials_by_ncit : list Bundle) : nat :=
  match trials_by_ncit with
  | [] => 0%nat
  | trialset :: rest =>
      ((if bool_decide (bundle_code trialset = c)
        then length (bundle_trials trialset) else 0) + demand c rest)%nat
  end.

(** ** apis.py: [UmlsApi] *)

Module UmlsApi.

(** One element of the ["result"] array of a crosswalk answer; a field that
    is missing or [null] is [None]. *)
Record Candidate := {
  ui : option string;
  name : option string
}.

(** What [_get_response] returns: the status, and what [response.json()]
    gives under ["result"] ([None]: no such array). *)
Record Response := {
  status_code : Z;
  result : option (list Candidate)
}.

(** [{'match': ..., 'description': ...}] *)
Record Match := {
  match_code : string;
  match_description : string
}.

(** A spawned crosswalk greenlet: its [value] once it is done ([None] when
    [get_crosswalk] raised) and the code [matches] keeps for it. *)
Record Lookup := {
  lookup_value : option (option string * option string);
  lookup_code : string
}.

(** What the generator [get_matches] has yielded, and whether it ended
    normally or by raising. *)
Inductive Ending := Exhausted | Raised.

(** [ui != 'TCGA' && ui != 'OMFAQ' && ui != 'MPN-SAF'] *)
Definition acceptable (c : Candidate) : bool :=
  bool_decide (ui c ≠ Some "TCGA") && bool_decide (ui c ≠ Some "OMFAQ")
  && bool_decide (ui c ≠ Some "MPN-SAF").

(** [extraction_functions['crosswalk'].search(result)]: the first acceptable
    candidate as [{code: ui, description: name}], or [None] for [null]. *)
Definition search_crosswalk (response : Response)
  : option (option string * option string) :=
  candidates ← result response;
  head ((λ c, (ui c, name c)) <$> filter (λ c, acceptable c = true) candidates).

(** Python's truth value of an optional string. *)
Definition truthy (o : option string) : bool :=
  match o with
  | Some s => bool_decide (s ≠ "")
  | None => false
  end.

Section Crosswalk.

(** [self._get_response(url, params)] for a code set and a code; [None]
    when the request raises. *)
Variable get_response : string → string → option Response.

(** The order in which [iwait] hands over the greenlets of [matches]. *)
Variable iwait : list Lookup → list Lookup.

(** [None] when the method raises: subscripting the [None] that the
    search returns is a [TypeError]. *)
Definition get_crosswalk (orig_code codeset : string)
  : option (option string * option string) :=
  response ← get_response codeset orig_code;
  if bool_decide (status_code response ≠ 200) then Some (None, None)
  else
    crosswalk ← search_crosswalk response;
    Some (crosswalk.1, crosswalk.2).

(** The second loop of [get_matches]; unpacking the [None] value of a
    greenlet that raised is a [TypeError], which ends the generator. *)
Fixpoint yield_matches (done : list Lookup)
  : list (string * option Match) * Ending :=
  match done with
  | [] => ([], Exhausted)
  | m :: rest =>
      let orig_code := lookup_code m in
      match lookup_value m with
      | None => ([], Raised)
      | Some (ncit_code, ncit_desc) =>
          let item :=
            if truthy ncit_code && truthy ncit_desc
            then (orig_code,
                  Some {| match_code := default "" ncit_code;
                          match_description := default "" ncit_desc |})
            else (orig_code, None) in
          let '(items, ending) := yield_matches rest in
          (item :: items, ending)
      end
  end.

(** [conditions_by_code] as its items: the code and its ["codeset"]. *)
Definition get_matches (conditions_by_code : list (string * string))
  : list (string * option Match) * Ending :=
  let matches :=
    (λ item, {| lookup_value := get_crosswalk item.1 item.2;
                lookup_code := item.1 |}) <$> conditions_by_code in
  yield_matches (iwait matches).

End Crosswalk.

End UmlsApi.

(** ** Sample collaborators and inputs for the examples *)

Module Sample.

(** A detection service that is down: every call raises. *)
Definition service_down : string → option (list Entity) := λ _, None.

(** A detection service that finds one entity, hemoglobin qualified as
    normal, in whatever text it is given. *)
Definition finds_hemoglobin : string → option (list Entity) :=
  λ _, Some [ {| Text := "hemoglobin"; Attributes := [" normal"] |} ].

Fixpoint digits (acc : Z) (s : string) : Z * string :=
  match s with
  | String c s' =>
      if is_digit c
      then digits (10 * acc + Z.of_N (code c) - 48) s'
      else (acc, s)
  | EmptyString => (acc, s)
  end.

Fixpoint skip_blanks (s : string) : string :=
  match s with
  | String " " s' => skip_blanks s'
  | _ => s
  end.

Definition number (s : string) : option (Z * string) :=
  match s with
  | String c _ =>
      if is_digit c then
        let '(n, rest) := digits 0 s in
        (* a literal of several digits does not start with a zero *)
        if bool_decide (c = "0"%char) && bool_decide (n ≠ 0) then None
        else Some (n, rest)
      else None
  | EmptyString => None
  end.

Definition comparison (s : string) : option ((Z → Z → bool) * string) :=
  match s with
  | String ">" (String "=" rest) => Some (Z.geb, rest)
  | String "<" (String "=" rest) => Some (Z.leb, rest)
  | String "=" (String "=" rest) => Some (Z.eqb, rest)
  | String ">" rest => Some (Z.gtb, rest)
  | String "<" rest => Some (Z.ltb, rest)
  | _ => None
  end.

(** An evaluator for the examples: it decides the comparison of two
    integer literals the way [eval] does, and takes every other text as
    raising.  No theorem below depends on it. *)
Definition eval_comparison (text : string) : option bool :=
  '(a, rest) ← number text;
  '(cmp, rest) ← comparison (skip_blanks rest);
  '(b, rest) ← number (skip_blanks rest);
  if bool_decide (rest = "") then Some (cmp a b) else None.

Definition criterion (text : string) : Criterion :=
  {| inclusion_indicator := true; description := text |}.

Definition trial_of (texts : list string) : Trial :=
  {| trial_json := {| eligibility_unstructured := criterion <$> texts |};
     filter_condition := [] |}.

(** A trial with one mention of each cell type. *)
Definition three_mentions : Trial :=
  trial_of [ "Hemoglobin >= 9 g/dL";
             "Platelets >= 100,000/uL" +:+ CRLF +:+ "Leukocytes >= 3,000/mcL";
             "Age >= 18 years" ].

(** A trial that asks for a hemoglobin below 9. *)
Definition low_hemoglobin : Trial :=
  trial_of [ "Hemoglobin < 9 g/dL";
             "Platelets >= 100,000/uL";
             "Leukocytes >= 3,000/mcL" ].

(** A trial whose only mention has no threshold. *)
Definition no_threshold : Trial :=
  trial_of [ "Hemoglobin within normal limits" ].

(** A trial without eligibility text. *)
Definition no_text : Trial := trial_of [].

Definition code_C123 : NcitCode := {| ncit := "C123"; ncit_details := [] |}.

Fixpoint filler (n : nat) : string :=
  match n with
  | O => ""
  | S n' => String "a" (filler n')
  end.

(** An entry of 20012 characters, longer than one call of the detection
    service takes. *)
Definition long_entry : string := "Hemoglobin, " +:+ filler (Z.to_nat 20000).

End Sample.

Definition labs_low_platelets : gmap string LabValue :=
  <["platelets" := ("90000", "/uL")]> {["leukocytes" := ("4000", "/mcL")]}.

Definition labs_zero_hemoglobin : gmap string LabValue :=
  {["hemoglobin" := ("0", "g/dL")]}.

Definition labs_hemoglobin : gmap string LabValue :=
  {["hemoglobin" := ("13", "g/dL")]}.

Definition marked_no_criteria (trial : Trial) : Trial :=
  set_filter_condition trial [("No Inclusion Criteria Found", true)].

Definition three_mentions_decided (hemoglobin platelets leukocytes : bool) : Trial :=
  set_filter_condition Sample.three_mentions
    [ ("hemoglobin >= 9 g/dl", hemoglobin);
      ("platelets >= 100,000/ul", platelets);
      ("leukocytes >= 3,000/mcl", leukocytes) ].

Definition low_hemoglobin_decided (hemoglobin platelets leukocytes : bool) : Trial :=
  set_filter_condition Sample.low_hemoglobin
    [ ("hemoglobin < 9 g/dl", hemoglobin);
      ("platelets >= 100,000/ul", platelets);
      ("leukocytes >= 3,000/mcl", leukocytes) ].

Definition in_order : list Task → list Task := λ tasks, tasks.

Definition bundle_C123 (trials : list Trial) : Bundle :=
  {| bundle_ncit := Sample.code_C123; bundle_trials := trials |}.

Definition code_C456 : NcitCode :=
  {| ncit := "C456"; ncit_details := [("name", "Lymphoma")] |}.

(** Eleven trials the sample patient fails and one without eligibility text
    under C123, and no trial under C456. *)
Definition sample_input : list Bundle :=
  [ bundle_C123 (replicate 11 Sample.three_mentions ++ [Sample.no_text]);
    {| bundle_ncit := code_C456; bundle_trials := [] |} ].

Definition sample_filtered : list Bundle :=
  [ bundle_C123 [marked_no_criteria Sample.no_text];
    {| bundle_ncit := code_C456; bundle_trials := [] |} ].

Definition sample_excluded : list Bundle :=
  [ bundle_C123 (replicate 11 (three_mentions_decided true false true));
    {| bundle_ncit := code_C456; bundle_trials := [] |} ].

Module UmlsSample.

Import UmlsApi.

(** A terminology service that has no candidate for code 1000, only an
    excluded one for 2000, a good one for 3000, and answers 404 otherwise. *)
Definition sample_service (codeset orig_code : string) : option Response :=
  if bool_decide (orig_code = "1000") then
    Some {| status_code := 200; result := Some [] |}
  else if bool_decide (orig_code = "2000") then
    Some {| status_code := 200;
            result := Some [ {| ui := Some "TCGA"; name := Some "Atlas" |} ] |}
  else if bool_decide (orig_code = "3000") then
    Some {| status_code := 200;
            result := Some [ {| ui := Some "OMFAQ"; name := Some "Faq" |};
                             {| ui := Some "C3262"; name := Some "Neoplasm" |} ] |}
  else Some {| status_code := 404; result := None |}.

Definition in_order : list Lookup → list Lookup := λ lookups, lookups.

End UmlsSample.

(** * More of patient.py and apis.py *)

(** How a call that may loop ends: with a value, by an exception, or, in
    the model only, with its fuel used up. *)
Inductive Outcome (A : Type) : Type :=
| Returned (a : A)
| Raises
| OutOfFuel.
Arguments Returned {A} a.
Arguments Raises {A}.
Arguments OutOfFuel {A}.

(** One element of a bundle's ["link"] array. *)
Record Link := {
  relation : string;
  url : string
}.

(** [if x not in l: l.append(x)] *)
Definition append_if_new (x : string) (l : list string) : list string :=
  if bool_decide (x ∈ l) then l else l ++ [x].

(** ** patient.py: [rchop] *)

(** [s.endswith(ending)] *)
Definition endswith (s ending : string) : bool :=
  bool_decide (String.length ending ≤ String.length s)%nat
  && bool_decide (str_drop (String.length s - String.length ending) s = ending).

Definition rchop (thestring ending : string) : string :=
  if endswith thestring ending then slice_to thestring (- len ending)
  else thestring.

(** ** patient.py: [load_conditions] *)

Definition BASE_URL : string :=
  "https://dev-api.va.gov/services/fhir/v0/argonaut/data-query/".
Definition CONDITIONS_URL : string := BASE_URL +:+ "Condition?_count=50&patient=".
Definition OBSERVATION_URL : string := BASE_URL +:+ "Observation".

(** What [load_conditions] reads of one element of ["entry"]:
    [resource.code.text] and [resource.code.coding[0].code]. *)
Record ConditionEntry := {
  condition_text : string;
  condition_code : string
}.

Record ConditionsPage := {
  conditions_entry : list ConditionEntry;
  conditions_link : list Link
}.

(** [self_url], [next_url] and [last_url]; [None] is a name not yet bound. *)
Record PageUrls := {
  self_url : option string;
  next_url : option string;
  last_url : option string
}.

(** The body of [for link in api_res["link"]]. *)
Definition read_link (urls : PageUrls) (link : Link) : PageUrls :=
  let urls :=
    if bool_decide (relation link = "self")
    then {| self_url := Some (url link); next_url := next_url urls;
            last_url := last_url urls |}
    else urls in
  let urls :=
    if bool_decide (relation link = "next")
    then {| self_url := self_url urls; next_url := Some (url link);
            last_url := last_url urls |}
    else urls in
  if bool_decide (relation link = "last")
  then {| self_url := self_url urls; next_url := next_url urls;
          last_url := Some (url link) |}
  else urls.

(** The body of [for condition in api_res["entry"]]. *)
Definition read_condition (acc : list string * list string) (condition : ConditionEntry)
  : list string * list string :=
  let cond_str := rchop (condition_text condition) " (disorder)" in
  (append_if_new cond_str acc.1, append_if_new (condition_code condition) acc.2).

Section LoadConditions.

(** [get_api(token, url)] for the conditions endpoint; [None] when it
    raises. *)
Variable get_api : string → string → option ConditionsPage.

(** The [return] is inside the [while], so the loop body runs once.
    Comparing [self_url] with [last_url] raises when one of them was never
    bound. *)
Definition load_conditions (mrn token : string) : option (list string * list string) :=
  let url := CONDITIONS_URL +:+ mrn in
  api_res ← get_api token url;
  let '(conditions, codes_snomed) :=
    foldl read_condition ([], []) (conditions_entry api_res) in
  let urls :=
    foldl read_link {| self_url := None; next_url := Some url; last_url := None |}
      (conditions_link api_res) in
  self ← self_url urls;
  last ← last_url urls;
  let more_pages := negb (bool_decide (self = last)) in
  Some (conditions, codes_snomed).

End LoadConditions.

(** ** patient.py: [find_trials] *)

(** The parameters of one request to the trials endpoint. *)
Record TrialQuery := {
  query_size : Z;
  query_from : Z;
  query_ncit : string;
  query_gender : option string;
  query_max_age_gte : option Z;
  query_min_age_lte : option Z
}.

(** What [find_trials] reads of an answer, its ["total"], and the rest. *)
Record TrialsAnswer := {
  answer_total : Z;
  answer_trials : list string
}.

(** [{"code_ncit": ..., "trialset": ...}] *)
Record TrialSet := {
  code_ncit : string;
  trialset : TrialsAnswer
}.

Definition find_trials_size : Z := 50.

Definition trial_query (gender : string) (age : Z) (ncit : string) (next_trial : Z)
  : TrialQuery :=
  {| query_size := find_trials_size;
     query_from := next_trial;
     query_ncit := ncit;
     query_gender := if bool_decide (gender ≠ "unknown") then Some gender else None;
     query_max_age_gte := if bool_decide (age ≠ 0) then Some age else None;
     query_min_age_lte := if bool_decide (age ≠ 0) then Some age else None |}.

Section FindTrials.

(** [req.get(TRIALS_URL, params).json()]; [None] when it raises. *)
Variable trials_service : TrialQuery → option TrialsAnswer.

(** The [while next_trial <= total] loop for one code. *)
Fixpoint find_trials_pages (fuel : nat) (gender : string) (age : Z) (ncit_dict : NcitCode)
    (total next_trial : Z) (trials : list TrialSet) : Outcome (list TrialSet) :=
  match fuel with
  | O => OutOfFuel
  | S fuel' =>
      if next_trial <=? total then
        let ncit := ncit ncit_dict in
        match trials_service (trial_query gender age ncit next_trial) with
        | None => Raises
        | Some res_dict =>
            find_trials_pages fuel' gender age ncit_dict (answer_total res_dict)
              (next_trial + find_trials_size)
              (trials ++ [{| code_ncit := ncit; trialset := res_dict |}])
        end
      else Returned trials
  end.

(** The loop over [ncit_codes]; every code starts with [total = 1] and
    [next_trial = 1]. *)
Fixpoint find_trials_codes (fuel : nat) (gender : string) (age : Z)
    (ncit_codes : list NcitCode) (trials : list TrialSet) : Outcome (list TrialSet) :=
  match ncit_codes with
  | [] => Returned trials
  | ncit_dict :: rest =>
      match find_trials_pages fuel gender age ncit_dict 1 1 trials with
      | Returned trials' => find_trials_codes fuel gender age rest trials'
      | Raises => Raises
      | OutOfFuel => OutOfFuel
      end
  end.

(** [fuel] bounds the rounds of the inner loop for each code. *)
Definition find_trials (fuel : nat) (ncit_codes : list NcitCode) (gender : string) (age : Z)
  : Outcome (list TrialSet) :=
  find_trials_codes fuel gender age ncit_codes [].

End FindTrials.

(** ** patient.py: [get_lab_observations_by_patient] *)

Definition LOINC_CODES : list (string * string) :=
  [ ("718-7", "hemoglobin"); ("6690-2", "leukocytes"); ("777-3", "platelets") ].

(** What the [try] block reads of one resource: the first coding's code,
    [(str(value), unit)] and [effectiveDateTime]. *)
Record Observation := {
  observation_code : string;
  observation_value : LabValue;
  effectiveDateTime : string
}.

(** A page of observations.  [observations.get('entry')] is [None] when the
    key is missing; an entry is [None] when one of the keys the [try] block
    reads is missing from it.  Every entry is taken to have a ["resource"]
    and, where it has codings at all, a first one: the [KeyError] and
    [IndexError] of the other shapes are not caught by the source and are
    left out of the model. *)
Record ObservationsPage := {
  observations_entry : option (list (option Observation));
  observations_link : list Link
}.

(** [{'effectiveDateTime': ..., 'value': ...}] *)
Record LabResult := {
  result_effectiveDateTime : string;
  result_value : LabValue
}.

(** The body of [for entry in observations.get('entry')]; a [KeyError] in
    the [try] block skips the entry.  [>] on strings is [String.ltb]
    flipped. *)
Definition read_observation (lab_results : list (string * LabResult))
    (entry : option Observation) : list (string * LabResult) :=
  match entry with
  | None => lab_results
  | Some resource =>
      let code := observation_code resource in
      let newer :=
        match Dict.get code lab_results with
        | None => true
        | Some stored =>
            String.ltb (result_effectiveDateTime stored) (effectiveDateTime resource)
        end in
      if bool_decide (is_Some (Dict.get code LOINC_CODES)) && newer
      then Dict.set code
             {| result_effectiveDateTime := effectiveDateTime resource;
                result_value := observation_value resource |} lab_results
      else lab_results
  end.

(** [current_url = None], then the loop over the links: the last link with
    relation ["next"] wins. *)
Definition next_page_url (links : list Link) : option string :=
  foldl (λ current_url link,
           if bool_decide (relation link = "next") then Some (url link) else current_url)
    None links.

Section LabObservations.

(** [get_api(token, url)] for the observations endpoint; [None] when it
    raises. *)
Variable get_api : string → string → option ObservationsPage.

(** The [while] loop.  The state is [lab_results], [current_url] and, for the
    record, the urls requested so far. *)
Fixpoint observations_loop (fuel : nat) (token : string)
    (lab_results : list (string * LabResult)) (current_url : option string)
    (requested : list string)
  : Outcome (list (string * LabResult) * list string) :=
  match fuel with
  | O => OutOfFuel
  | S fuel' =>
      match current_url with
      | Some url =>
          if bool_decide (length lab_results ≠ 3%nat) then
            match get_api token url with
            | None => Raises
            | Some observations =>
                match observations_entry observations with
                | None => Raises
                | Some entries =>
                    observations_loop fuel' token
                      (foldl read_observation lab_results entries)
                      (next_page_url (observations_link observations))
                      (requested ++ [url])
                end
            end
          else Returned (lab_results, requested)
      | None => Returned (lab_results, requested)
      end
  end.

(** [{LOINC_CODES[key]: val['value'] for key, val in lab_results.items()}];
    a key outside [LOINC_CODES] would be a [KeyError]. *)
Fixpoint values_by_cell_type (lab_results : list (string * LabResult))
    (values : list (string * LabValue)) : option (list (string * LabValue)) :=
  match lab_results with
  | [] => Some values
  | (key, val) :: rest =>
      cell_type ← Dict.get key LOINC_CODES;
      values_by_cell_type rest (Dict.set cell_type (result_value val) values)
  end.

(** The result, with the urls requested. *)
Definition get_lab_observations_by_patient (fuel : nat) (patient_id token : string)
  : Outcome (list (string * LabValue) * list string) :=
  let current_url := OBSERVATION_URL +:+ "?patient=" +:+ patient_id +:+ "&_count=100" in
  match observations_loop fuel token [] (Some current_url) [] with
  | Returned (lab_results, requested) =>
      match values_by_cell_type lab_results [] with
      | Some values => Returned (values, requested)
      | None => Raises
      end
  | Raises => Raises
  | OutOfFuel => OutOfFuel
  end.

End LabObservations.

(** ** apis.py: [NciApi.get_trials] *)

Module NciApi.

(** What [_add_disease_list] reads of a trial: its id and the
    [nci_thesaurus_concept_id] of each of its diseases. *)
Record NciTrial := {
  nci_id : string;
  diseases : list string
}.

(** A trial as it is yielded, with [trial['ncit_codes']] set. *)
Record FoundTrial := {
  found_trial : NciTrial;
  found_codes : gset string
}.

Record TrialsPage := {
  page_total : Z;
  page_trials : list NciTrial
}.

(** A spawned page request: its [value] ([None] when [_get_trials_page]
    raised) and the start it was spawned for. *)
Record PageTask := {
  page_value : option TrialsPage;
  page_start : Z
}.

Definition size : Z := 50.

(** [range(start, stop, step)] for a positive [step]. *)
Definition py_range (start stop step : Z) : list Z :=
  (λ k : nat, start + Z.of_nat k * step)
    <$> seq 0 (Z.to_nat ((stop - start + step - 1) `div` step)).

(** The starts of the pages requested after the first one. *)
Definition later_starts (total : Z) : list Z :=
  if total >? size then py_range (1 + size) (1 + total) size else [].

(** [_add_disease_list]: the requested codes the trial has. *)
Definition add_disease_list (ncit_codes : gset string) (trial : NciTrial) : FoundTrial :=
  {| found_trial := trial;
     found_codes := ncit_codes ∩ list_to_set (diseases trial) |}.

Section GetTrials.

(** [_get_trials_page(start_from)] with the age, gender and codes the
    generator was called with; [None] when it raises. *)
Variable get_trials_page : Z → gset string → string → Z → option TrialsPage.

(** The order in which [iwait] hands over the greenlets of [pages]. *)
Variable iwait : list PageTask → list PageTask.

(** The loop over [iwait(pages)]; subscripting the [None] value of a
    greenlet that raised is a [TypeError]. *)
Fixpoint yield_pages (ncit_codes : gset string) (done : list PageTask)
  : list FoundTrial * UmlsApi.Ending :=
  match done with
  | [] => ([], UmlsApi.Exhausted)
  | page :: rest =>
      match page_value page with
      | None => ([], UmlsApi.Raised)
      | Some answer =>
          let '(found, ending) := yield_pages ncit_codes rest in
          ((add_disease_list ncit_codes <$> page_trials answer) ++ found, ending)
      end
  end.

Definition get_trials (age : Z) (gender : string) (ncit_codes : gset string)
  : list FoundTrial * UmlsApi.Ending :=
  match get_trials_page 1 ncit_codes gender age with
  | None => ([], UmlsApi.Raised)
  | Some first_page =>
      let first := add_disease_list ncit_codes <$> page_trials first_page in
      let total := page_total first_page in
      if total >? size then
        let pages :=
          (λ start_from,
             {| page_value := get_trials_page start_from ncit_codes gender age;
                page_start := start_from |})
            <$> py_range (1 + size) (1 + total) size in
        let '(found, ending) := yield_pages ncit_codes (iwait pages) in
        (first ++ found, ending)
      else (first, UmlsApi.Exhausted)
  end.

End GetTrials.

End NciApi.

(** ** authenticate_cms.py: [access_json_dump], and patient.py: [load_patient] *)

(** The JSON object [access_json_dump] writes, as [json.load] reads it back.
    [mrn] and [token] are what [mrn()] and [token()] return; a token of
    [None] is written as [null]. *)
Definition access_json_dump (mrn : string) (token : option string)
  : list (string * option string) :=
  [ ("patient", Some mrn); ("access_token", token) ].

(** [load_patient], from the object read from the file; [None] when a
    subscript raises [KeyError]. *)
Definition load_patient (code : list (string * option string))
  : option (list (string * option string)) :=
  mrn ← Dict.get "patient" code;
  token ← Dict.get "access_code" code;
  Some [ ("mrn", mrn); ("token", token) ].

(** ** Measures in which the further properties are stated *)

(** The greenlets [NciApi.get_trials] spawns when the first page reports
    [total] trials, in the order of the [range]. *)
Definition page_tasks (get_trials_page : Z → gset string → string → Z → option NciApi.TrialsPage)
    (age : Z) (gender : string) (ncit_codes : gset string) (total : Z)
  : list NciApi.PageTask :=
  (λ start_from,
     {| NciApi.page_value := get_trials_page start_from ncit_codes gender age;
        NciApi.page_start := start_from |}) <$> NciApi.later_starts total.

(** The trials a greenlet's page holds, annotated; none when it raised. *)
Definition task_trials (ncit_codes : gset string) (page : NciApi.PageTask)
  : list NciApi.FoundTrial :=
  NciApi.add_disease_list ncit_codes
    <$> from_option NciApi.page_trials [] (NciApi.page_value page).

(** How many pages [find_trials] requests for a code whose answers report
    [total] trials: [ceil(total / 50)], and one at least. *)
Definition page_count (total : Z) : nat :=
  Z.to_nat (Z.max 1 ((total + 49) `div` 50)).

(** Their [from] parameters: 1, 51, 101, ... *)
Definition page_froms (total : Z) : list Z :=
  (λ k : nat, 1 + 50 * Z.of_nat k) <$> seq 0 (page_count total).

Section FindTrialsMeasures.

Variable trials_service : TrialQuery → option TrialsAnswer.
Variable gender : string.
Variable age : Z.

(** What the service answers for a code and a start, and the total it
    reports for the code. *)
Variable answer : string → Z → TrialsAnswer.
Variable total_of : string → Z.

(** The service answers every request for the code, always with the same
    total. *)
Definition steady (ncit_dict : NcitCode) : Prop :=
  ∀ next_trial,
    trials_service (trial_query gender age (ncit ncit_dict) next_trial)
      = Some (answer (ncit ncit_dict) next_trial)
    ∧ answer_total (answer (ncit ncit_dict) next_trial) = total_of (ncit ncit_dict).

(** The trial sets built from the answers to the requests at [froms]. *)
Definition pages_of (ncit_dict : NcitCode) (froms : list Z) : list TrialSet :=
  (λ next_trial, {| code_ncit := ncit ncit_dict;
                    trialset := answer (ncit ncit_dict) next_trial |}) <$> froms.

End FindTrialsMeasures.

(** The entries of the pages at [urls], in order, as [get_api] gives them. *)
Definition fetched_entries (get_api : string → string → option ObservationsPage)
    (token : string) (urls : list string) : list (option Observation) :=
  urls ≫= λ url, default [] (get_api token url ≫= observations_entry).

(** The observation was taken no later than the other, by the order of
    Python's [str]. *)
Definition not_after (o' o : Observation) : Prop :=
  String.leb (effectiveDateTime o') (effectiveDateTime o) = true.

(** What [lab_results] holds after the entries [seen] were read: only
    tracked codes, each once; for each tracked code seen, an observation of
    that code that none of the others is later than. *)
Definition latest_of (seen : list (option Observation))
    (lab_results : list (string * LabResult)) : Prop :=
  NoDup (Dict.keys lab_results)
  ∧ (∀ code stored, Dict.get code lab_results = Some stored →
       is_Some (Dict.get code LOINC_CODES)
       ∧ ∃ o, Some o ∈ seen ∧ observation_code o = code
              ∧ effectiveDateTime o = result_effectiveDateTime stored
              ∧ observation_value o = result_value stored
              ∧ ∀ o', Some o' ∈ seen → observation_code o' = code → not_after o' o)
  ∧ (∀ o, Some o ∈ seen → is_Some (Dict.get (observation_code o) LOINC_CODES) →
          is_Some (Dict.get (observation_code o) lab_results)).

(** What the fallback's dictionary holds: keys that are a tracked cell type
    up to case, each once, with the key followed by the first attribute of
    an entity that the service returned for one of [chunks]. *)
Definition detected (detect_entities : string → option (list Entity))
    (chunks : list string) (conditions : list (string * string)) : Prop :=
  NoDup (Dict.keys conditions)
  ∧ ∀ entity_type text,
      Dict.get entity_type conditions = Some text →
      lower entity_type ∈ cell_types
      ∧ ∃ chunk entities entity attribute,
          chunk ∈ chunks ∧ detect_entities chunk = Some entities
          ∧ entity ∈ entities ∧ Text entity = entity_type
          ∧ head (Attributes entity) = Some attribute
          ∧ text = entity_type +:+ attribute.

(** ** Sample services and pages for the further examples *)

Module MoreSamples.

(** A conditions endpoint whose page lists a condition twice and links to
    itself as the last page. *)
Definition conditions_page : ConditionsPage :=
  {| conditions_entry :=
       [ {| condition_text := "Anemia (disorder)"; condition_code := "271737000" |};
         {| condition_text := "Anemia"; condition_code := "271737000" |};
         {| condition_text := "Malignant tumor of breast (disorder)";
            condition_code := "254837009" |} ];
     conditions_link :=
       [ {| relation := "self"; url := "page-1" |};
         {| relation := "last"; url := "page-1" |} ] |}.

Definition conditions_api : string → string → option ConditionsPage :=
  λ _ _, Some conditions_page.

(** A trials service that reports 120 trials for every code. *)
Definition trials_answer (ncit : string) (next_trial : Z) : TrialsAnswer :=
  {| answer_total := 120; answer_trials := [ncit] |}.

Definition trials_service (query : TrialQuery) : option TrialsAnswer :=
  Some (trials_answer (query_ncit query) (query_from query)).

Definition code_of (c : string) : NcitCode := {| ncit := c; ncit_details := [] |}.

Definition observation (code value date : string) : option Observation :=
  Some {| observation_code := code; observation_value := (value, "g/dL");
          effectiveDateTime := date |}.

(** Two pages of observations: two hemoglobin values, the later one first,
    an entry without a value and one of an untracked code on the first
    page; platelets and leukocytes on the second. *)
Definition observations_api (token url : string) : option ObservationsPage :=
  if bool_decide (url = "page-2") then
    Some {| observations_entry :=
              Some [ observation "777-3" "150000" "2020-03-01";
                     observation "6690-2" "4000" "2020-03-01" ];
            observations_link := [ {| relation := "self"; url := "page-2" |} ] |}
  else
    Some {| observations_entry :=
              Some [ observation "718-7" "12.5" "2020-05-01";
                     observation "718-7" "9.1" "2019-01-01";
                     None;
                     observation "2345-7" "90" "2021-01-01" ];
            observations_link := [ {| relation := "next"; url := "page-2" |} ] |}.

(** A page that holds all three codes and links to a next page. *)
Definition full_page : ObservationsPage :=
  {| observations_entry :=
       Some [ observation "777-3" "150000" "2020-03-01";
              observation "718-7" "12.5" "2020-05-01";
              observation "6690-2" "4000" "2020-03-01" ];
     observations_link := [ {| relation := "next"; url := "page-2" |} ] |}.

Definition full_page_api : string → string → option ObservationsPage :=
  λ _ _, Some full_page.

(** A trials endpoint with 120 trials, one trial on each page shown; the
    page starting at 101 raises in [failing_pages]. *)
Definition nci_page (start_from : Z) : NciApi.TrialsPage :=
  {| NciApi.page_total := 120;
     NciApi.page_trials :=
       [ {| NciApi.nci_id := if start_from =? 1 then "NCI-1"
                             else if start_from =? 51 then "NCI-51" else "NCI-101";
            NciApi.diseases := ["C123"; "C999"] |} ] |}.

Definition all_pages : Z → gset string → string → Z → option NciApi.TrialsPage :=
  λ start_from _ _ _, Some (nci_page start_from).

Definition failing_pages : Z → gset string → string → Z → option NciApi.TrialsPage :=
  λ start_from _ _ _, if start_from =? 101 then None else Some (nci_page start_from).

(** The greenlets complete in the reverse of the order they were spawned. *)
Definition last_first {A} : list A → list A := reverse.

(** A trial that mentions hemoglobin twice. *)
Definition two_hemoglobins : Trial :=
  Sample.trial_of [ "Hemoglobin >= 9 g/dL";
                    "Platelets >= 100,000/uL";
                    "Leukocytes >= 3,000/mcL";
                    "Hemoglobin >= 10 g/dL" ].

(** An observations endpoint every page of which holds a platelet count
    only and links to a next page. *)
Definition endless_api : string → string → option ObservationsPage :=
  λ _ _, Some {| observations_entry := Some [ observation "777-3" "150000" "2020-03-01" ];
                 observations_link := [ {| relation := "next"; url := "page-2" |} ] |}.

(** A trial with two of the three markers and an entry that mentions no
    cell type. *)
Definition two_markers : Trial :=
  Sample.trial_of [ "Hemoglobin >= 9 g/dL";
                    "Platelets >= 100,000/uL";
                    "Age >= 18 years" ].

End MoreSamples.

(** ** The mentions the fast path of [find_conditions] is stated for *)

(** A mention as a text reads: a cell type, comparison signs, a number and a
    unit with a slash, as in "hemoglobin >= 9 g/dl" and in
    "platelets >= 100,000/ul".  [unit_over] is empty when the slash follows
    the number at once. *)
Record Mention := {
  mention_cell : string;
  before_signs : string;
  signs : string;
  after_signs : string;
  digits : string;
  decimals : option (ascii * string);
  before_unit : string;
  unit_over : string;
  unit_under : string
}.

Definition decimals_text (d : option (ascii * string)) : string :=
  match d with
  | Some (separator, ds) => String separator ds
  | None => ""
  end.

(** The characters of the mention, in order. *)
Definition mention_text (m : Mention) : string :=
  mention_cell m +:+ before_signs m +:+ signs m +:+ after_signs m
    +:+ digits m +:+ decimals_text (decimals m)
    +:+ before_unit m +:+ unit_over m +:+ String "/" (unit_under m).

Fixpoint all_of (p : ascii → bool) (s : string) : bool :=
  match s with
  | EmptyString => true
  | String c s' => p c && all_of p s'
  end.

(** One character of [p] at least, and no other. *)
Definition some_of (p : ascii → bool) (s : string) : bool :=
  match s with
  | EmptyString => false
  | String _ _ => all_of p s
  end.

(** Nothing, or one whitespace character. *)
Definition opt_space (s : string) : bool :=
  match s with
  | EmptyString => true
  | String c EmptyString => is_space c
  | _ => false
  end.

Definition starts_with (p : ascii → bool) (s : string) : bool :=
  match s with
  | EmptyString => false
  | String c _ => p c
  end.

(** The shape of a mention.  With a word before the slash, the word does
    not begin with a digit that would run on from the number.  With the slash
    at once after the number, the number has a digit to spare: one after the
    separator, or two digits and no separator. *)
Definition well_formed (m : Mention) : bool :=
  bool_decide (mention_cell m ∈ cell_types)
  && opt_space (before_signs m) && some_of is_cmp (signs m) && opt_space (after_signs m)
  && some_of is_digit (digits m)
  && match decimals m with
     | Some (separator, ds) => is_dot_or_comma separator && all_of is_digit ds
     | None => true
     end
  && some_of is_word (unit_under m)
  && match unit_over m with
     | EmptyString =>
         bool_decide (before_unit m = "")
         && match decimals m with
            | Some (_, ds) => negb (bool_decide (ds = ""))
            | None => (2 <=? String.length (digits m))%nat
            end
     | String _ _ =>
         opt_space (before_unit m) && all_of is_word (unit_over m)
         && negb (starts_with is_digit (before_unit m +:+ unit_over m))
     end.

(** What may follow a mention: the end of the text, or a character that is
    neither a word character nor a caret. *)
Definition ends_mention (following : string) : bool :=
  match following with
  | EmptyString => true
  | String c _ => negb (is_word c) && negb (is_char "^" c)
  end.

(** What stands between two mentions: at least one character, the first
    neither a word character nor a caret. *)
Definition separates (between_mentions : string) : bool :=
  match between_mentions with
  | EmptyString => false
  | String _ _ => ends_mention between_mentions
  end.

(** A cell type, bare or after an opening bracket, begins the text. *)
Definition starts_mention (text : string) : bool :=
  existsb (λ cell_type,
             String.prefix cell_type text || String.prefix (String "[" cell_type) text)
    cell_types.

(** No cell type, bare or after an opening bracket, begins at a position of
    [stretch], read with [following] after it. *)
Fixpoint clear_of_mentions (stretch following : string) : bool :=
  match stretch with
  | EmptyString => true
  | String c stretch' =>
      negb (starts_mention (String c stretch' +:+ following))
      && clear_of_mentions stretch' following
  end.

(** The parts of [conditions_pattern], from its end. *)
Definition exponent : regex :=
  Opt (Group 3 (Seq (Chars (is_char "^")) (Many is_digit))).
Definition after_slash : regex :=
  Seq (Opt (Chars is_space)) (Seq (Many1 is_word) exponent).
Definition unit_part : regex :=
  Seq (Opt (Chars is_space))
    (Seq (Many1 is_word) (Seq (Opt (Chars (is_char "/"))) after_slash)).
Definition after_digits : regex :=
  Seq (Opt (Chars is_dot_or_comma)) (Seq (Many is_digit) unit_part).
Definition number_part : regex := Seq (Many1 is_digit) after_digits.
Definition comparison_part : regex :=
  Seq (Opt (Chars (is_char "]")))
    (Seq (Opt (Chars is_space))
       (Seq (Many1 is_cmp) (Seq (Opt (Chars is_space)) number_part))).

(** ** Sample mentions *)

Module MentionSample.

Definition hemoglobin_mention : Mention :=
  {| mention_cell := "hemoglobin"; before_signs := " "; signs := ">="; after_signs := " ";
     digits := "9"; decimals := None;
     before_unit := " "; unit_over := "g"; unit_under := "dl" |}.

Definition platelets_mention : Mention :=
  {| mention_cell := "platelets"; before_signs := " "; signs := ">="; after_signs := " ";
     digits := "100"; decimals := Some (","%char, "000");
     before_unit := ""; unit_over := ""; unit_under := "ul" |}.

Definition leukocytes_mention : Mention :=
  {| mention_cell := "leukocytes"; before_signs := " "; signs := ">="; after_signs := " ";
     digits := "3"; decimals := Some (","%char, "000");
     before_unit := ""; unit_over := ""; unit_under := "mcl" |}.

(** A trial whose three mentions have a unit of one word, so that the
    pattern's second word of a unit is taken from what follows. *)
Definition one_word_units : Trial :=
  Sample.trial_of [ "Leukocytes >= 3000 cells";
                    "Platelets >= 100000 cells";
                    "Hemoglobin >= 9 gm" ].

End MentionSample.
(** * Properties *)

(** ** Strings *)

Lemma length_take_drop (n : nat) (s : string) :
  (String.length (str_take n s) = Nat.min n (String.length s)
   ∧ String.length (str_drop n s) = String.length s - n)%nat.
Proof.
  revert s; induction n as [|n IH]; intros [|c s]; simpl; try (split; lia).
  destruct (IH s) as [-> ->]. split; lia.
Qed.

Lemma take_drop_append (n : nat) (s : string) : str_take n s +:+ str_drop n s = s.
Proof.
  revert s; induction n as [|n IH]; intros [|c s]; try reflexivity.
  change (String c (str_take n s +:+ str_drop n s) = String c s). now rewrite IH.
Qed.

Lemma length_append (s1 s2 : string) :
  String.length (s1 +:+ s2) = (String.length s1 + String.length s2)%nat.
Proof.
  induction s1 as [|c s1 IH]; [reflexivity|].
  change (S (String.length (s1 +:+ s2)) = S (String.length s1 + String.length s2)).
  now rewrite IH.
Qed.

Lemma slice_append (s : string) (k : Z) : slice_to s k +:+ slice_from s k = s.
Proof. apply take_drop_append. Qed.

Lemma concat_empty_cons (x : string) (xs : list string) :
  String.concat "" (x :: xs) = x +:+ String.concat "" xs.
Proof.
  destruct xs as [|y ys]; [|reflexivity].
  simpl. induction x as [|c x IH]; [reflexivity|].
  change (String c x = String c (x +:+ "")). now rewrite <- IH.
Qed.

(** ** [split_description] *)

Section SplitDescription.

Variable limit0 : Z.
Hypothesis limit0_positive : 0 < limit0.

Lemma slice_from_shorter (description : string) :
  len description > limit0 →
  (String.length (slice_from description limit0) < String.length description)%nat.
Proof.
  unfold len, slice_from, slice_index. intros Hlen.
  destruct (Z.ltb_spec limit0 0) as [?|_]; [lia|].
  destruct (length_take_drop (Z.to_nat limit0) description) as [_ ->]. lia.
Qed.

Lemma slice_to_length (description : string) :
  len (slice_to description limit0) <= limit0.
Proof.
  unfold len, slice_to, slice_index.
  destruct (Z.ltb_spec limit0 0) as [?|_]; [lia|].
  destruct (length_take_drop (Z.to_nat limit0) description) as [-> _]. lia.
Qed.

(** The pieces the loop adds to [data] do not depend on the fuel, as long as
    there is one round per character and one more. *)
Lemma split_description_loop_pieces (n : nat) :
  ∀ description, (String.length description ≤ n)%nat →
    ∃ pieces,
      pieces ≠ []
      ∧ String.concat "" pieces = description
      ∧ Forall (λ piece, len piece <= limit0) pieces
      ∧ ∀ fuel data, (String.length description < fuel)%nat →
          split_description_loop fuel data description limit0 = Some (data ++ pieces).
Proof.
  induction n as [|n IH]; intros description Hn.
  - destruct description; [|simpl in Hn; lia].
    exists [""]. repeat split; [discriminate| |].
    + repeat constructor. unfold len; simpl; lia.
    + intros [|fuel] data Hfuel; [simpl in Hfuel; lia|]. simpl.
      destruct (Z.gtb_spec (len "") limit0) as [H|_]; [|reflexivity].
      unfold len in H; simpl in H; lia.
  - destruct (Z.gtb_spec (len description) limit0) as [Hgt|Hle].
    + assert (Hshort := slice_from_shorter description ltac:(lia)).
      destruct (IH (slice_from description limit0) ltac:(lia))
        as (pieces & _ & Hcat & Hall & Hrun).
      exists (slice_to description limit0 :: pieces). repeat split.
      * discriminate.
      * rewrite concat_empty_cons, Hcat. apply slice_append.
      * constructor; [apply slice_to_length|exact Hall].
      * intros [|fuel] data Hfuel; [lia|]. simpl.
        destruct (Z.gtb_spec (len description) limit0) as [_|?]; [|lia].
        rewrite Hrun by lia. now rewrite <- app_assoc.
    + exists [description]. repeat split; [discriminate| |].
      * repeat constructor. lia.
      * intros [|fuel] data Hfuel; [lia|]. simpl.
        destruct (Z.gtb_spec (len description) limit0) as [?|_]; [lia|reflexivity].
Qed.

End SplitDescription.

Lemma split_description_pieces (description : string) (limit0 : Z) :
  0 < limit0 →
  ∃ pieces,
    pieces ≠ []
    ∧ String.concat "" pieces = description
    ∧ Forall (λ piece, len piece <= limit0) pieces
    ∧ ∀ fuel, (String.length description < fuel)%nat →
        split_description fuel description limit0 = Some pieces.
Proof.
  intros Hpos.
  destruct (split_description_loop_pieces limit0 Hpos _ description (Nat.le_refl _))
    as (pieces & Hne & Hcat & Hall & Hrun).
  exists pieces. repeat split; try assumption.
  intros fuel Hfuel. unfold split_description. now rewrite Hrun.
Qed.

(** With a limit of zero the loop of [split_description] never ends on a
    non-empty text: no amount of fuel is enough. *)
Lemma split_description_zero_limit (fuel : nat) (c : ascii) (description : string) :
  split_description fuel (String c description) 0 = None.
Proof.
  unfold split_description. generalize (@nil string) as data.
  induction fuel as [|fuel IH]; intros data; [reflexivity|].
  cbn [split_description_loop].
  replace (len (String c description) >? 0) with true
    by (symmetry; apply Z.gtb_lt; unfold len; simpl; lia).
  apply IH.
Qed.

Example split_description_sample :
  split_description 8 "abcdefg" 3 = Some ["abc"; "def"; "g"].
Proof. reflexivity. Qed.

(** C10: for every string and every positive limit, [split_description]
    returns (given one round of its loop per character and one more) a
    non-empty list of pieces whose concatenation, in order, is the string. *)
Theorem split_description_concat (description : string) (limit0 : Z) :
  0 < limit0 →
  ∃ pieces,
    (∀ fuel, (String.length description < fuel)%nat →
       split_description fuel description limit0 = Some pieces)
    ∧ String.concat "" pieces = description
    ∧ pieces ≠ [].
Proof.
  intros Hpos.
  destruct (split_description_pieces description limit0 Hpos)
    as (pieces & Hne & Hcat & _ & Hrun).
  exists pieces. auto.
Qed.

Lemma split_description_concat_witness :
  0 < 3 ∧
  ∃ pieces,
    (∀ fuel, (String.length "abcdefg" < fuel)%nat →
       split_description fuel "abcdefg" 3 = Some pieces)
    ∧ String.concat "" pieces = "abcdefg"
    ∧ pieces ≠ [].
Proof.
  split; [lia | apply (split_description_concat "abcdefg" 3); lia].
Defined.

(** ** The chunks sent to the detection service *)

Lemma limit_positive : 0 < limit.
Proof. reflexivity. Qed.

Lemma get_description_bounded (descriptions : list string) :
  ∀ data, len data <= limit →
    Forall (λ chunk, len chunk <= limit) (get_description data descriptions).
Proof.
  induction descriptions as [|value rest IH]; intros data Hdata; simpl.
  - repeat constructor. exact Hdata.
  - destruct (Z.gtb_spec (len (prepare value)) limit) as [Hbig|Hfits].
    + destruct (split_description_pieces (prepare value) limit limit_positive)
        as (pieces & _ & _ & Hall & Hrun).
      rewrite Hrun by lia. simpl. apply Forall_app. split; [exact Hall|now apply IH].
    + destruct (Z.gtb_spec (len data + len (prepare value)) limit) as [Hfull|Hroom].
      * constructor; [exact Hdata|now apply IH].
      * apply IH. unfold len in *. rewrite length_append. lia.
Qed.

Lemma get_description_oversized (descriptions : list string) (value : string) :
  value ∈ descriptions → len (prepare value) > limit →
  ∀ data pieces,
    split_description (S (String.length (prepare value))) (prepare value) limit
      = Some pieces →
    pieces ⊆ get_description data descriptions.
Proof.
  intros Hin Hbig. induction descriptions as [|value' rest IH]; intros data pieces Hsplit.
  - inversion Hin.
  - simpl. apply elem_of_cons in Hin as [<-|Hin].
    + destruct (Z.gtb_spec (len (prepare value)) limit) as [_|?]; [|lia].
      rewrite Hsplit. simpl. intros piece Hpiece. apply elem_of_app. now left.
    + destruct (Z.gtb_spec (len (prepare value')) limit) as [_|_].
      * intros piece Hpiece. apply elem_of_app. right. now apply (IH Hin data pieces).
      * destruct (Z.gtb_spec (len data + len (prepare value')) limit) as [_|_].
        -- intros piece Hpiece. apply elem_of_cons. right. now apply (IH Hin _ pieces).
        -- now apply IH.
Qed.

Lemma detect_chunks_calls detect_entities (chunks : list string) :
  ∀ conditions calls,
    (detect_chunks detect_entities chunks (conditions, calls)).2 = calls ++ chunks.
Proof.
  induction chunks as [|chunk rest IH]; intros conditions calls; simpl.
  - now rewrite app_nil_r.
  - destruct (detect_entities chunk); rewrite IH, <- app_assoc; reflexivity.
Qed.

(** C9: every text [get_mapping_with_aws_comprehend] calls the detection
    service with has at most 19999 characters; and an entry longer than that
    is cut by [split_description] into pieces of at most 19999 characters
    that make up the entry and are each sent to the service. *)
Theorem detection_chunks_bounded detect_entities (descriptions : list string) :
  Forall (λ text, len text <= 19999)
    (get_mapping_with_aws_comprehend detect_entities descriptions).2
  ∧ ∀ value, value ∈ descriptions → len (prepare value) > 19999 →
      ∃ pieces,
        split_description (S (String.length (prepare value))) (prepare value) 19999
          = Some pieces
        ∧ String.concat "" pieces = prepare value
        ∧ Forall (λ piece, len piece <= 19999) pieces
        ∧ pieces ⊆ (get_mapping_with_aws_comprehend detect_entities descriptions).2.
Proof.
  unfold get_mapping_with_aws_comprehend. rewrite detect_chunks_calls. simpl. split.
  - apply get_description_bounded. unfold len, limit. simpl. lia.
  - intros value Hin Hbig.
    destruct (split_description_pieces (prepare value) limit limit_positive)
      as (pieces & _ & Hcat & Hall & Hrun).
    exists pieces. repeat split; try assumption.
    + apply Hrun. lia.
    + apply (get_description_oversized descriptions value Hin Hbig).
      apply Hrun. lia.
Qed.

Lemma detection_chunks_bounded_witness :
  Forall (λ text, len text <= 19999)
    (get_mapping_with_aws_comprehend Sample.service_down
       ["Platelets >= 100,000/uL"; Sample.long_entry; "Age >= 18"]).2
  ∧ ∃ pieces,
      split_description (S (String.length (prepare Sample.long_entry)))
        (prepare Sample.long_entry) 19999 = Some pieces
      ∧ String.concat "" pieces = prepare Sample.long_entry
      ∧ Forall (λ piece, len piece <= 19999) pieces
      ∧ pieces ⊆ (get_mapping_with_aws_comprehend Sample.service_down
                    ["Platelets >= 100,000/uL"; Sample.long_entry; "Age >= 18"]).2.
Proof.
  destruct (detection_chunks_bounded Sample.service_down
              ["Platelets >= 100,000/uL"; Sample.long_entry; "Age >= 18"])
    as [Hbound Hsplit].
  split; [exact Hbound|]. apply (Hsplit Sample.long_entry).
  - apply elem_of_cons. right. apply elem_of_cons. now left.
  - vm_compute. reflexivity.
Defined.

Example get_description_sample :
  len <$> get_description "" ["Platelets >= 100,000/uL"; Sample.long_entry; "Age >= 18"]
  = [19999; 12; 31].
Proof. vm_compute. reflexivity. Qed.

Example eval_comparison_holds : Sample.eval_comparison "4500>= 3000" = Some true.
Proof. reflexivity. Qed.

Example eval_comparison_fails : Sample.eval_comparison "90000 >= 100000" = Some false.
Proof. reflexivity. Qed.

Example eval_comparison_raises : Sample.eval_comparison "4500= 3000" = None.
Proof. reflexivity. Qed.

(** ** [find_conditions] *)

Example joined_description_sample :
  joined_description (trial_json Sample.three_mentions)
  = "hemoglobin >= 9 g/dl platelets >= 100,000/ul leukocytes >= 3,000/mcl".
Proof. vm_compute. reflexivity. Qed.

Example findall_sample :
  findall3 conditions_pattern (joined_description (trial_json Sample.three_mentions))
  = [ ("hemoglobin >= 9 g/dl", "hemoglobin", "");
      ("platelets >= 100,000/ul", "platelets", "");
      ("leukocytes >= 3,000/mcl", "leukocytes", "") ].
Proof. vm_compute. reflexivity. Qed.

(** Three matches of the pattern, one for each of hemoglobin, platelets and
    leukocytes, give the three conditions, each cell type with the text of
    its match, and no call of the detection service. *)
Lemma fast_path_of_matches detect_entities (trial : TrialJson)
    (m1 m2 m3 : string * string * string) :
  findall3 conditions_pattern (joined_description trial) = [m1; m2; m3] →
  [m1.1.2; m2.1.2; m3.1.2] ≡ₚ cell_types →
  find_conditions_calls detect_entities trial
  = ([(m1.1.2, m1.1.1); (m2.1.2, m2.1.1); (m3.1.2, m3.1.1)], []).
Proof.
  intros Hfind Hperm.
  assert (Hdup : NoDup [m1.1.2; m2.1.2; m3.1.2]).
  { rewrite Hperm. unfold cell_types.
    repeat (apply NoDup_cons; split); try apply NoDup_nil_2;
      rewrite ?elem_of_cons, ?elem_of_nil; intuition discriminate. }
  apply NoDup_cons in Hdup as [H1 Hdup]. apply NoDup_cons in Hdup as [H2 _].
  assert (m1.1.2 ≠ m2.1.2 ∧ m1.1.2 ≠ m3.1.2 ∧ m2.1.2 ≠ m3.1.2) as (H12 & H13 & H23).
  { repeat split; intros E; [apply H1|apply H1|apply H2]; rewrite E;
      rewrite !elem_of_cons; auto. }
  unfold find_conditions_calls. rewrite Hfind.
  rewrite bool_decide_true.
  - unfold conditions_of_matches. simpl.
    rewrite (bool_decide_false _ H12). simpl.
    rewrite (bool_decide_false _ H13), (bool_decide_false _ H23). reflexivity.
  - intros Hempty. rewrite Hempty in Hfind. discriminate Hfind.
Qed.

(** ** [filter_trials_from_description] *)

Section FilterProperties.

Variable detect_entities : string → option (list Entity).
Variable py_eval : string → option bool.
Variable lab_results : gmap string LabValue.

Lemma check_conditions_cons cell_type condition rest include_trail decisions :
  check_conditions py_eval lab_results ((cell_type, condition) :: rest)
    include_trail decisions
  = holds ← passes py_eval lab_results cell_type condition;
    check_conditions py_eval lab_results rest (include_trail && holds)
      (decisions ++ [(condition, holds)]).
Proof.
  simpl. unfold passes.
  destruct (lab_results !! cell_type) as [lab_value|]; simpl.
  - destruct (convert_expressions lab_value condition) as [value converted].
    destruct (bool_decide (value ≠ "0")); simpl;
      [destruct (py_eval (value +:+ converted)) as [[|]|]; simpl|];
      rewrite ?andb_true_r, ?andb_false_r; reflexivity.
  - now rewrite andb_true_r.
Qed.

Lemma check_conditions_spec (conditions : list (string * string)) :
  ∀ include_trail decisions,
    check_conditions py_eval lab_results conditions include_trail decisions
    = ds ← mapM (λ c, passes py_eval lab_results c.1 c.2) conditions;
      Some (include_trail && forallb id ds, decisions ++ zip conditions.*2 ds).
Proof.
  induction conditions as [|[cell_type condition] rest IH];
    intros include_trail decisions.
  - simpl. now rewrite andb_true_r, app_nil_r.
  - rewrite check_conditions_cons.
    change (mapM (λ c, passes py_eval lab_results c.1 c.2) ((cell_type, condition) :: rest))
      with (holds ← passes py_eval lab_results cell_type condition;
            ds ← mapM (λ c, passes py_eval lab_results c.1 c.2) rest; Some (holds :: ds)).
    destruct (passes py_eval lab_results cell_type condition) as [holds|]; simpl; [|reflexivity].
    rewrite IH. destruct (mapM _ rest) as [ds|]; simpl; [|reflexivity].
    now rewrite <- app_assoc, andb_assoc.
Qed.

Lemma forallb_id_false (ds : list bool) :
  forallb id ds = false ↔ ∃ j, ds !! j = Some false.
Proof.
  induction ds as [|[|] ds IH]; simpl.
  - split; [discriminate|]. intros [j Hj]. discriminate Hj.
  - rewrite IH. split; intros [j Hj]; [now exists (S j)|].
    destruct j as [|j]; [discriminate Hj|now exists j].
  - split; [|reflexivity]. intros _. now exists 0%nat.
Qed.

(** The decisions recorded for a trial with conditions, one by one. *)
Lemma check_conditions_decisions (conditions : list (string * string))
    (include_trail : bool) (decisions : list (string * bool)) :
  check_conditions py_eval lab_results conditions true []
    = Some (include_trail, decisions) →
  (∀ j cell_type condition,
     conditions !! j = Some (cell_type, condition) →
     ∃ holds, passes py_eval lab_results cell_type condition = Some holds
              ∧ decisions !! j = Some (condition, holds))
  ∧ (include_trail = false ↔
       ∃ j cell_type condition,
         conditions !! j = Some (cell_type, condition)
         ∧ passes py_eval lab_results cell_type condition = Some false).
Proof.
  rewrite check_conditions_spec.
  destruct (mapM _ conditions) as [ds|] eqn:Hds; [|discriminate]. simpl.
  intros [= <- <-]. apply mapM_Some in Hds. split.
  - intros j cell_type condition Hj.
    destruct (Forall2_lookup_l _ _ _ _ _ Hds Hj) as (holds & Hholds & Hpass).
    exists holds. split; [exact Hpass|].
    rewrite lookup_zip_with, list_lookup_fmap, Hj. simpl. now rewrite Hholds.
  - rewrite forallb_id_false. split.
    + intros (j & Hj).
      destruct (Forall2_lookup_r _ _ _ _ _ Hds Hj) as ([cell_type condition] & Hc & Hpass).
      now exists j, cell_type, condition.
    + intros (j & cell_type & condition & Hc & Hpass).
      destruct (Forall2_lookup_l _ _ _ _ _ Hds Hc) as (holds & Hholds & Hpass').
      exists j. simpl in Hpass'. congruence.
Qed.

Lemma filter_trials_loop_cons trial rest filtered_trials excluded_trials :
  filter_trials_loop detect_entities py_eval lab_results (trial :: rest)
    filtered_trials excluded_trials
  = '(trial', included) ← judge detect_entities py_eval lab_results trial;
    filter_trials_loop detect_entities py_eval lab_results rest
      (if included : bool then filtered_trials ++ [trial'] else filtered_trials)
      (if included : bool then excluded_trials else excluded_trials ++ [trial']).
Proof.
  unfold judge. cbn [filter_trials_loop].
  destruct (find_conditions detect_entities (trial_json trial)) as [|c conditions];
    [reflexivity|].
  destruct (check_conditions py_eval lab_results (c :: conditions) true [])
    as [[[|] decisions]|]; reflexivity.
Qed.

Lemma filter_trials_loop_spec (trials : list Trial) :
  ∀ filtered_trials excluded_trials,
    filter_trials_loop detect_entities py_eval lab_results trials
      filtered_trials excluded_trials
    = verdicts ← mapM (judge detect_entities py_eval lab_results) trials;
      Some (filtered_trials ++ kept verdicts, excluded_trials ++ dropped verdicts).
Proof.
  unfold kept, dropped.
  induction trials as [|trial rest IH]; intros filtered_trials excluded_trials.
  - simpl. now rewrite !app_nil_r.
  - rewrite filter_trials_loop_cons.
    change (mapM (judge detect_entities py_eval lab_results) (trial :: rest))
      with (v ← judge detect_entities py_eval lab_results trial; vs ← mapM (judge detect_entities py_eval lab_results) rest; Some (v :: vs)).
    destruct (judge detect_entities py_eval lab_results trial) as [[trial' [|]]|]; simpl; [| |reflexivity];
      rewrite IH; destruct (mapM (judge detect_entities py_eval lab_results) rest) as [verdicts|]; simpl; try reflexivity.
    + rewrite !filter_cons. simpl. now rewrite <- app_assoc.
    + rewrite !filter_cons. simpl. now rewrite <- app_assoc.
Qed.

Lemma filter_trials_verdicts (trials F E : list Trial) :
  filter_trials_from_description detect_entities py_eval lab_results trials
    = Some (F, E) →
  ∃ verdicts,
    Forall2 (λ trial v, judge detect_entities py_eval lab_results trial = Some v) trials verdicts
    ∧ F = kept verdicts ∧ E = dropped verdicts.
Proof.
  unfold filter_trials_from_description. rewrite filter_trials_loop_spec.
  destruct (mapM (judge detect_entities py_eval lab_results) trials) as [verdicts|] eqn:Hv; [|discriminate].
  simpl. intros [= <- <-]. exists verdicts. apply mapM_Some in Hv. auto.
Qed.

Lemma judge_inv (trial trial' : Trial) (included : bool) :
  judge detect_entities py_eval lab_results trial = Some (trial', included) →
  trial_json trial' = trial_json trial
  ∧ (find_conditions detect_entities (trial_json trial) = [] →
       trial' = set_filter_condition trial [("No Inclusion Criteria Found", true)]
       ∧ included = true)
  ∧ (∀ j cell_type condition,
       find_conditions detect_entities (trial_json trial) !! j
         = Some (cell_type, condition) →
       ∃ holds, passes py_eval lab_results cell_type condition = Some holds
                ∧ filter_condition trial' !! j = Some (condition, holds))
  ∧ (included = false ↔
       ∃ j cell_type condition,
         find_conditions detect_entities (trial_json trial) !! j
           = Some (cell_type, condition)
         ∧ passes py_eval lab_results cell_type condition = Some false).
Proof.
  unfold judge.
  destruct (find_conditions detect_entities (trial_json trial))
    as [|c conditions] eqn:Hfind.
  - intros [= <- <-]. split; [reflexivity|]. split; [now intros _|]. split.
    + intros j cell_type condition Hj. rewrite lookup_nil in Hj. discriminate Hj.
    + split; [discriminate|].
      intros (j & cell_type & condition & Hj & _).
      rewrite lookup_nil in Hj. discriminate Hj.
  - destruct (check_conditions py_eval lab_results (c :: conditions) true [])
      as [[include_trail decisions]|] eqn:Hcheck; [|discriminate].
    simpl. intros [= <- <-].
    destruct (check_conditions_decisions _ _ _ Hcheck) as [Hdec Hincl].
    split; [reflexivity|]. split; [discriminate|]. split; [exact Hdec|exact Hincl].
Qed.

Lemma zip_decisions_true (texts : list string) (ds : list bool) (j : nat)
    (condition : string) (holds : bool) :
  forallb id ds = true →
  zip texts ds !! j = Some (condition, holds) → holds = true.
Proof.
  intros Hall. rewrite lookup_zip_with. intros Hj.
  destruct (texts !! j) as [text|]; [|discriminate]. simpl in Hj.
  destruct (ds !! j) as [b|] eqn:Hb; [|discriminate]. injection Hj as _ <-.
  destruct b; [reflexivity|].
  assert (forallb id ds = false) by (apply forallb_id_false; now exists j).
  congruence.
Qed.

Lemma kept_all_true (trial trial' : Trial) :
  judge detect_entities py_eval lab_results trial = Some (trial', true) →
  ∀ j condition holds,
    filter_condition trial' !! j = Some (condition, holds) → holds = true.
Proof.
  unfold judge.
  destruct (find_conditions detect_entities (trial_json trial)) as [|c conditions].
  - intros [= <-] [|j] condition holds; simpl; [now intros [= _ <-]|discriminate].
  - rewrite check_conditions_spec.
    destruct (mapM _ (c :: conditions)) as [ds|]; [|discriminate].
    cbv beta iota delta [mbind option_bind]. intros [= <- Hall] j condition holds Hj.
    cbn [filter_condition set_filter_condition] in Hj.
    change (zip (c :: conditions).*2 ds !! j = Some (condition, holds)) in Hj.
    exact (zip_decisions_true _ ds j condition holds Hall Hj).
Qed.

Lemma verdict_of_trial (trials F E : list Trial) (i : nat) (trial : Trial) :
  filter_trials_from_description detect_entities py_eval lab_results trials
    = Some (F, E) →
  trials !! i = Some trial →
  ∃ trial' included,
    judge detect_entities py_eval lab_results trial = Some (trial', included)
    ∧ (if included then trial' ∈ F else trial' ∈ E).
Proof.
  intros Hrun Hi.
  destruct (filter_trials_verdicts _ _ _ Hrun) as (verdicts & Hall & -> & ->).
  destruct (Forall2_lookup_l _ _ _ _ _ Hall Hi) as ([trial' included] & Hv & Hjudge).
  exists trial', included. split; [exact Hjudge|].
  apply list_elem_of_lookup_2 in Hv.
  destruct included; apply list_elem_of_fmap;
    [exists (trial', true)|exists (trial', false)];
    (split; [reflexivity|]); apply list_elem_of_filter; auto.
Qed.

Lemma trial_of_verdict (trials F E : list Trial) (trial' : Trial) :
  filter_trials_from_description detect_entities py_eval lab_results trials
    = Some (F, E) →
  (trial' ∈ F → ∃ trial, trial ∈ trials ∧ judge detect_entities py_eval lab_results trial = Some (trial', true))
  ∧ (trial' ∈ E → ∃ trial, trial ∈ trials ∧ judge detect_entities py_eval lab_results trial = Some (trial', false)).
Proof.
  intros Hrun.
  destruct (filter_trials_verdicts _ _ _ Hrun) as (verdicts & Hall & -> & ->).
  split; intros Hin; apply list_elem_of_fmap in Hin as ([t b] & -> & Hin);
    apply list_elem_of_filter in Hin as [Hb Hin]; simpl in Hb; subst b;
    apply list_elem_of_lookup_1 in Hin as [i Hi];
    destruct (Forall2_lookup_r _ _ _ _ _ Hall Hi) as (trial & Ht & Hjudge);
    exists trial; split; eauto using list_elem_of_lookup_2.
Qed.

(** A trial with a condition that evaluates to false ends up excluded, with
    the failure recorded at the condition's place. *)
Lemma failing_condition_excludes (trials F E : list Trial) (i j : nat)
    (trial : Trial) (cell_type condition : string) :
  filter_trials_from_description detect_entities py_eval lab_results trials
    = Some (F, E) →
  trials !! i = Some trial →
  find_conditions detect_entities (trial_json trial) !! j
    = Some (cell_type, condition) →
  passes py_eval lab_results cell_type condition = Some false →
  ∃ trial',
    trial' ∈ E ∧ (trial' ∉ F)
    ∧ trial_json trial' = trial_json trial
    ∧ filter_condition trial' !! j = Some (condition, false).
Proof.
  intros Hrun Hi Hj Hfail.
  destruct (verdict_of_trial _ _ _ _ _ Hrun Hi) as (trial' & included & Hjudge & Hin).
  destruct (judge_inv _ _ _ Hjudge) as (Hjson & _ & Hdec & Hincl).
  destruct (Hdec _ _ _ Hj) as (holds & Hholds & Hrec).
  assert (holds = false) as -> by congruence.
  assert (included = false) as -> by (apply Hincl; eauto).
  exists trial'. repeat split; try assumption.
  intros HF. apply (trial_of_verdict _ _ _ trial' Hrun) in HF as (other & _ & Hother).
  discriminate (kept_all_true _ _ Hother _ _ _ Hrec).
Qed.

(** The call raises only when [eval] does. *)
Lemma filter_trials_returns (trials : list Trial) :
  (∀ text, is_Some (py_eval text)) →
  is_Some (filter_trials_from_description detect_entities py_eval lab_results trials).
Proof.
  intros Heval. unfold filter_trials_from_description. rewrite filter_trials_loop_spec.
  assert (Hjudge : ∀ trial, is_Some (judge detect_entities py_eval lab_results trial)).
  { intros trial. unfold judge.
    destruct (find_conditions detect_entities (trial_json trial)) as [|c conditions];
      [eauto|].
    rewrite check_conditions_spec.
    assert (Hds : is_Some (mapM (λ c, passes py_eval lab_results c.1 c.2) (c :: conditions))).
    { apply mapM_is_Some, Forall_forall. intros [cell_type condition] _.
      unfold compose, passes. simpl.
      destruct (lab_results !! cell_type) as [lab_value|]; [|eauto].
      destruct (convert_expressions lab_value condition) as [value converted].
      destruct (bool_decide (value ≠ "0")); eauto. }
    destruct Hds as [ds ->]. simpl. eauto. }
  assert (Hall : is_Some (mapM (judge detect_entities py_eval lab_results) trials)).
  { apply mapM_is_Some, Forall_forall. intros trial _. apply Hjudge. }
  destruct Hall as [verdicts ->]. simpl. eauto.
Qed.

(** C3: a trial for which [find_conditions] returns no condition is put,
    marked as having no inclusion criteria, in the filtered list, and is not
    in the excluded list. *)
Theorem no_conditions_filtered_in (trials F E : list Trial) (i : nat) (trial : Trial) :
  filter_trials_from_description detect_entities py_eval lab_results trials
    = Some (F, E) →
  trials !! i = Some trial →
  find_conditions detect_entities (trial_json trial) = [] →
  set_filter_condition trial [("No Inclusion Criteria Found", true)] ∈ F
  ∧ (set_filter_condition trial [("No Inclusion Criteria Found", true)] ∉ E).
Proof.
  intros Hrun Hi Hnone.
  destruct (verdict_of_trial _ _ _ _ _ Hrun Hi) as (trial' & included & Hjudge & Hin).
  destruct (judge_inv _ _ _ Hjudge) as (_ & Hmark & _).
  destruct (Hmark Hnone) as [-> ->]. split; [exact Hin|].
  intros HE. apply (trial_of_verdict _ _ _ _ Hrun) in HE as (other & _ & Hother).
  destruct (judge_inv _ _ _ Hother) as (_ & _ & Hdec & Hincl).
  destruct Hincl as [Hincl _].
  destruct (Hincl eq_refl) as (j & cell_type & condition & Hj & Hfail).
  destruct (Hdec _ _ _ Hj) as (holds & Hholds & Hrec).
  assert (holds = false) as -> by congruence.
  destruct j as [|j]; simpl in Hrec; [|rewrite lookup_nil in Hrec]; discriminate Hrec.
Qed.

(** C4: when [filter_trials_from_description] returns, every trial has a
    verdict, the filtered list is the trials kept and the excluded list the
    trials dropped, in order; a condition whose cell type has no entry in the
    lab results is recorded as passed; and a trial is dropped exactly when one
    of its conditions evaluates to false. *)
Theorem excluded_iff_condition_fails (trials F E : list Trial) :
  filter_trials_from_description detect_entities py_eval lab_results trials
    = Some (F, E) →
  ∃ verdicts : list (Trial * bool),
    F = kept verdicts ∧ E = dropped verdicts
    ∧ length verdicts = length trials
    ∧ ∀ i trial, trials !! i = Some trial →
        ∃ trial' included,
          verdicts !! i = Some (trial', included)
          ∧ trial_json trial' = trial_json trial
          ∧ (∀ j cell_type condition,
               find_conditions detect_entities (trial_json trial) !! j
                 = Some (cell_type, condition) →
               lab_results !! cell_type = None →
               passes py_eval lab_results cell_type condition = Some true
               ∧ filter_condition trial' !! j = Some (condition, true))
          ∧ (included = false ↔
               ∃ j cell_type condition,
                 find_conditions detect_entities (trial_json trial) !! j
                   = Some (cell_type, condition)
                 ∧ passes py_eval lab_results cell_type condition = Some false
                 ∧ filter_condition trial' !! j = Some (condition, false)).
Proof.
  intros Hrun.
  destruct (filter_trials_verdicts _ _ _ Hrun) as (verdicts & Hall & -> & ->).
  exists verdicts. split; [reflexivity|]. split; [reflexivity|].
  split; [symmetry; apply (Forall2_length _ _ _ Hall)|].
  intros i trial Hi.
  destruct (Forall2_lookup_l _ _ _ _ _ Hall Hi) as ([trial' included] & Hv & Hjudge).
  exists trial', included. split; [exact Hv|].
  destruct (judge_inv _ _ _ Hjudge) as (Hjson & _ & Hdec & Hincl).
  split; [exact Hjson|]. split.
  - intros j cell_type condition Hj Hmissing.
    destruct (Hdec _ _ _ Hj) as (holds & Hholds & Hrec).
    assert (holds = true) as ->.
    { unfold passes in Hholds. rewrite Hmissing in Hholds. congruence. }
    auto.
  - rewrite Hincl. split.
    + intros (j & cell_type & condition & Hj & Hfail).
      destruct (Hdec _ _ _ Hj) as (holds & Hholds & Hrec).
      assert (holds = false) as -> by congruence.
      now exists j, cell_type, condition.
    + intros (j & cell_type & condition & Hj & Hfail & _).
      now exists j, cell_type, condition.
Qed.

(** C1, amended: when the lab value of a condition's cell type is the string
    "0", the condition is recorded as failed, whatever its operator and
    threshold, and the trial is in the excluded list and not in the filtered
    list. *)
Theorem zero_lab_value_excludes (trials F E : list Trial) (i j : nat)
    (trial : Trial) (cell_type condition unit_text : string) :
  filter_trials_from_description detect_entities py_eval lab_results trials
    = Some (F, E) →
  trials !! i = Some trial →
  find_conditions detect_entities (trial_json trial) !! j
    = Some (cell_type, condition) →
  lab_results !! cell_type = Some ("0", unit_text) →
  ∃ trial',
    trial' ∈ E ∧ (trial' ∉ F)
    ∧ trial_json trial' = trial_json trial
    ∧ filter_condition trial' !! j = Some (condition, false).
Proof.
  intros Hrun Hi Hj Hzero.
  apply (failing_condition_excludes _ _ _ _ _ _ _ _ Hrun Hi Hj).
  unfold passes, LabValue in *. rewrite Hzero. unfold convert_expressions.
  destruct (findall1 expression_pattern condition); reflexivity.
Qed.

(** C6, amended: when the pattern of [convert_expressions] finds no operator
    and number in a condition and the patient has a lab value for its cell
    type, the condition is recorded as failed, whatever the lab value, and the
    trial is in the excluded list and not in the filtered list. *)
Theorem no_threshold_excludes (trials F E : list Trial) (i j : nat)
    (trial : Trial) (cell_type condition : string) (lab_value : LabValue) :
  filter_trials_from_description detect_entities py_eval lab_results trials
    = Some (F, E) →
  trials !! i = Some trial →
  find_conditions detect_entities (trial_json trial) !! j
    = Some (cell_type, condition) →
  lab_results !! cell_type = Some lab_value →
  findall1 expression_pattern condition = [] →
  ∃ trial',
    trial' ∈ E ∧ (trial' ∉ F)
    ∧ trial_json trial' = trial_json trial
    ∧ filter_condition trial' !! j = Some (condition, false).
Proof.
  intros Hrun Hi Hj Hlab Hnone.
  apply (failing_condition_excludes _ _ _ _ _ _ _ _ Hrun Hi Hj).
  unfold passes, LabValue in *. rewrite Hlab. unfold convert_expressions.
  now rewrite Hnone.
Qed.

End FilterProperties.

(** *** Examples, and the theorems above at sample inputs *)

Example convert_expressions_sample :
  convert_expressions ("4500", "/mcL") "leukocytes >= 3,000/mcl" = ("4500", " >= 3000").
Proof. vm_compute. reflexivity. Qed.

Example all_conditions_pass :
  filter_trials_from_description Sample.service_down Sample.eval_comparison
    (<["platelets" := ("150000", "/uL")]> labs_hemoglobin) [Sample.three_mentions]
  = Some ([three_mentions_decided true true true], []).
Proof. vm_compute. reflexivity. Qed.

(** An operator [eval] cannot parse makes the whole call raise. *)
Example equals_sign_raises :
  filter_trials_from_description
    (λ _, Some [ {| Text := "hemoglobin"; Attributes := [" = 9"] |} ])
    Sample.eval_comparison labs_hemoglobin [Sample.no_threshold]
  = None.
Proof. vm_compute. reflexivity. Qed.

Lemma no_conditions_filtered_in_witness :
  marked_no_criteria Sample.no_text ∈ [marked_no_criteria Sample.no_text]
  ∧ (marked_no_criteria Sample.no_text ∉ @nil Trial).
Proof.
  apply (no_conditions_filtered_in Sample.service_down Sample.eval_comparison ∅
           [Sample.no_text] [marked_no_criteria Sample.no_text] [] 0 Sample.no_text).
  - vm_compute. reflexivity.
  - reflexivity.
  - vm_compute. reflexivity.
Defined.

Lemma excluded_iff_condition_fails_witness :
  ∃ verdicts : list (Trial * bool),
    [] = kept verdicts
    ∧ [three_mentions_decided true false true] = dropped verdicts
    ∧ length verdicts = 1%nat
    ∧ ∀ i trial, [Sample.three_mentions] !! i = Some trial →
        ∃ trial' included,
          verdicts !! i = Some (trial', included)
          ∧ trial_json trial' = trial_json trial
          ∧ (∀ j cell_type condition,
               find_conditions Sample.service_down (trial_json trial) !! j
                 = Some (cell_type, condition) →
               labs_low_platelets !! cell_type = None →
               passes Sample.eval_comparison labs_low_platelets cell_type condition
                 = Some true
               ∧ filter_condition trial' !! j = Some (condition, true))
          ∧ (included = false ↔
               ∃ j cell_type condition,
                 find_conditions Sample.service_down (trial_json trial) !! j
                   = Some (cell_type, condition)
                 ∧ passes Sample.eval_comparison labs_low_platelets cell_type condition
                   = Some false
                 ∧ filter_condition trial' !! j = Some (condition, false)).
Proof.
  apply (excluded_iff_condition_fails Sample.service_down Sample.eval_comparison
           labs_low_platelets [Sample.three_mentions]
           [] [three_mentions_decided true false true]).
  vm_compute. reflexivity.
Defined.

(** With a hemoglobin of 5 the condition [< 9] of the sample trial passes. *)
Example low_hemoglobin_passes :
  filter_trials_from_description Sample.service_down Sample.eval_comparison
    {["hemoglobin" := ("5", "g/dL")]} [Sample.low_hemoglobin]
  = Some ([low_hemoglobin_decided true true true], []).
Proof. vm_compute. reflexivity. Qed.

(** C1 as stated fails: with a lab value of "0" the condition is recorded as
    failed, here although 0 is below 9, and the trial is excluded. *)
Lemma zero_lab_value_recorded_as_failed :
  filter_trials_from_description Sample.service_down Sample.eval_comparison
    labs_zero_hemoglobin [Sample.low_hemoglobin]
  = Some ([], [low_hemoglobin_decided false true true]).
Proof. vm_compute. reflexivity. Qed.

Lemma zero_lab_value_excludes_witness :
  ∃ trial',
    trial' ∈ [low_hemoglobin_decided false true true] ∧ (trial' ∉ @nil Trial)
    ∧ trial_json trial' = trial_json Sample.low_hemoglobin
    ∧ filter_condition trial' !! 0%nat = Some ("hemoglobin < 9 g/dl", false).
Proof.
  apply (zero_lab_value_excludes Sample.service_down Sample.eval_comparison
           labs_zero_hemoglobin [Sample.low_hemoglobin]
           [] [low_hemoglobin_decided false true true] 0 0 Sample.low_hemoglobin
           "hemoglobin" "hemoglobin < 9 g/dl" "g/dL").
  - vm_compute. reflexivity.
  - reflexivity.
  - vm_compute. reflexivity.
  - vm_compute. reflexivity.
Defined.

(** C6 as stated fails: a condition in which the pattern finds no operator and
    number is recorded as failed and the trial is excluded. *)
Lemma missing_threshold_recorded_as_failed :
  findall1 expression_pattern "hemoglobin normal" = []
  ∧ filter_trials_from_description Sample.finds_hemoglobin Sample.eval_comparison
      labs_hemoglobin [Sample.no_threshold]
    = Some ([], [set_filter_condition Sample.no_threshold
                   [("hemoglobin normal", false)]]).
Proof. split; vm_compute; reflexivity. Qed.

Lemma no_threshold_excludes_witness :
  ∃ trial',
    trial' ∈ [set_filter_condition Sample.no_threshold [("hemoglobin normal", false)]]
    ∧ (trial' ∉ @nil Trial)
    ∧ trial_json trial' = trial_json Sample.no_threshold
    ∧ filter_condition trial' !! 0%nat = Some ("hemoglobin normal", false).
Proof.
  apply (no_threshold_excludes Sample.finds_hemoglobin Sample.eval_comparison
           labs_hemoglobin [Sample.no_threshold]
           [] [set_filter_condition Sample.no_threshold [("hemoglobin normal", false)]]
           0 0 Sample.no_threshold "hemoglobin" "hemoglobin normal" ("13", "g/dL")).
  - vm_compute. reflexivity.
  - reflexivity.
  - vm_compute. reflexivity.
  - vm_compute. reflexivity.
  - vm_compute. reflexivity.
Defined.

(** ** Ordered dictionaries *)

Section DictFacts.

Context {V : Type}.
Implicit Types (d : list (string * V)) (k : string) (v : V).

Lemma dict_get_set_eq k v d : Dict.get k (Dict.set k v d) = Some v.
Proof.
  induction d as [|[k' v'] d IH]; simpl.
  - now rewrite bool_decide_true.
  - destruct (bool_decide (k' = k)) eqn:Hk; simpl; [now rewrite bool_decide_true|].
    now rewrite Hk.
Qed.

Lemma dict_get_set_ne k k' v d : k ≠ k' → Dict.get k' (Dict.set k v d) = Dict.get k' d.
Proof.
  intros Hne. induction d as [|[k0 v0] d IH]; simpl.
  - now rewrite bool_decide_false.
  - destruct (bool_decide (k0 = k)) eqn:Hk; simpl.
    + apply bool_decide_eq_true in Hk as ->.
      now rewrite !(bool_decide_false (k = k')).
    + now rewrite IH.
Qed.

Lemma dict_get_None k d : Dict.get k d = None ↔ k ∉ Dict.keys d.
Proof.
  unfold Dict.keys. induction d as [|[k' v'] d IH]; simpl.
  - split; [intros _; apply not_elem_of_nil|reflexivity].
  - rewrite not_elem_of_cons, <- IH.
    destruct (bool_decide (k' = k)) eqn:Hk.
    + apply bool_decide_eq_true in Hk as ->. split; [discriminate|now intros [? _]].
    + apply bool_decide_eq_false in Hk. split; [now split|now intros [_ ?]].
Qed.

Lemma dict_get_elem_of k v d : Dict.get k d = Some v → (k, v) ∈ d.
Proof.
  induction d as [|[k' v'] d IH]; simpl; [discriminate|].
  destruct (bool_decide (k' = k)) eqn:Hk.
  - apply bool_decide_eq_true in Hk as ->. intros [= ->]. apply elem_of_cons. now left.
  - intros Hget. apply elem_of_cons. right. now apply IH.
Qed.

Lemma dict_elem_of_get k v d : NoDup (Dict.keys d) → (k, v) ∈ d → Dict.get k d = Some v.
Proof.
  unfold Dict.keys. induction d as [|[k' v'] d IH]; simpl; intros Hdup Hin.
  - now apply elem_of_nil in Hin.
  - apply NoDup_cons in Hdup as [Hfresh Hdup].
    apply elem_of_cons in Hin as [[= -> ->]|Hin]; [now rewrite bool_decide_true|].
    rewrite bool_decide_false; [now apply IH|].
    intros ->. apply Hfresh. apply list_elem_of_fmap. now exists (k, v).
Qed.

Lemma dict_keys_set k v d : Dict.keys (Dict.set k v d) = touch k (Dict.keys d).
Proof.
  unfold Dict.keys, touch. induction d as [|[k' v'] d IH]; [reflexivity|].
  cbn [Dict.set]. destruct (bool_decide (k' = k)) eqn:Hk; rewrite !fmap_cons; simpl.
  - apply bool_decide_eq_true in Hk as ->.
    rewrite bool_decide_true; [reflexivity|]. apply elem_of_cons. now left.
  - apply bool_decide_eq_false in Hk. rewrite IH.
    destruct (bool_decide (k ∈ d.*1)) eqn:Hin.
    + apply bool_decide_eq_true in Hin.
      rewrite bool_decide_true; [reflexivity|]. apply elem_of_cons. now right.
    + apply bool_decide_eq_false in Hin.
      rewrite bool_decide_false; [reflexivity|].
      rewrite elem_of_cons. intros [->|?]; tauto.
Qed.

Lemma dict_get_setdefault_eq k v d :
  Dict.get k (setdefault k v d) = Some (default v (Dict.get k d)).
Proof.
  unfold setdefault. destruct (Dict.get k d) as [v'|] eqn:Hget; simpl.
  - exact Hget.
  - apply dict_get_set_eq.
Qed.

Lemma dict_get_setdefault_ne k k' v d :
  k ≠ k' → Dict.get k' (setdefault k v d) = Dict.get k' d.
Proof.
  intros Hne. unfold setdefault.
  destruct (Dict.get k d); [reflexivity|now apply dict_get_set_ne].
Qed.

Lemma dict_keys_setdefault k v d :
  Dict.keys (setdefault k v d) = touch k (Dict.keys d).
Proof.
  unfold setdefault. destruct (Dict.get k d) as [v'|] eqn:Hget.
  - unfold touch. rewrite bool_decide_true; [reflexivity|].
    destruct (decide (k ∈ Dict.keys d)) as [?|Hout]; [assumption|].
    apply dict_get_None in Hout. congruence.
  - apply dict_keys_set.
Qed.

End DictFacts.

Lemma touch_idem (k : string) (ks : list string) : touch k (touch k ks) = touch k ks.
Proof.
  unfold touch. destruct (bool_decide (k ∈ ks)) eqn:Hin.
  - now rewrite Hin.
  - rewrite bool_decide_true; [reflexivity|]. apply elem_of_app. right.
    apply elem_of_cons. now left.
Qed.

Lemma elem_of_touch (x k : string) (ks : list string) :
  x ∈ touch k ks ↔ x ∈ ks ∨ x = k.
Proof.
  unfold touch. destruct (bool_decide (k ∈ ks)) eqn:Hin.
  - apply bool_decide_eq_true in Hin. split; [now left|]. now intros [?| ->].
  - rewrite elem_of_app, list_elem_of_singleton. reflexivity.
Qed.

Lemma NoDup_touch (k : string) (ks : list string) : NoDup ks → NoDup (touch k ks).
Proof.
  intros Hdup. unfold touch. destruct (bool_decide (k ∈ ks)) eqn:Hin; [exact Hdup|].
  apply bool_decide_eq_false in Hin. apply NoDup_app. split; [exact Hdup|]. split.
  - intros x Hx Hk. apply list_elem_of_singleton in Hk as ->. tauto.
  - apply NoDup_singleton.
Qed.

(** ** [filter_by_inclusion_criteria]: the chunks *)

Lemma chunk_count_small (n : nat) : (1 ≤ n ≤ 10)%nat → chunk_count n = 1%nat.
Proof.
  intros Hn. unfold chunk_count.
  pose proof (Nat.div_mod_eq (n + 9) 10). pose proof (Nat.mod_upper_bound (n + 9) 10). lia.
Qed.

Lemma chunk_count_step (n : nat) :
  (10 < n)%nat → chunk_count n = S (chunk_count (n - 10)).
Proof.
  intros Hn. unfold chunk_count.
  pose proof (Nat.div_mod_eq (n + 9) 10). pose proof (Nat.mod_upper_bound (n + 9) 10).
  pose proof (Nat.div_mod_eq (n - 10 + 9) 10).
  pose proof (Nat.mod_upper_bound (n - 10 + 9) 10). lia.
Qed.

Section Chunks.

Variable detect_entities : string → option (list Entity).
Variable py_eval : string → option bool.
Variable lab_results : gmap string LabValue.

Lemma take_trials_spec (all : list Trial) (budget : nat) :
  ∀ next_future trials,
    take_trials all budget next_future trials
    = ((next_future + length (firstn budget (skipn next_future all)))%nat,
       trials ++ firstn budget (skipn next_future all)).
Proof.
  induction budget as [|budget IH]; intros next_future trials; simpl.
  - now rewrite Nat.add_0_r, app_nil_r.
  - destruct (all !! next_future) as [trial|] eqn:Hnext.
    + rewrite (drop_S _ _ _ Hnext), IH. simpl. rewrite <- app_assoc. simpl.
      f_equal. lia.
    + apply lookup_ge_None in Hnext. rewrite (drop_ge _ _ Hnext). simpl.
      now rewrite Nat.add_0_r, app_nil_r.
Qed.

Lemma chunks_from_beyond (fuel : nat) (all : list Trial) (next_future : nat) :
  (length all ≤ next_future)%nat → chunks_from fuel all next_future = [].
Proof.
  intros Hlen. destruct fuel as [|fuel]; simpl; [reflexivity|].
  now rewrite bool_decide_false by lia.
Qed.

Lemma spawn_chunks_spec (fuel : nat) (trialset : Bundle) :
  ∀ next_future tasks,
    spawn_chunks detect_entities py_eval lab_results fuel trialset next_future tasks
    = tasks ++
      ((λ chunk, spawn detect_entities py_eval lab_results chunk (bundle_ncit trialset))
         <$> chunks_from fuel (bundle_trials trialset)
               (Nat.min next_future (length (bundle_trials trialset)))).
Proof.
  unfold max_trials_in_future.
  induction fuel as [|fuel IH]; intros next_future tasks.
  - simpl. now rewrite app_nil_r.
  - cbn [spawn_chunks chunks_from].
    destruct (bool_decide (next_future < length (bundle_trials trialset))%nat) eqn:Hlt.
    + apply bool_decide_eq_true in Hlt.
      unfold max_trials_in_future. rewrite take_trials_spec. cbv beta iota.
      rewrite IH. rewrite (Nat.min_l next_future) by lia.
      rewrite bool_decide_true by exact Hlt.
      rewrite fmap_cons, <- app_assoc. cbn [app]. do 3 f_equal.
      rewrite length_take, length_drop.
      destruct (decide (next_future + 10 ≤ length (bundle_trials trialset))%nat).
      * f_equal. lia.
      * rewrite !chunks_from_beyond by lia. reflexivity.
    + apply bool_decide_eq_false in Hlt.
      rewrite Nat.min_r by lia. rewrite bool_decide_false by lia.
      now rewrite app_nil_r.
Qed.

Lemma dispatch_spec (trialset : Bundle) (tasks : list Task) :
  dispatch detect_entities py_eval lab_results trialset tasks
  = tasks ++
    ((λ chunk, spawn detect_entities py_eval lab_results chunk (bundle_ncit trialset))
       <$> chunks_of trialset).
Proof.
  unfold dispatch, chunks_of.
  destruct (bool_decide (length (bundle_trials trialset) ≤ max_trials_in_future)%nat);
    [reflexivity|].
  now rewrite spawn_chunks_spec, Nat.min_0_l.
Qed.

(** With enough fuel the chunks from [next_future] on make up the rest of the
    list; each has between one and ten trials, and there are
    [ceil(rest / 10)] of them. *)
Lemma chunks_from_spec (all : list Trial) (fuel : nat) :
  ∀ next_future,
    (length all - next_future ≤ fuel)%nat →
    concat (chunks_from fuel all next_future) = skipn next_future all
    ∧ Forall (λ chunk, 1 ≤ length chunk ≤ max_trials_in_future)%nat
        (chunks_from fuel all next_future)
    ∧ length (chunks_from fuel all next_future)
      = chunk_count (length all - next_future).
Proof.
  induction fuel as [|fuel IH]; intros next_future Hfuel; cbn [chunks_from].
  - rewrite drop_ge by lia. replace (length all - next_future)%nat with 0%nat by lia.
    repeat split. constructor.
  - unfold max_trials_in_future in *.
    destruct (bool_decide (next_future < length all)%nat) eqn:Hlt.
    + apply bool_decide_eq_true in Hlt.
      destruct (IH (next_future + 10)%nat ltac:(lia)) as (Hcat & Hall & Hlen).
      cbn [concat length]. rewrite Hcat, Hlen. repeat split.
      * rewrite <- drop_drop. apply take_drop.
      * constructor; [|exact Hall]. rewrite length_take, length_drop. lia.
      * destruct (decide (length all - next_future ≤ 10)%nat).
        -- rewrite (chunk_count_small (length all - next_future)) by lia.
           now replace (length all - (next_future + 10))%nat with 0%nat by lia.
        -- rewrite (chunk_count_step (length all - next_future)) by lia.
           do 2 f_equal. lia.
    + apply bool_decide_eq_false in Hlt.
      rewrite drop_ge by lia. replace (length all - next_future)%nat with 0%nat by lia.
      repeat split. constructor.
Qed.

Lemma chunks_of_spec (trialset : Bundle) :
  concat (chunks_of trialset) = bundle_trials trialset
  ∧ Forall (λ chunk, length chunk ≤ max_trials_in_future)%nat (chunks_of trialset)
  ∧ length (chunks_of trialset)
    = (if bool_decide (bundle_trials trialset = []) then 1%nat
       else chunk_count (length (bundle_trials trialset))).
Proof.
  unfold chunks_of, max_trials_in_future.
  destruct (bool_decide (length (bundle_trials trialset) ≤ 10)%nat) eqn:Hsmall.
  - apply bool_decide_eq_true in Hsmall. simpl. rewrite app_nil_r.
    split; [reflexivity|]. split; [constructor; [exact Hsmall|constructor]|].
    destruct (bundle_trials trialset) as [|trial rest] eqn:Htrials; [reflexivity|].
    rewrite bool_decide_false by discriminate.
    rewrite chunk_count_small; [reflexivity|]. simpl in *. lia.
  - apply bool_decide_eq_false in Hsmall.
    destruct (chunks_from_spec (bundle_trials trialset)
                (length (bundle_trials trialset)) 0 ltac:(lia)) as (Hcat & Hall & Hlen).
    repeat split.
    + exact Hcat.
    + eapply Forall_impl; [exact Hall|]. simpl. intros chunk ?.
      unfold max_trials_in_future in *. lia.
    + rewrite Hlen, Nat.sub_0_r.
      rewrite bool_decide_false; [reflexivity|].
      intros Hnil. rewrite Hnil in Hsmall. simpl in Hsmall. lia.
Qed.

Lemma chunks_of_nonempty (trialset : Bundle) : chunks_of trialset ≠ [].
Proof.
  unfold chunks_of.
  destruct (bool_decide (length (bundle_trials trialset) ≤ max_trials_in_future)%nat)
    eqn:Hsmall; [discriminate|].
  apply bool_decide_eq_false in Hsmall. unfold max_trials_in_future in Hsmall.
  destruct (length (bundle_trials trialset)) as [|n] eqn:Hn; [lia|].
  cbn [chunks_from]. rewrite Hn. rewrite bool_decide_true by lia. discriminate.
Qed.

End Chunks.

(** ** [filter_by_inclusion_criteria]: the fan-in *)

Lemma load_app (c : string) (fs1 fs2 : list Task) :
  load c (fs1 ++ fs2) = (load c fs1 + load c fs2)%nat.
Proof. induction fs1 as [|f fs1 IH]; simpl; [reflexivity|]. rewrite IH. lia. Qed.

Lemma load_permutation (c : string) (fs1 fs2 : list Task) :
  fs1 ≡ₚ fs2 → load c fs1 = load c fs2.
Proof. induction 1; simpl; lia. Qed.

Lemma size_at_set_eq (c : string) (l : list Trial) d :
  size_at c (Dict.set c l d) = length l.
Proof. unfold size_at. now rewrite dict_get_set_eq. Qed.

Lemma collect_inv (m m' : Merged) (future : Task) :
  consistent m →
  collect m future = Some m' →
  consistent m'
  ∧ is_Some (task_value future)
  ∧ Dict.keys (ncit_codes m') = touch (task_code future) (Dict.keys (ncit_codes m))
  ∧ ∀ c, (size_at c (filtered m') + size_at c (excluded m')
          = size_at c (filtered m) + size_at c (excluded m) + load c [future])%nat.
Proof.
  intros (HF & HE & Hdup & Hcodes). unfold collect. fold (task_code future).
  rewrite !dict_get_setdefault_eq.
  destruct (task_value future) as [[filtered_trials excluded_trials]|] eqn:Hvalue;
    [|discriminate].
  cbv beta iota delta [mbind option_bind]. intros [= <-].
  unfold consistent. cbn [filtered excluded ncit_codes].
  assert (Hkeys : ∀ V (v v' : V) d,
             Dict.keys (Dict.set (task_code future) v
                          (setdefault (task_code future) v' d))
             = touch (task_code future) (Dict.keys d)).
  { intros. now rewrite dict_keys_set, dict_keys_setdefault, touch_idem. }
  split; [|split; [eauto|split]].
  - repeat split.
    + now rewrite Hkeys, dict_keys_setdefault, HF.
    + now rewrite Hkeys, dict_keys_setdefault, HE.
    + rewrite dict_keys_setdefault. now apply NoDup_touch.
    + intros k v. destruct (decide (task_code future = k)) as [<-|Hne].
      * rewrite dict_get_setdefault_eq. intros [= <-].
        destruct (Dict.get (task_code future) (ncit_codes m)) as [v|] eqn:Hget;
          simpl; [now apply Hcodes|reflexivity].
      * rewrite dict_get_setdefault_ne by exact Hne. apply Hcodes.
  - apply dict_keys_setdefault.
  - intros c. cbn [load]. unfold task_size. rewrite Hvalue.
    destruct (decide (task_code future = c)) as [<-|Hne].
    + rewrite bool_decide_true by reflexivity.
      rewrite !size_at_set_eq, !length_app. unfold size_at. lia.
    + rewrite bool_decide_false by exact Hne. unfold size_at.
      rewrite !dict_get_set_ne, !dict_get_setdefault_ne by exact Hne. lia.
Qed.

Lemma collect_all_inv (futures : list Task) :
  ∀ m m',
    consistent m →
    collect_all futures m = Some m' →
    consistent m'
    ∧ Forall (λ future, is_Some (task_value future)) futures
    ∧ (∀ k, k ∈ Dict.keys (ncit_codes m')
            ↔ k ∈ Dict.keys (ncit_codes m) ∨ k ∈ task_code <$> futures)
    ∧ ∀ c, (size_at c (filtered m') + size_at c (excluded m')
            = size_at c (filtered m) + size_at c (excluded m) + load c futures)%nat.
Proof.
  induction futures as [|future rest IH]; intros m m' Hm; cbn [collect_all].
  - intros [= <-]. split; [exact Hm|]. split; [constructor|]. split.
    + intros k. rewrite fmap_nil, elem_of_nil. tauto.
    + intros c. simpl. lia.
  - destruct (collect m future) as [m1|] eqn:Hstep; [|discriminate].
    cbv beta iota delta [mbind option_bind]. intros Hrest.
    destruct (collect_inv _ _ _ Hm Hstep) as (Hm1 & Hvalue & Hkeys1 & Hsize1).
    destruct (IH _ _ Hm1 Hrest) as (Hm' & Hvalues & Hkeys & Hsize).
    split; [exact Hm'|]. split; [constructor; assumption|]. split.
    + intros k. rewrite Hkeys, Hkeys1, elem_of_touch, fmap_cons, elem_of_cons. tauto.
    + intros c. rewrite Hsize, Hsize1. simpl. lia.
Qed.

Lemma bundles_spec (codes : list (string * NcitCode))
    (d : list (string * list Trial)) (bs : list Bundle) :
  (∀ k v, Dict.get k codes = Some v → ncit v = k) →
  bundles codes d = Some bs →
  Forall2 (λ entry b, bundle_code b = entry.1 ∧ bundle_trials b = entry.2) d bs.
Proof.
  intros Hcodes Hbs. apply mapM_Some in Hbs.
  eapply Forall2_impl; [exact Hbs|]. intros [k l] b. cbn [fst snd].
  destruct (Dict.get k codes) as [v|] eqn:Hget; simpl; [|discriminate].
  intros [= <-]. split; [|reflexivity]. now apply Hcodes.
Qed.

Lemma bundles_codes codes d bs :
  (∀ k v, Dict.get k codes = Some v → ncit v = k) →
  bundles codes d = Some bs → bundle_code <$> bs = Dict.keys d.
Proof.
  intros Hcodes Hbs. pose proof (bundles_spec _ _ _ Hcodes Hbs) as Hall.
  clear Hbs. unfold Dict.keys.
  induction Hall as [|entry b d bs [Hk _] _ IH]; [reflexivity|].
  rewrite !fmap_cons. now rewrite Hk, IH.
Qed.

Lemma bundles_group codes d bs (c : string) (l : list Trial) :
  (∀ k v, Dict.get k codes = Some v → ncit v = k) →
  bundles codes d = Some bs →
  Dict.get c d = Some l →
  ∃ b, b ∈ bs ∧ bundle_code b = c ∧ bundle_trials b = l.
Proof.
  intros Hcodes Hbs Hget. pose proof (bundles_spec _ _ _ Hcodes Hbs) as Hall.
  apply dict_get_elem_of, list_elem_of_lookup_1 in Hget as [i Hi].
  destruct (Forall2_lookup_l _ _ _ _ _ Hall Hi) as (b & Hb & Hcode & Htrials).
  exists b. eauto using list_elem_of_lookup_2.
Qed.

(** ** [filter_by_inclusion_criteria]: the outputs *)

Lemma demand_unique (trials_by_ncit : list Bundle) (trialset : Bundle) :
  NoDup (bundle_code <$> trials_by_ncit) →
  trialset ∈ trials_by_ncit →
  demand (bundle_code trialset) trials_by_ncit = length (bundle_trials trialset).
Proof.
  induction trials_by_ncit as [|first rest IH]; intros Hdup Hin.
  - now apply elem_of_nil in Hin.
  - rewrite fmap_cons in Hdup. apply NoDup_cons in Hdup as [Hfresh Hdup].
    assert (Hzero : ∀ l, bundle_code first ∉ bundle_code <$> l →
                         demand (bundle_code first) l = 0%nat).
    { clear. induction l as [|b l IH]; intros Hout; [reflexivity|].
      rewrite fmap_cons, not_elem_of_cons in Hout. destruct Hout as [Hne Hout].
      simpl. rewrite bool_decide_false by congruence. now rewrite IH. }
    apply elem_of_cons in Hin as [->|Hin]; simpl.
    + rewrite bool_decide_true by reflexivity. rewrite Hzero by exact Hfresh. lia.
    + rewrite bool_decide_false; [now rewrite IH|].
      intros Heq. apply Hfresh. rewrite Heq. now apply list_elem_of_fmap_2.
Qed.

Lemma length_kept_dropped (verdicts : list (Trial * bool)) :
  (length (kept verdicts) + length (dropped verdicts))%nat = length verdicts.
Proof.
  unfold kept, dropped. rewrite !length_fmap.
  induction verdicts as [|[trial [|]] verdicts IH]; [reflexivity| |];
    rewrite !filter_cons; simpl; lia.
Qed.

Section OrchestratorProperties.

Variable detect_entities : string → option (list Entity).
Variable py_eval : string → option bool.
Variable iwait : list Task → list Task.
Variable lab_results : gmap string LabValue.

Hypothesis iwait_permutation : ∀ tasks, iwait tasks ≡ₚ tasks.

Lemma spawn_size (chunk : list Trial) (code : NcitCode) :
  is_Some (task_value (spawn detect_entities py_eval lab_results chunk code)) →
  task_size (spawn detect_entities py_eval lab_results chunk code) = length chunk.
Proof.
  unfold task_size. simpl. intros [[F E] Hrun]. rewrite Hrun.
  destruct (filter_trials_verdicts _ _ _ _ _ _ Hrun) as (verdicts & Hall & -> & ->).
  rewrite length_kept_dropped. symmetry. apply (Forall2_length _ _ _ Hall).
Qed.

Lemma load_spawned_for (c : string) (trialset : Bundle) :
  Forall (λ future, is_Some (task_value future)) (spawned_for detect_entities py_eval lab_results trialset) →
  load c (spawned_for detect_entities py_eval lab_results trialset)
  = if bool_decide (bundle_code trialset = c) then length (bundle_trials trialset)
    else 0%nat.
Proof.
  unfold spawned_for. destruct (chunks_of_spec trialset) as (Hcat & _ & _).
  rewrite <- Hcat. clear Hcat.
  induction (chunks_of trialset) as [|chunk chunks IH]; intros Hall.
  - simpl. now destruct (bool_decide _).
  - rewrite fmap_cons in Hall. apply Forall_cons in Hall as [Hsome Hall].
    rewrite fmap_cons. cbn [load concat]. rewrite (IH Hall), (spawn_size _ _ Hsome).
    unfold task_code. cbn [task_ncit spawn]. fold (bundle_code trialset).
    destruct (bool_decide (bundle_code trialset = c)); [|reflexivity].
    now rewrite length_app.
Qed.

Lemma load_spawned (c : string) (trials_by_ncit : list Bundle) :
  Forall (λ future, is_Some (task_value future)) (spawned detect_entities py_eval lab_results trials_by_ncit) →
  load c (spawned detect_entities py_eval lab_results trials_by_ncit) = demand c trials_by_ncit.
Proof.
  unfold spawned. induction trials_by_ncit as [|trialset rest IH]; intros Hall.
  - reflexivity.
  - rewrite fmap_cons in *. cbn [concat] in *. apply Forall_app in Hall as [Hfirst Hrest].
    rewrite load_app, (IH Hrest), (load_spawned_for _ _ Hfirst). reflexivity.
Qed.

Lemma spawned_codes (trials_by_ncit : list Bundle) (c : string) :
  c ∈ task_code <$> spawned detect_entities py_eval lab_results trials_by_ncit ↔ c ∈ bundle_code <$> trials_by_ncit.
Proof.
  unfold spawned. induction trials_by_ncit as [|trialset rest IH].
  - reflexivity.
  - rewrite !fmap_cons. cbn [concat]. rewrite fmap_app, elem_of_app, elem_of_cons, IH.
    assert (c ∈ task_code <$> spawned_for detect_entities py_eval lab_results trialset ↔ c = bundle_code trialset) as ->;
      [|reflexivity].
    unfold spawned_for. pose proof (chunks_of_nonempty trialset) as Hsome.
    rewrite <- list_fmap_compose.
    destruct (chunks_of trialset) as [|chunk chunks]; [congruence|].
    rewrite list_elem_of_fmap. split.
    + intros (chunk' & -> & _). reflexivity.
    + intros ->. exists chunk. split; [reflexivity|]. apply elem_of_cons. now left.
Qed.

Lemma all_tasks_spawned (trials_by_ncit : list Bundle) :
  ∀ tasks,
    foldl (λ tasks trialset, dispatch detect_entities py_eval lab_results trialset tasks)
      tasks trials_by_ncit
    = tasks ++ spawned detect_entities py_eval lab_results trials_by_ncit.
Proof.
  unfold spawned. induction trials_by_ncit as [|trialset rest IH]; intros tasks.
  - simpl. now rewrite app_nil_r.
  - rewrite fmap_cons. cbn [foldl concat]. rewrite IH, dispatch_spec, <- app_assoc.
    reflexivity.
Qed.

(** The outputs are those of the last round, which merges the tasks of all
    the trial sets. *)
Lemma for_trialsets_last (trials_by_ncit : list Bundle) :
  ∀ tasks out F E,
    trials_by_ncit ≠ [] →
    for_trialsets detect_entities py_eval iwait lab_results trials_by_ncit tasks out
      = Some (F, E) →
    ∃ m,
      collect_all (iwait (tasks ++ spawned detect_entities py_eval lab_results trials_by_ncit)) empty_merged = Some m
      ∧ bundles (ncit_codes m) (filtered m) = Some F
      ∧ bundles (ncit_codes m) (excluded m) = Some E.
Proof.
  induction trials_by_ncit as [|trialset rest IH]; intros tasks out F E Hne;
    [congruence|].
  cbn [for_trialsets]. fold empty_merged.
  destruct (collect_all _ empty_merged) as [m|] eqn:Hm; [|discriminate].
  cbv beta iota delta [mbind option_bind].
  destruct (bundles (ncit_codes m) (filtered m)) as [F1|] eqn:HF; [|discriminate].
  destruct (bundles (ncit_codes m) (excluded m)) as [E1|] eqn:HE; [|discriminate].
  destruct rest as [|next rest].
  - cbn [for_trialsets]. intros [= <- <-]. exists m.
    rewrite dispatch_spec in Hm. unfold spawned. simpl. rewrite app_nil_r. auto.
  - intros Hrest. destruct (IH _ _ _ _ ltac:(discriminate) Hrest) as (m' & Hm' & HF' & HE').
    exists m'. rewrite dispatch_spec, <- app_assoc in Hm'. auto.
Qed.

Lemma consistent_empty : consistent empty_merged.
Proof. repeat split; try apply NoDup_nil_2. discriminate. Qed.

Lemma outputs_merged (trials_by_ncit F E : list Bundle) :
  trials_by_ncit ≠ [] →
  filter_by_inclusion_criteria detect_entities py_eval iwait lab_results trials_by_ncit
    = Some (F, E) →
  ∃ m,
    consistent m
    ∧ bundles (ncit_codes m) (filtered m) = Some F
    ∧ bundles (ncit_codes m) (excluded m) = Some E
    ∧ (∀ k, k ∈ Dict.keys (ncit_codes m) ↔ k ∈ bundle_code <$> trials_by_ncit)
    ∧ ∀ c, (size_at c (filtered m) + size_at c (excluded m))%nat
           = demand c trials_by_ncit.
Proof.
  intros Hne Hrun.
  destruct (for_trialsets_last _ _ _ _ _ Hne Hrun) as (m & Hm & HF & HE).
  rewrite app_nil_l in Hm.
  destruct (collect_all_inv _ _ _ consistent_empty Hm) as (Hcons & Hsome & Hkeys & Hsize).
  rewrite iwait_permutation in Hsome.
  exists m. split; [exact Hcons|]. split; [exact HF|]. split; [exact HE|]. split.
  - intros k. rewrite Hkeys, iwait_permutation, spawned_codes.
    cbn [Dict.keys ncit_codes empty_merged fmap list_fmap]. rewrite elem_of_nil. tauto.
  - intros c. rewrite Hsize, (load_permutation _ _ _ (iwait_permutation _)).
    rewrite (load_spawned _ _ Hsome). reflexivity.
Qed.

Lemma groups_of_code (trials_by_ncit F E : list Bundle) (trialset : Bundle) :
  filter_by_inclusion_criteria detect_entities py_eval iwait lab_results trials_by_ncit
    = Some (F, E) →
  trialset ∈ trials_by_ncit →
  ∃ gF gE,
    gF ∈ F ∧ gE ∈ E
    ∧ bundle_code gF = bundle_code trialset
    ∧ bundle_code gE = bundle_code trialset
    ∧ (length (bundle_trials gF) + length (bundle_trials gE))%nat
      = demand (bundle_code trialset) trials_by_ncit.
Proof.
  intros Hrun Hin.
  assert (Hne : trials_by_ncit ≠ []) by (intros ->; now apply elem_of_nil in Hin).
  destruct (outputs_merged _ _ _ Hne Hrun)
    as (m & (HkF & HkE & Hdup & Hcodes) & HF & HE & Hkeys & Hsize).
  set (c := bundle_code trialset).
  assert (Hc : c ∈ Dict.keys (ncit_codes m)).
  { apply Hkeys. now apply list_elem_of_fmap_2. }
  destruct (Dict.get c (filtered m)) as [lF|] eqn:HlF;
    [|apply dict_get_None in HlF; rewrite HkF in HlF; tauto].
  destruct (Dict.get c (excluded m)) as [lE|] eqn:HlE;
    [|apply dict_get_None in HlE; rewrite HkE in HlE; tauto].
  destruct (bundles_group _ _ _ _ _ Hcodes HF HlF) as (gF & HgF & HcF & HtF).
  destruct (bundles_group _ _ _ _ _ Hcodes HE HlE) as (gE & HgE & HcE & HtE).
  exists gF, gE. repeat split; try assumption.
  rewrite <- (Hsize c). unfold size_at. rewrite HlF, HlE, HtF, HtE. reflexivity.
Qed.

Lemma collect_all_returns (futures : list Task) :
  ∀ m, Forall (λ future, is_Some (task_value future)) futures →
       is_Some (collect_all futures m).
Proof.
  induction futures as [|future rest IH]; intros m Hall; cbn [collect_all]; [eauto|].
  apply Forall_cons in Hall as [[[F0 E0] Hvalue] Hall].
  unfold collect. rewrite !dict_get_setdefault_eq, Hvalue.
  cbv beta iota delta [mbind option_bind]. apply IH, Hall.
Qed.

Lemma bundles_returns (codes : list (string * NcitCode)) (d : list (string * list Trial)) :
  Dict.keys d = Dict.keys codes → is_Some (bundles codes d).
Proof.
  intros Hkeys. apply mapM_is_Some, Forall_forall. intros [k l] Hin. unfold compose.
  cbn [fst snd]. destruct (Dict.get k codes) as [v|] eqn:Hget; [simpl; eauto|].
  apply dict_get_None in Hget. destruct Hget. rewrite <- Hkeys.
  apply list_elem_of_fmap. now exists (k, l).
Qed.

(** The orchestrator raises only when [eval] does. *)
Lemma filter_by_inclusion_criteria_returns (trials_by_ncit : list Bundle) :
  (∀ text, is_Some (py_eval text)) →
  is_Some (filter_by_inclusion_criteria detect_entities py_eval iwait lab_results
             trials_by_ncit).
Proof.
  intros Heval. unfold filter_by_inclusion_criteria.
  assert (Hgen : ∀ tasks out,
             Forall (λ future, is_Some (task_value future)) tasks →
             is_Some (for_trialsets detect_entities py_eval iwait lab_results
                        trials_by_ncit tasks out)).
  { induction trials_by_ncit as [|trialset rest IH]; intros tasks out Htasks;
      cbn [for_trialsets]; [eauto|].
    assert (Hnew : Forall (λ future, is_Some (task_value future))
                     (dispatch detect_entities py_eval lab_results trialset tasks)).
    { rewrite dispatch_spec. apply Forall_app. split; [exact Htasks|].
      apply Forall_fmap, Forall_forall. intros chunk _. simpl.
      now apply filter_trials_returns. }
    destruct (collect_all_returns (iwait (dispatch detect_entities py_eval lab_results
                                            trialset tasks)) empty_merged)
      as [m Hm]; [now rewrite iwait_permutation|].
    rewrite Hm. cbv beta iota delta [mbind option_bind].
    destruct (collect_all_inv _ _ _ consistent_empty Hm) as ((HkF & HkE & _) & _).
    destruct (bundles_returns _ _ HkF) as [F1 ->].
    destruct (bundles_returns _ _ HkE) as [E1 ->].
    now apply IH. }
  apply Hgen. constructor.
Qed.

(** C2, amended: a trial set with N ≥ 1 trials is cut into ceil(N/10) chunks
    of at most ten trials, an empty one into the single empty chunk, and one
    task is spawned per chunk; and when the orchestrator returns, the trials
    in the filtered group and in the excluded group of a code are together
    as many as the input lists under that code. *)
Theorem chunk_tasks_and_counts (trials_by_ncit F E : list Bundle) (trialset : Bundle) :
  filter_by_inclusion_criteria detect_entities py_eval iwait lab_results trials_by_ncit
    = Some (F, E) →
  trialset ∈ trials_by_ncit →
  (∃ chunks,
     (∀ tasks,
        dispatch detect_entities py_eval lab_results trialset tasks
        = tasks ++
          ((λ chunk, spawn detect_entities py_eval lab_results chunk
                       (bundle_ncit trialset)) <$> chunks))
     ∧ concat chunks = bundle_trials trialset
     ∧ Forall (λ chunk, length chunk ≤ 10)%nat chunks
     ∧ length chunks
       = (if bool_decide (bundle_trials trialset = []) then 1%nat
          else chunk_count (length (bundle_trials trialset))))
  ∧ ∃ gF gE,
      gF ∈ F ∧ gE ∈ E
      ∧ bundle_code gF = bundle_code trialset
      ∧ bundle_code gE = bundle_code trialset
      ∧ (length (bundle_trials gF) + length (bundle_trials gE))%nat
        = demand (bundle_code trialset) trials_by_ncit.
Proof.
  intros Hrun Hin. split.
  - exists (chunks_of trialset).
    destruct (chunks_of_spec trialset) as (Hcat & Hall & Hlen).
    split; [intros tasks; apply dispatch_spec|]. auto.
  - now apply groups_of_code.
Qed.

(** C7, amended: when the orchestrator returns, both outputs have exactly one
    group per code of the input, in the same order; these are the codes of
    the spawned tasks, and every trial set, an empty one too, has at least
    one task.  A code under which the input lists no trial has a group with
    an empty trial list in both outputs. *)
Theorem one_group_per_code (trials_by_ncit F E : list Bundle) :
  filter_by_inclusion_criteria detect_entities py_eval iwait lab_results trials_by_ncit
    = Some (F, E) →
  NoDup (bundle_code <$> F)
  ∧ bundle_code <$> E = bundle_code <$> F
  ∧ (∀ c, c ∈ bundle_code <$> F ↔ c ∈ task_code <$> spawned detect_entities py_eval lab_results trials_by_ncit)
  ∧ (∀ c, c ∈ bundle_code <$> F ↔ c ∈ bundle_code <$> trials_by_ncit)
  ∧ ∀ trialset, trialset ∈ trials_by_ncit →
      spawned_for detect_entities py_eval lab_results trialset ≠ []
      ∧ ∃ gF gE,
          gF ∈ F ∧ gE ∈ E
          ∧ bundle_code gF = bundle_code trialset
          ∧ bundle_code gE = bundle_code trialset
          ∧ (demand (bundle_code trialset) trials_by_ncit = 0%nat →
             bundle_trials gF = [] ∧ bundle_trials gE = []).
Proof.
  intros Hrun. destruct trials_by_ncit as [|first rest] eqn:Htbn.
  - injection Hrun as <- <-. split; [apply NoDup_nil_2|]. split; [reflexivity|].
    split; [reflexivity|]. split; [reflexivity|].
    intros trialset Hin. now apply elem_of_nil in Hin.
  - rewrite <- Htbn in *.
    assert (Hne : trials_by_ncit ≠ []) by (rewrite Htbn; discriminate).
    destruct (outputs_merged _ _ _ Hne Hrun)
      as (m & (HkF & HkE & Hdup & Hcodes) & HF & HE & Hkeys & Hsize).
    rewrite (bundles_codes _ _ _ Hcodes HF), (bundles_codes _ _ _ Hcodes HE), HkF, HkE.
    split; [exact Hdup|]. split; [reflexivity|].
    split; [intros c; now rewrite Hkeys, spawned_codes|]. split; [exact Hkeys|].
    intros trialset Hin. split.
    + unfold spawned_for. intros Hnil. apply fmap_nil_inv in Hnil.
      now apply (chunks_of_nonempty trialset).
    + destruct (groups_of_code _ _ _ _ Hrun Hin) as (gF & gE & ? & ? & ? & ? & Hlen).
      exists gF, gE. do 4 (split; [assumption|]).
      intros Hzero. rewrite Hzero in Hlen. split; apply length_zero_iff_nil; lia.
Qed.

End OrchestratorProperties.

(** *** Examples, and the theorems above at sample inputs *)

Example filter_by_inclusion_criteria_sample :
  filter_by_inclusion_criteria Sample.service_down Sample.eval_comparison in_order
    labs_low_platelets sample_input
  = Some (sample_filtered, sample_excluded).
Proof. vm_compute. reflexivity. Qed.

(** One code with one trial without eligibility text: the trial is filtered
    in, and the excluded output has a group without trials. *)
Example filter_by_inclusion_criteria_no_text :
  filter_by_inclusion_criteria Sample.service_down Sample.eval_comparison in_order ∅
    [bundle_C123 [Sample.no_text]]
  = Some ([bundle_C123 [marked_no_criteria Sample.no_text]], [bundle_C123 []]).
Proof. vm_compute. reflexivity. Qed.

(** Handing the tasks over in the opposite order changes the order of the
    groups and of the trials in them, not the groups. *)
Example filter_by_inclusion_criteria_reversed :
  filter_by_inclusion_criteria Sample.service_down Sample.eval_comparison reverse
    labs_low_platelets sample_input
  = Some (reverse sample_filtered, reverse sample_excluded).
Proof. vm_compute. reflexivity. Qed.

(** One task that raises makes the orchestrator raise. *)
Example filter_by_inclusion_criteria_raises :
  filter_by_inclusion_criteria
    (λ _, Some [ {| Text := "hemoglobin"; Attributes := [" = 9"] |} ])
    Sample.eval_comparison in_order labs_hemoglobin
    [ bundle_C123 [Sample.no_text; Sample.no_threshold] ]
  = None.
Proof. vm_compute. reflexivity. Qed.

(** C2 as stated fails for N = 0: one task is spawned, not ceil(0/10) = 0. *)
Lemma empty_trial_set_spawns_one_task :
  dispatch Sample.service_down Sample.eval_comparison ∅ (bundle_C123 []) []
  = [ {| task_value := Some ([], []); task_ncit := Sample.code_C123 |} ]
  ∧ chunk_count 0 = 0%nat.
Proof. split; vm_compute; reflexivity. Qed.

Lemma chunk_tasks_and_counts_witness :
  (∃ chunks,
     (∀ tasks,
        dispatch Sample.service_down Sample.eval_comparison labs_low_platelets
          (bundle_C123 (replicate 11 Sample.three_mentions ++ [Sample.no_text])) tasks
        = tasks ++
          ((λ chunk, spawn Sample.service_down Sample.eval_comparison
                       labs_low_platelets chunk Sample.code_C123) <$> chunks))
     ∧ concat chunks = replicate 11 Sample.three_mentions ++ [Sample.no_text]
     ∧ Forall (λ chunk, length chunk ≤ 10)%nat chunks
     ∧ length chunks = 2%nat)
  ∧ ∃ gF gE,
      gF ∈ sample_filtered ∧ gE ∈ sample_excluded
      ∧ bundle_code gF = "C123"
      ∧ bundle_code gE = "C123"
      ∧ (length (bundle_trials gF) + length (bundle_trials gE))%nat = 12%nat.
Proof.
  apply (chunk_tasks_and_counts Sample.service_down Sample.eval_comparison in_order
           labs_low_platelets (λ tasks, reflexivity tasks)
           sample_input sample_filtered sample_excluded
           (bundle_C123 (replicate 11 Sample.three_mentions ++ [Sample.no_text]))).
  - vm_compute. reflexivity.
  - apply elem_of_cons. now left.
Defined.

(** C7 as stated fails: a code with no trial has a group in both outputs. *)
Lemma empty_code_has_groups :
  filter_by_inclusion_criteria Sample.service_down Sample.eval_comparison in_order ∅
    [bundle_C123 []]
  = Some ([bundle_C123 []], [bundle_C123 []]).
Proof. vm_compute. reflexivity. Qed.

Lemma one_group_per_code_witness :
  NoDup (bundle_code <$> sample_filtered)
  ∧ bundle_code <$> sample_excluded = bundle_code <$> sample_filtered
  ∧ (∀ c, c ∈ bundle_code <$> sample_filtered
          ↔ c ∈ task_code <$> spawned Sample.service_down Sample.eval_comparison
                                labs_low_platelets sample_input)
  ∧ (∀ c, c ∈ bundle_code <$> sample_filtered ↔ c ∈ bundle_code <$> sample_input)
  ∧ ∀ trialset, trialset ∈ sample_input →
      spawned_for Sample.service_down Sample.eval_comparison labs_low_platelets trialset
        ≠ []
      ∧ ∃ gF gE,
          gF ∈ sample_filtered ∧ gE ∈ sample_excluded
          ∧ bundle_code gF = bundle_code trialset
          ∧ bundle_code gE = bundle_code trialset
          ∧ (demand (bundle_code trialset) sample_input = 0%nat →
             bundle_trials gF = [] ∧ bundle_trials gE = []).
Proof.
  apply (one_group_per_code Sample.service_down Sample.eval_comparison in_order
           labs_low_platelets (λ tasks, reflexivity tasks)
           sample_input sample_filtered sample_excluded).
  vm_compute. reflexivity.
Defined.

(** ** [UmlsApi.get_matches] *)

Module UmlsFacts.

Import UmlsApi UmlsSample.

Section Crosswalk.

Variable get_response : string → string → option Response.
Variable iwait : list Lookup → list Lookup.
Hypothesis iwait_permutation : ∀ lookups, iwait lookups ≡ₚ lookups.

(** A non-success answer is the pair of [None]s. *)
Lemma get_crosswalk_non_success (orig_code codeset : string) (response : Response) :
  get_response codeset orig_code = Some response →
  status_code response ≠ 200 →
  get_crosswalk get_response orig_code codeset = Some (None, None).
Proof.
  intros Hresponse Hstatus. unfold get_crosswalk. rewrite Hresponse. simpl.
  now rewrite bool_decide_true.
Qed.

(** A success answer without an acceptable candidate makes the method raise. *)
Lemma get_crosswalk_no_candidate (orig_code codeset : string) (response : Response) :
  get_response codeset orig_code = Some response →
  status_code response = 200 →
  search_crosswalk response = None →
  get_crosswalk get_response orig_code codeset = None.
Proof.
  intros Hresponse Hstatus Hsearch. unfold get_crosswalk. rewrite Hresponse. simpl.
  rewrite bool_decide_false by (rewrite Hstatus; auto). now rewrite Hsearch.
Qed.

Lemma search_crosswalk_all_excluded (response : Response) (candidates : list Candidate) :
  result response = Some candidates →
  Forall (λ c, acceptable c = false) candidates →
  search_crosswalk response = None.
Proof.
  intros Hresult Hall. unfold search_crosswalk. rewrite Hresult. simpl.
  clear Hresult. induction Hall as [|c candidates Hc _ IH]; [reflexivity|].
  rewrite filter_cons. destruct (decide (acceptable c = true)); [congruence|exact IH].
Qed.

Lemma yield_matches_raised (done : list Lookup) :
  (yield_matches done).2 = Raised ↔ ∃ m, m ∈ done ∧ lookup_value m = None.
Proof.
  induction done as [|m rest IH]; simpl.
  - split; [discriminate|]. intros (m & Hm & _). now apply elem_of_nil in Hm.
  - destruct (lookup_value m) as [[ncit_code ncit_desc]|] eqn:Hvalue.
    + destruct (yield_matches rest) as [items ending]. simpl in *. rewrite IH.
      split; intros (m' & Hin & Hnone).
      * exists m'. split; [|exact Hnone]. apply elem_of_cons. now right.
      * apply elem_of_cons in Hin as [->|Hin]; [congruence|]. now exists m'.
    + simpl. split; [|reflexivity]. intros _. exists m.
      split; [|exact Hvalue]. apply elem_of_cons. now left.
Qed.

(** One lookup that raises ends the whole generator by an exception, in
    whatever order the lookups finish. *)
Lemma get_matches_aborts (conditions_by_code : list (string * string))
    (orig_code codeset : string) :
  (orig_code, codeset) ∈ conditions_by_code →
  get_crosswalk get_response orig_code codeset = None →
  (get_matches get_response iwait conditions_by_code).2 = Raised.
Proof.
  intros Hin Hnone. unfold get_matches. apply yield_matches_raised.
  exists {| lookup_value := get_crosswalk get_response orig_code codeset;
            lookup_code := orig_code |}.
  split; [|exact Hnone]. rewrite iwait_permutation.
  apply list_elem_of_fmap. now exists (orig_code, codeset).
Qed.

End Crosswalk.

Example get_matches_sample :
  get_matches sample_service in_order [("4000", "SNOMEDCT_US"); ("3000", "SNOMEDCT_US")]
  = ([ ("4000", None);
       ("3000", Some {| match_code := "C3262"; match_description := "Neoplasm" |}) ],
     Exhausted).
Proof. vm_compute. reflexivity. Qed.

(** C5: where the code departs from the claim.  A 200 answer with an empty
    candidate array, or with excluded candidates only, makes [get_crosswalk]
    raise, and [get_matches] then raises instead of yielding a null match:
    the codes after it in the batch are never yielded. *)
Theorem no_candidate_aborts_batch :
  get_crosswalk sample_service "1000" "SNOMEDCT_US" = None
  ∧ get_crosswalk sample_service "2000" "SNOMEDCT_US" = None
  ∧ get_matches sample_service in_order
      [("3000", "SNOMEDCT_US"); ("1000", "SNOMEDCT_US"); ("4000", "SNOMEDCT_US")]
    = ([("3000", Some {| match_code := "C3262"; match_description := "Neoplasm" |})],
       Raised)
  ∧ get_matches sample_service in_order
      [("2000", "SNOMEDCT_US"); ("3000", "SNOMEDCT_US")]
    = ([], Raised).
Proof. repeat split; vm_compute; reflexivity. Qed.

End UmlsFacts.


(** * Further properties *)

(** ** [rchop] *)

Lemma str_drop_length_append (s e : string) : str_drop (String.length s) (s +:+ e) = e.
Proof. induction s as [|c s IH]; [now destruct e|exact IH]. Qed.

Lemma str_take_length_append (s e : string) : str_take (String.length s) (s +:+ e) = s.
Proof.
  induction s as [|c s IH]; [now destruct e|].
  change (String c (str_take (String.length s) (s +:+ e)) = String c s). now rewrite IH.
Qed.

Lemma endswith_append (s e : string) : endswith (s +:+ e) e = true.
Proof.
  unfold endswith. rewrite length_append.
  rewrite bool_decide_true by lia.
  replace (String.length s + String.length e - String.length e)%nat
    with (String.length s) by lia.
  rewrite str_drop_length_append. now rewrite bool_decide_true.
Qed.

Lemma endswith_split (s e : string) :
  endswith s e = true →
  s = str_take (String.length s - String.length e) s +:+ e.
Proof.
  unfold endswith. intros Hends. apply andb_true_iff in Hends as [_ Hdrop].
  apply bool_decide_eq_true in Hdrop.
  rewrite <- Hdrop at 2. symmetry. apply take_drop_append.
Qed.

(** X1: for a non-empty ending, [rchop] removes the ending exactly once when
    the string ends with it and returns the string unchanged otherwise: the
    result followed by the ending is the string again, and chopping [s + ending]
    gives back [s]. *)
Theorem rchop_removes_ending (s ending : string) :
  ending ≠ "" →
  (endswith s ending = true → rchop s ending +:+ ending = s)
  ∧ (endswith s ending = false → rchop s ending = s)
  ∧ rchop (s +:+ ending) ending = s.
Proof.
  intros Hne.
  assert (Hpos : (0 < String.length ending)%nat) by (destruct ending; [congruence|simpl; lia]).
  assert (Hchop : ∀ t, endswith t ending = true →
            rchop t ending = str_take (String.length t - String.length ending) t).
  { intros t Ht. unfold rchop. rewrite Ht. unfold slice_to, slice_index, len.
    replace (- Z.of_nat (String.length ending) <? 0) with true
      by (symmetry; apply Z.ltb_lt; lia).
    f_equal. unfold endswith in Ht. apply andb_true_iff in Ht as [Hlen _].
    apply bool_decide_eq_true in Hlen. lia. }
  split; [|split].
  - intros Hends. rewrite (Hchop _ Hends). symmetry. now apply endswith_split.
  - intros Hends. unfold rchop. now rewrite Hends.
  - rewrite (Hchop _ (endswith_append s ending)), length_append.
    replace (String.length s + String.length ending - String.length ending)%nat
      with (String.length s) by lia.
    apply str_take_length_append.
Qed.

Lemma rchop_removes_ending_witness :
  (endswith "Neoplasm (disorder)" " (disorder)" = true →
   rchop "Neoplasm (disorder)" " (disorder)" +:+ " (disorder)" = "Neoplasm (disorder)")
  ∧ (endswith "Neoplasm (disorder)" " (disorder)" = false →
     rchop "Neoplasm (disorder)" " (disorder)" = "Neoplasm (disorder)")
  ∧ rchop ("Neoplasm (disorder)" +:+ " (disorder)") " (disorder)" = "Neoplasm (disorder)".
Proof.
  apply (rchop_removes_ending "Neoplasm (disorder)" " (disorder)"). discriminate.
Defined.

Lemma str_drop_all (s : string) : str_drop (String.length s) s = "".
Proof. induction s as [|c s IH]; [reflexivity|exact IH]. Qed.

(** X2: with the empty ending [rchop] returns the empty string, whatever the
    string: every string ends with "", and [s[:-0]] is [s[:0]]. *)
Theorem rchop_empty_ending (s : string) : rchop s "" = "".
Proof.
  assert (Hends : endswith s "" = true).
  { unfold endswith. apply andb_true_iff. split; apply bool_decide_eq_true.
    - simpl. lia.
    - simpl. rewrite Nat.sub_0_r. apply str_drop_all. }
  unfold rchop. rewrite Hends. unfold slice_to, slice_index. simpl. now destruct s.
Qed.

(** ** [load_conditions] *)

Lemma append_if_new_fold (xs : list string) :
  ∀ acc, NoDup acc →
    NoDup (foldl (λ acc x, append_if_new x acc) acc xs)
    ∧ ∀ x, x ∈ foldl (λ acc x, append_if_new x acc) acc xs ↔ x ∈ acc ∨ x ∈ xs.
Proof.
  induction xs as [|y xs IH]; intros acc Hdup; simpl.
  - split; [exact Hdup|]. intros x. rewrite elem_of_nil. tauto.
  - assert (Hstep : NoDup (append_if_new y acc)) by now apply NoDup_touch.
    destruct (IH _ Hstep) as [Hdup' Hin]. split; [exact Hdup'|].
    intros x. rewrite Hin. change (append_if_new y acc) with (touch y acc).
    rewrite elem_of_touch, elem_of_cons. tauto.
Qed.

Lemma read_condition_fold (entries : list ConditionEntry) :
  ∀ acc,
    foldl read_condition acc entries
    = (foldl (λ acc x, append_if_new x acc) acc.1
         ((λ e, rchop (condition_text e) " (disorder)") <$> entries),
       foldl (λ acc x, append_if_new x acc) acc.2 (condition_code <$> entries)).
Proof.
  induction entries as [|e entries IH]; intros [conditions codes]; [reflexivity|].
  rewrite !fmap_cons. cbn [foldl]. now rewrite IH.
Qed.

Lemma read_link_fold (links : list Link) :
  ∀ urls,
    (is_Some (self_url (foldl read_link urls links))
     ↔ is_Some (self_url urls) ∨ ∃ link, link ∈ links ∧ relation link = "self")
    ∧ (is_Some (last_url (foldl read_link urls links))
       ↔ is_Some (last_url urls) ∨ ∃ link, link ∈ links ∧ relation link = "last").
Proof.
  induction links as [|link links IH]; intros urls; cbn [foldl].
  - split; (split; [now left|]); intros [?|(link & Hin & _)]; try assumption;
      now apply elem_of_nil in Hin.
  - destruct (IH (read_link urls link)) as [Hself Hlast]. rewrite Hself, Hlast. clear.
    assert (Hs : is_Some (self_url (read_link urls link))
                 ↔ is_Some (self_url urls) ∨ relation link = "self").
    { unfold read_link.
      destruct (bool_decide (relation link = "self")) eqn:H1;
        destruct (bool_decide (relation link = "next")) eqn:H2;
        destruct (bool_decide (relation link = "last")) eqn:H3; simpl;
        try apply bool_decide_eq_true in H1; try apply bool_decide_eq_false in H1;
        split; eauto; intros [?|?]; eauto; congruence. }
    assert (Hl : is_Some (last_url (read_link urls link))
                 ↔ is_Some (last_url urls) ∨ relation link = "last").
    { unfold read_link.
      destruct (bool_decide (relation link = "self")) eqn:H1;
        destruct (bool_decide (relation link = "next")) eqn:H2;
        destruct (bool_decide (relation link = "last")) eqn:H3; simpl;
        try apply bool_decide_eq_true in H3; try apply bool_decide_eq_false in H3;
        split; eauto; intros [?|?]; eauto; congruence. }
    rewrite Hs, Hl. split; split.
    + intros [[?|?]|(l & Hin & ?)]; eauto.
      * right. exists link. split; [apply elem_of_cons; now left|assumption].
      * right. exists l. split; [apply elem_of_cons; now right|assumption].
    + intros [?|(l & Hin & ?)]; eauto.
      apply elem_of_cons in Hin as [->|Hin]; eauto.
    + intros [[?|?]|(l & Hin & ?)]; eauto.
      * right. exists link. split; [apply elem_of_cons; now left|assumption].
      * right. exists l. split; [apply elem_of_cons; now right|assumption].
    + intros [?|(l & Hin & ?)]; eauto.
      apply elem_of_cons in Hin as [->|Hin]; eauto.
Qed.

Section LoadConditionsProperties.

Variable get_api : string → string → option ConditionsPage.

(** X3: what [load_conditions] returns is read off the first page alone: both
    lists are free of duplicates, the first holds exactly the texts of the
    page's entries with a trailing " (disorder)" removed, the second exactly
    their codes. *)
Theorem load_conditions_first_page (mrn token : string)
    (conditions codes_snomed : list string) :
  load_conditions get_api mrn token = Some (conditions, codes_snomed) →
  ∃ api_res,
    get_api token (CONDITIONS_URL +:+ mrn) = Some api_res
    ∧ NoDup conditions ∧ NoDup codes_snomed
    ∧ (∀ x, x ∈ conditions
            ↔ ∃ e, e ∈ conditions_entry api_res
                   ∧ x = rchop (condition_text e) " (disorder)")
    ∧ (∀ x, x ∈ codes_snomed
            ↔ ∃ e, e ∈ conditions_entry api_res ∧ x = condition_code e).
Proof.
  unfold load_conditions.
  destruct (get_api token (CONDITIONS_URL +:+ mrn)) as [api_res|]; [|discriminate].
  cbv beta iota delta [mbind option_bind].
  rewrite read_condition_fold. cbn [fst snd].
  destruct (self_url _) as [self|]; [|discriminate].
  destruct (last_url _) as [last|]; [|discriminate].
  intros [= <- <-]. exists api_res. split; [reflexivity|].
  destruct (append_if_new_fold
              ((λ e, rchop (condition_text e) " (disorder)") <$> conditions_entry api_res)
              [] (NoDup_nil_2)) as [Hdup1 Hin1].
  destruct (append_if_new_fold (condition_code <$> conditions_entry api_res)
              [] (NoDup_nil_2)) as [Hdup2 Hin2].
  split; [exact Hdup1|]. split; [exact Hdup2|]. split.
  - intros x. rewrite Hin1, elem_of_nil, list_elem_of_fmap.
    split; [intros [[]|(e & -> & He)]|intros (e & He & ->)]; eauto.
  - intros x. rewrite Hin2, elem_of_nil, list_elem_of_fmap.
    split; [intros [[]|(e & -> & He)]|intros (e & He & ->)]; eauto.
Qed.

(** X4: on a page that was fetched, [load_conditions] returns exactly when
    the page has a link with relation "self" and one with relation "last";
    without either it raises, however many conditions the page holds. *)
Theorem load_conditions_needs_self_and_last (mrn token : string)
    (api_res : ConditionsPage) :
  get_api token (CONDITIONS_URL +:+ mrn) = Some api_res →
  (is_Some (load_conditions get_api mrn token)
   ↔ (∃ link, link ∈ conditions_link api_res ∧ relation link = "self")
     ∧ (∃ link, link ∈ conditions_link api_res ∧ relation link = "last")).
Proof.
  intros Hpage. unfold load_conditions. rewrite Hpage.
  cbv beta iota delta [mbind option_bind].
  destruct (foldl read_condition ([], []) (conditions_entry api_res))
    as [conditions codes].
  destruct (read_link_fold (conditions_link api_res)
              {| self_url := None;
                 next_url := Some (CONDITIONS_URL +:+ mrn);
                 last_url := None |}) as [Hself Hlast].
  cbn [self_url last_url] in Hself, Hlast.
  destruct (self_url _) as [self|]; destruct (last_url _) as [last|].
  - split; [|eauto]. intros _. split.
    + destruct Hself as [[Hnone|?] _]; [eauto| |assumption]. now destruct Hnone.
    + destruct Hlast as [[Hnone|?] _]; [eauto| |assumption]. now destruct Hnone.
  - split; [intros [? [=]]|]. intros [_ Hl].
    destruct Hlast as [_ Hlast]. destruct (Hlast (or_intror Hl)) as [? [=]].
  - split; [intros [? [=]]|]. intros [Hs _].
    destruct Hself as [_ Hself]. destruct (Hself (or_intror Hs)) as [? [=]].
  - split; [intros [? [=]]|]. intros [Hs _].
    destruct Hself as [_ Hself]. destruct (Hself (or_intror Hs)) as [? [=]].
Qed.

End LoadConditionsProperties.

(** ** [find_trials] *)

Section FindTrialsProperties.

Variable trials_service : TrialQuery → option TrialsAnswer.
Variable gender : string.
Variable age : Z.

Variable answer : string → Z → TrialsAnswer.
Variable total_of : string → Z.

Local Abbreviation steady := (steady trials_service gender age answer total_of).
Local Abbreviation pages_of := (pages_of answer).

Lemma find_trials_pages_rest (ncit_dict : NcitCode) (n : nat) :
  steady ncit_dict →
  ∀ k fuel trials,
    (1 ≤ k)%nat →
    page_count (total_of (ncit ncit_dict)) = (k + n)%nat →
    (n < fuel)%nat →
    find_trials_pages trials_service fuel gender age ncit_dict
      (total_of (ncit ncit_dict)) (1 + 50 * Z.of_nat k) trials
    = Returned (trials ++ pages_of ncit_dict
                            ((λ j : nat, 1 + 50 * Z.of_nat j) <$> seq k n)).
Proof.
  intros Hsteady. set (T := total_of (ncit ncit_dict)).
  assert (Hdiv := Z.div_mod (T + 49) 50 ltac:(lia)).
  assert (Hmod := Z.mod_pos_bound (T + 49) 50 ltac:(lia)).
  induction n as [|n IH]; intros k fuel trials Hk Hcount Hfuel;
    (destruct fuel as [|fuel]; [lia|]); cbn [find_trials_pages];
    unfold page_count in Hcount; fold T in Hcount.
  - replace (1 + 50 * Z.of_nat k <=? T) with false by (symmetry; apply Z.leb_gt; lia).
    unfold pages_of. simpl. now rewrite app_nil_r.
  - replace (1 + 50 * Z.of_nat k <=? T) with true by (symmetry; apply Z.leb_le; lia).
    destruct (Hsteady (1 + 50 * Z.of_nat k)) as [-> ->]. fold T.
    replace (1 + 50 * Z.of_nat k + find_trials_size) with (1 + 50 * Z.of_nat (S k))
      by (unfold find_trials_size; lia).
    rewrite (IH (S k)) by (unfold page_count; fold T; lia).
    unfold pages_of. cbn [seq fmap list_fmap]. now rewrite <- app_assoc.
Qed.

Lemma find_trials_pages_all (ncit_dict : NcitCode) (fuel : nat) (trials : list TrialSet) :
  steady ncit_dict →
  (page_count (total_of (ncit ncit_dict)) < fuel)%nat →
  find_trials_pages trials_service fuel gender age ncit_dict 1 1 trials
  = Returned (trials ++ pages_of ncit_dict (page_froms (total_of (ncit ncit_dict)))).
Proof.
  intros Hsteady Hfuel. destruct fuel as [|fuel]; [lia|]. cbn [find_trials_pages].
  replace (1 <=? 1) with true by reflexivity.
  destruct (Hsteady 1) as [-> ->].
  assert (Hcount : ∃ n, page_count (total_of (ncit ncit_dict)) = S n).
  { unfold page_count. exists (Z.to_nat (Z.max 1 ((total_of (ncit ncit_dict) + 49) `div` 50)) - 1)%nat.
    lia. }
  destruct Hcount as [n Hn].
  change (1 + find_trials_size) with (1 + 50 * Z.of_nat 1).
  rewrite (find_trials_pages_rest ncit_dict n Hsteady 1) by lia.
  unfold page_froms. rewrite Hn. unfold pages_of. cbn [seq fmap list_fmap].
  now rewrite <- app_assoc.
Qed.

(** X5: when the service keeps reporting the same total for each code,
    [find_trials] returns, for the codes in order, the answers to the requests
    with [from] = 1, 51, 101, ... up to the total: [ceil(total/50)] requests
    for a code, and one request also when the total is zero. *)
Theorem find_trials_pages_requested (ncit_codes : list NcitCode) (fuel : nat) :
  Forall steady ncit_codes →
  Forall (λ ncit_dict, page_count (total_of (ncit ncit_dict)) < fuel)%nat ncit_codes →
  find_trials trials_service fuel ncit_codes gender age
  = Returned (ncit_codes ≫= λ ncit_dict,
                pages_of ncit_dict (page_froms (total_of (ncit ncit_dict)))).
Proof.
  intros Hsteady Hfuel. unfold find_trials.
  assert (Hgen : ∀ trials,
            find_trials_codes trials_service fuel gender age ncit_codes trials
            = Returned (trials ++ (ncit_codes ≫= λ ncit_dict,
                          pages_of ncit_dict (page_froms (total_of (ncit ncit_dict)))))).
  { induction ncit_codes as [|ncit_dict rest IH]; intros trials; cbn [find_trials_codes].
    - simpl. now rewrite app_nil_r.
    - apply Forall_cons in Hsteady as [Hfirst Hsteady].
      apply Forall_cons in Hfuel as [Hfuel1 Hfuel].
      rewrite (find_trials_pages_all _ _ _ Hfirst Hfuel1), (IH Hsteady Hfuel).
      rewrite bind_cons, <- app_assoc. reflexivity. }
  now rewrite Hgen.
Qed.

End FindTrialsProperties.

(** ** [get_lab_observations_by_patient] *)

Lemma string_leb_refl (s : string) : String.leb s s = true.
Proof.
  apply Is_true_true. apply (@reflexivity _ String.le _).
Qed.

Lemma string_ltb_leb (s1 s2 : string) : String.ltb s1 s2 = true → String.leb s1 s2 = true.
Proof. unfold String.ltb, String.leb. now destruct (String.compare s1 s2). Qed.

Lemma string_not_ltb_leb (s1 s2 : string) :
  String.ltb s1 s2 = false → String.leb s2 s1 = true.
Proof.
  unfold String.ltb, String.leb. rewrite (String.compare_antisym s1 s2).
  destruct (String.compare s2 s1); simpl; congruence.
Qed.

Lemma string_leb_trans (s1 s2 s3 : string) :
  String.leb s1 s2 = true → String.leb s2 s3 = true → String.leb s1 s3 = true.
Proof.
  intros H12 H23. apply Is_true_true.
  apply (@transitivity _ String.le _ s1 s2 s3); apply Is_true_true; assumption.
Qed.

Lemma latest_of_skip (seen : list (option Observation)) lab_results :
  latest_of seen lab_results → latest_of (seen ++ [None]) lab_results.
Proof.
  intros (Hdup & Hstored & Hseen). split; [exact Hdup|]. split.
  - intros code stored Hget.
    destruct (Hstored _ _ Hget) as (Htracked & o & Hin & Hcode & Heff & Hval & Hmax).
    split; [exact Htracked|]. exists o. repeat split; try assumption.
    + apply elem_of_app. now left.
    + intros o' Hin' Hcode'. apply elem_of_app in Hin' as [Hin'|Hin']; [now apply Hmax|].
      apply list_elem_of_singleton in Hin'. discriminate.
  - intros o Hin. apply elem_of_app in Hin as [Hin|Hin]; [now apply Hseen|].
    apply list_elem_of_singleton in Hin. discriminate.
Qed.

Lemma latest_of_keep (seen : list (option Observation)) lab_results (o : Observation) :
  latest_of seen lab_results →
  (is_Some (Dict.get (observation_code o) LOINC_CODES) →
   ∃ stored, Dict.get (observation_code o) lab_results = Some stored
             ∧ String.leb (effectiveDateTime o) (result_effectiveDateTime stored) = true) →
  latest_of (seen ++ [Some o]) lab_results.
Proof.
  intros (Hdup & Hstored & Hseen) Hold. split; [exact Hdup|]. split.
  - intros code stored Hget.
    destruct (Hstored _ _ Hget) as (Htracked & o1 & Hin & Hcode & Heff & Hval & Hmax).
    split; [exact Htracked|]. exists o1. repeat split; try assumption.
    + apply elem_of_app. now left.
    + intros o' Hin' Hcode'. apply elem_of_app in Hin' as [Hin'|Hin']; [now apply Hmax|].
      apply list_elem_of_singleton in Hin'. injection Hin' as ->.
      rewrite <- Hcode' in Htracked. destruct (Hold Htracked) as (stored' & Hget' & Hleb).
      rewrite Hcode' in Hget'. rewrite Hget in Hget'. injection Hget' as <-.
      unfold not_after. now rewrite Heff.
  - intros o' Hin Htracked. apply elem_of_app in Hin as [Hin|Hin]; [now apply Hseen|].
    apply list_elem_of_singleton in Hin. injection Hin as ->.
    destruct (Hold Htracked) as (stored & -> & _). eauto.
Qed.

Lemma latest_of_update (seen : list (option Observation)) lab_results (o : Observation) :
  latest_of seen lab_results →
  is_Some (Dict.get (observation_code o) LOINC_CODES) →
  (∀ stored, Dict.get (observation_code o) lab_results = Some stored →
             String.leb (result_effectiveDateTime stored) (effectiveDateTime o) = true) →
  latest_of (seen ++ [Some o])
    (Dict.set (observation_code o)
       {| result_effectiveDateTime := effectiveDateTime o;
          result_value := observation_value o |} lab_results).
Proof.
  intros (Hdup & Hstored & Hseen) Htracked Hnewer. split; [|split].
  - rewrite dict_keys_set. now apply NoDup_touch.
  - intros code stored.
    destruct (decide (observation_code o = code)) as [<-|Hne].
    + rewrite dict_get_set_eq. intros [= <-]. split; [exact Htracked|].
      exists o. repeat split.
      * apply elem_of_app. right. now apply list_elem_of_singleton.
      * intros o' Hin' Hcode'. apply elem_of_app in Hin' as [Hin'|Hin'].
        -- rewrite <- Hcode' in Htracked.
           destruct (Hseen _ Hin' Htracked) as [stored Hget].
           destruct (Hstored _ _ Hget) as (_ & o1 & _ & _ & Heff & _ & Hmax).
           rewrite Hcode' in Hget. specialize (Hnewer _ Hget).
           unfold not_after. eapply string_leb_trans; [apply (Hmax o' Hin' eq_refl)|].
           now rewrite Heff.
        -- apply list_elem_of_singleton in Hin'. injection Hin' as ->.
           apply string_leb_refl.
    + rewrite dict_get_set_ne by exact Hne. intros Hget.
      destruct (Hstored _ _ Hget) as (Htr & o1 & Hin & Hcode & Heff & Hval & Hmax).
      split; [exact Htr|]. exists o1. repeat split; try assumption.
      * apply elem_of_app. now left.
      * intros o' Hin' Hcode'. apply elem_of_app in Hin' as [Hin'|Hin']; [now apply Hmax|].
        apply list_elem_of_singleton in Hin'. injection Hin' as ->. congruence.
  - intros o' Hin Htr.
    destruct (decide (observation_code o = observation_code o')) as [<-|Hne].
    + rewrite dict_get_set_eq. eauto.
    + rewrite dict_get_set_ne by exact Hne.
      apply elem_of_app in Hin as [Hin|Hin]; [now apply Hseen|].
      apply list_elem_of_singleton in Hin. injection Hin as ->. congruence.
Qed.

Lemma read_observation_latest (seen : list (option Observation)) lab_results entry :
  latest_of seen lab_results →
  latest_of (seen ++ [entry]) (read_observation lab_results entry).
Proof.
  intros Hinv. destruct entry as [o|]; [|now apply latest_of_skip].
  unfold read_observation.
  destruct (bool_decide (is_Some (Dict.get (observation_code o) LOINC_CODES))) eqn:Htr.
  - apply bool_decide_eq_true in Htr.
    destruct (Dict.get (observation_code o) lab_results) as [stored|] eqn:Hget.
    + destruct (String.ltb (result_effectiveDateTime stored) (effectiveDateTime o))
        eqn:Hltb; simpl.
      * apply latest_of_update; [assumption..|].
        intros stored' Hget'. rewrite Hget in Hget'. injection Hget' as <-.
        now apply string_ltb_leb.
      * apply latest_of_keep; [assumption|]. intros _. exists stored.
        split; [exact Hget|]. now apply string_not_ltb_leb.
    + simpl. apply latest_of_update; [assumption..|]. intros stored' Hget'.
      rewrite Hget in Hget'. discriminate.
  - apply bool_decide_eq_false in Htr. simpl.
    apply latest_of_keep; [assumption|]. tauto.
Qed.

Lemma read_observations_latest (entries : list (option Observation)) :
  ∀ seen lab_results,
    latest_of seen lab_results →
    latest_of (seen ++ entries) (foldl read_observation lab_results entries).
Proof.
  induction entries as [|entry entries IH]; intros seen lab_results Hinv; simpl.
  - now rewrite app_nil_r.
  - rewrite (cons_middle entry seen entries), app_assoc.
    apply IH. now apply read_observation_latest.
Qed.

Lemma loinc_injective (code1 code2 cell_type : string) :
  Dict.get code1 LOINC_CODES = Some cell_type →
  Dict.get code2 LOINC_CODES = Some cell_type →
  code1 = code2.
Proof.
  unfold LOINC_CODES. simpl.
  repeat (case_bool_decide; simplify_eq/=); congruence.
Qed.

Lemma loinc_cell_types (code cell_type : string) :
  Dict.get code LOINC_CODES = Some cell_type → cell_type ∈ cell_types.
Proof.
  unfold LOINC_CODES, cell_types. simpl.
  repeat (case_bool_decide; simplify_eq/=); intros; simplify_eq;
    rewrite !elem_of_cons; auto.
Qed.

Lemma values_by_cell_type_spec (lab_results : list (string * LabResult)) :
  ∀ values,
    NoDup (Dict.keys lab_results) →
    (∀ code, code ∈ Dict.keys lab_results → is_Some (Dict.get code LOINC_CODES)) →
    ∃ values',
      values_by_cell_type lab_results values = Some values'
      ∧ Dict.keys values' ⊆ Dict.keys values ++ cell_types
      ∧ (NoDup (Dict.keys values) → NoDup (Dict.keys values'))
      ∧ (∀ cell_type,
           (∀ code, code ∈ Dict.keys lab_results →
                    Dict.get code LOINC_CODES ≠ Some cell_type) →
           Dict.get cell_type values' = Dict.get cell_type values)
      ∧ (∀ code stored cell_type,
           Dict.get code lab_results = Some stored →
           Dict.get code LOINC_CODES = Some cell_type →
           Dict.get cell_type values' = Some (result_value stored)).
Proof.
  unfold Dict.keys.
  induction lab_results as [|[key val] rest IH]; intros values Hdup Htracked.
  - exists values. split; [reflexivity|]. split; [set_solver|]. split; [auto|].
    split; [auto|]. intros code stored cell_type Hget. discriminate Hget.
  - rewrite fmap_cons in Hdup, Htracked. cbn [fst] in Hdup, Htracked.
    apply NoDup_cons in Hdup as [Hfresh Hdup].
    destruct (Htracked key ltac:(apply elem_of_cons; now left)) as [cell Hcell].
    destruct (IH (Dict.set cell (result_value val) values) Hdup
                ltac:(intros code Hin; apply Htracked, elem_of_cons; now right))
      as (values' & Hrun & Hkeys & Hnodup & Hother & Hstored).
    exists values'. cbn [values_by_cell_type]. rewrite Hcell.
    cbv beta iota delta [mbind option_bind]. split; [exact Hrun|]. split; [|split; [|split]].
    + intros t Ht. apply Hkeys in Ht. fold (Dict.keys (Dict.set cell (result_value val) values)) in Ht.
      rewrite dict_keys_set in Ht. apply elem_of_app in Ht as [Ht|Ht].
      * apply elem_of_touch in Ht as [Ht| ->]; apply elem_of_app; [now left|right].
        eapply loinc_cell_types, Hcell.
      * apply elem_of_app. now right.
    + intros Hv. apply Hnodup. fold (Dict.keys (Dict.set cell (result_value val) values)).
      rewrite dict_keys_set. now apply NoDup_touch.
    + intros cell_type Hnone. rewrite Hother.
      * apply dict_get_set_ne. intros ->.
        apply (Hnone key); [apply elem_of_cons; now left|exact Hcell].
      * intros code Hin. apply Hnone. rewrite fmap_cons. apply elem_of_cons. now right.
    + intros code stored cell_type. cbn [Dict.get].
      destruct (bool_decide (key = code)) eqn:Hkey.
      * apply bool_decide_eq_true in Hkey as <-. intros [= <-] Hct.
        assert (cell_type = cell) as -> by congruence.
        rewrite Hother; [apply dict_get_set_eq|].
        intros code Hin Hcode. apply Hfresh.
        now rewrite (loinc_injective _ _ _ Hcell Hcode).
      * intros Hget Hct. now apply (Hstored code).
Qed.

Section LabObservationsProperties.

Variable get_api : string → string → option ObservationsPage.

Lemma observations_loop_spec (fuel : nat) (token : string) :
  ∀ lab_results current_url requested lab_results' requested',
    observations_loop get_api fuel token lab_results current_url requested
      = Returned (lab_results', requested') →
    ∃ urls,
      requested' = requested ++ urls
      ∧ lab_results'
        = foldl read_observation lab_results (fetched_entries get_api token urls).
Proof.
  induction fuel as [|fuel IH];
    intros lab_results current_url requested lab_results' requested';
    cbn [observations_loop]; [discriminate|].
  destruct current_url as [url|];
    [|intros [= <- <-]; exists []; now rewrite app_nil_r].
  destruct (bool_decide (length lab_results ≠ 3%nat));
    [|intros [= <- <-]; exists []; now rewrite app_nil_r].
  destruct (get_api token url) as [observations|] eqn:Hpage; [|discriminate].
  destruct (observations_entry observations) as [entries|] eqn:Hentries; [|discriminate].
  intros Hrest. destruct (IH _ _ _ _ _ Hrest) as (urls & -> & ->).
  exists (url :: urls). split; [now rewrite <- app_assoc|].
  unfold fetched_entries. rewrite bind_cons, Hpage. simpl. rewrite Hentries. simpl.
  now rewrite foldl_app.
Qed.

(** X6: what [get_lab_observations_by_patient] returns maps tracked cell
    types only, each at most once, and under a cell type it holds the value
    of an observation with that cell type's LOINC code than which no
    observation of the same code on the pages read is later; and every
    tracked code on the pages read has an entry.  Observations of other
    codes, and entries lacking a key, leave no trace. *)
Theorem latest_observation_wins (fuel : nat) (patient_id token : string)
    (values : list (string * LabValue)) (requested : list string) :
  get_lab_observations_by_patient get_api fuel patient_id token
    = Returned (values, requested) →
  NoDup (Dict.keys values)
  ∧ Dict.keys values ⊆ cell_types
  ∧ (∀ cell_type lab_value,
       Dict.get cell_type values = Some lab_value →
       ∃ o, Some o ∈ fetched_entries get_api token requested
            ∧ Dict.get (observation_code o) LOINC_CODES = Some cell_type
            ∧ observation_value o = lab_value
            ∧ ∀ o', Some o' ∈ fetched_entries get_api token requested →
                    observation_code o' = observation_code o → not_after o' o)
  ∧ (∀ o cell_type,
       Some o ∈ fetched_entries get_api token requested →
       Dict.get (observation_code o) LOINC_CODES = Some cell_type →
       is_Some (Dict.get cell_type values)).
Proof.
  unfold get_lab_observations_by_patient.
  destruct (observations_loop _ _ _ _ _ _) as [[lab_results requested']| |] eqn:Hloop;
    [|discriminate..].
  destruct (observations_loop_spec _ _ _ _ _ _ _ Hloop) as (urls & Hurls & Hlab).
  rewrite app_nil_l in Hurls. subst requested'.
  assert (Hinv : latest_of (fetched_entries get_api token urls) lab_results).
  { rewrite Hlab. apply (read_observations_latest _ [] []).
    split; [apply NoDup_nil_2|]. split; [discriminate|].
    intros o Hin. now apply elem_of_nil in Hin. }
  destruct Hinv as (Hdup & Hstored & Hseen).
  assert (Htracked : ∀ code, code ∈ Dict.keys lab_results →
                             is_Some (Dict.get code LOINC_CODES)).
  { intros code Hin. destruct (Dict.get code lab_results) as [stored|] eqn:Hget.
    - now destruct (Hstored _ _ Hget).
    - now apply dict_get_None in Hget. }
  destruct (values_by_cell_type_spec lab_results [] Hdup Htracked)
    as (values' & -> & Hkeys & Hnodup & Hother & Hvalue).
  intros [= <- <-]. split; [apply Hnodup, NoDup_nil_2|]. split; [exact Hkeys|]. split.
  - intros cell_type lab_value Hget.
    destruct (decide (Exists (λ code, Dict.get code LOINC_CODES = Some cell_type)
                             (Dict.keys lab_results))) as [Hsome|Hnone].
    + apply Exists_exists in Hsome as (code & Hin & Hcell).
      destruct (Dict.get code lab_results) as [stored|] eqn:Hcode;
        [|now apply dict_get_None in Hcode].
      rewrite (Hvalue _ _ _ Hcode Hcell) in Hget. injection Hget as <-.
      destruct (Hstored _ _ Hcode) as (_ & o & Hin' & Ho & _ & Hval & Hmax).
      exists o. rewrite Ho. repeat split; try assumption.
    + rewrite Hother in Hget; [discriminate Hget|].
      intros code Hin Hcell. apply Hnone, Exists_exists. eauto.
  - intros o cell_type Hin Hcell.
    destruct (Hseen o Hin ltac:(eauto)) as [stored Hget].
    rewrite (Hvalue _ _ _ Hget Hcell). eauto.
Qed.

(** X7: when the first page holds an observation for each of the three LOINC
    codes, the function returns after that one request with all three cell
    types, whether or not the page links to a next one. *)
Theorem three_codes_stop_paging (fuel : nat) (patient_id token : string)
    (observations : ObservationsPage) (entries : list (option Observation)) :
  (1 < fuel)%nat →
  get_api token (OBSERVATION_URL +:+ "?patient=" +:+ patient_id +:+ "&_count=100")
    = Some observations →
  observations_entry observations = Some entries →
  (∀ code, code ∈ Dict.keys LOINC_CODES →
           ∃ o, Some o ∈ entries ∧ observation_code o = code) →
  ∃ values,
    get_lab_observations_by_patient get_api fuel patient_id token
      = Returned (values,
                  [OBSERVATION_URL +:+ "?patient=" +:+ patient_id +:+ "&_count=100"])
    ∧ length values = 3%nat.
Proof.
  intros Hfuel Hpage Hentries Hall.
  set (url := OBSERVATION_URL +:+ "?patient=" +:+ patient_id +:+ "&_count=100") in *.
  set (lab_results := foldl read_observation [] entries).
  assert (Hinv : latest_of entries lab_results).
  { apply (read_observations_latest entries [] []).
    split; [apply NoDup_nil_2|]. split; [discriminate|].
    intros o Hin. now apply elem_of_nil in Hin. }
  destruct Hinv as (Hdup & Hstored & Hseen).
  assert (Htracked : ∀ code, code ∈ Dict.keys lab_results →
                             is_Some (Dict.get code LOINC_CODES)).
  { intros code Hin. destruct (Dict.get code lab_results) as [stored|] eqn:Hget.
    - now destruct (Hstored _ _ Hget).
    - now apply dict_get_None in Hget. }
  assert (Hkeys : Dict.keys lab_results ≡ₚ Dict.keys LOINC_CODES).
  { apply NoDup_Permutation; [exact Hdup| |].
    - unfold LOINC_CODES, Dict.keys. simpl.
      repeat (apply NoDup_cons; split); try apply NoDup_nil_2;
        rewrite ?elem_of_cons, ?elem_of_nil; intuition discriminate.
    - intros code. split.
      + intros Hin. destruct (Htracked _ Hin) as [cell Hcell].
        destruct (decide (code ∈ Dict.keys LOINC_CODES)) as [?|Hout]; [assumption|].
        apply dict_get_None in Hout. congruence.
      + intros Hin. destruct (Hall _ Hin) as (o & Ho & <-).
        destruct (Dict.get (observation_code o) LOINC_CODES) as [cell|] eqn:Hcell;
          [|now apply dict_get_None in Hcell].
        destruct (Hseen o Ho ltac:(eauto)) as [stored Hget].
        destruct (decide (observation_code o ∈ Dict.keys lab_results)) as [?|Hout];
          [assumption|]. apply dict_get_None in Hout. congruence. }
  assert (Hthree : length lab_results = 3%nat).
  { apply Permutation_length in Hkeys. unfold Dict.keys in Hkeys.
    rewrite !length_fmap in Hkeys. exact Hkeys. }
  destruct (values_by_cell_type_spec lab_results [] Hdup Htracked)
    as (values & Hrun & Hsub & Hnodup & Hother & Hvalue).
  exists values. split.
  - unfold get_lab_observations_by_patient. fold url.
    destruct fuel as [|[|fuel]]; [lia..|]. cbn [observations_loop].
    rewrite bool_decide_true by (simpl; lia). rewrite Hpage, Hentries.
    fold lab_results. rewrite app_nil_l.
    destruct (next_page_url (observations_link observations)) as [next|].
    + rewrite bool_decide_false by (rewrite Hthree; auto). now rewrite Hrun.
    + now rewrite Hrun.
  - assert (Hperm : Dict.keys values ≡ₚ cell_types).
    { apply NoDup_Permutation; [apply Hnodup, NoDup_nil_2| |].
      - unfold cell_types. repeat (apply NoDup_cons; split); try apply NoDup_nil_2;
          rewrite ?elem_of_cons, ?elem_of_nil; intuition discriminate.
      - intros t. split; [apply Hsub|]. intros Ht.
        assert (∃ code, code ∈ Dict.keys LOINC_CODES
                        ∧ Dict.get code LOINC_CODES = Some t) as (code & Hin & Hcell).
        { unfold cell_types in Ht. rewrite !elem_of_cons, elem_of_nil in Ht.
          destruct Ht as [->|[->|[->|[]]]];
            [exists "718-7"|exists "777-3"|exists "6690-2"];
            (split; [unfold LOINC_CODES, Dict.keys; simpl; rewrite !elem_of_cons; auto
                    |reflexivity]). }
        rewrite <- Hkeys in Hin.
        destruct (Dict.get code lab_results) as [stored|] eqn:Hget;
          [|now apply dict_get_None in Hget].
        pose proof (Hvalue _ _ _ Hget Hcell) as Hv.
        destruct (decide (t ∈ Dict.keys values)) as [?|Hout]; [assumption|].
        apply dict_get_None in Hout. congruence. }
    apply Permutation_length in Hperm. unfold Dict.keys in Hperm.
    now rewrite length_fmap in Hperm.
Qed.

End LabObservationsProperties.

(** ** [NciApi.get_trials] *)

Module NciFacts.
Import NciApi.

Lemma elem_of_later_starts (total start : Z) :
  start ∈ later_starts total
  ↔ ∃ k : Z, 1 ≤ k ∧ start = 1 + k * size ∧ start ≤ total.
Proof.
  unfold later_starts, size. destruct (total >? 50) eqn:Hbig.
  - apply Z.gtb_lt in Hbig. unfold py_range.
    replace (1 + total - (1 + 50) + 50 - 1) with (total - 1) by lia.
    pose proof (Z.div_mod (total - 1) 50 ltac:(lia)) as Hdiv.
    pose proof (Z.mod_pos_bound (total - 1) 50 ltac:(lia)) as Hmod.
    set (q := (total - 1) `div` 50) in *. set (r := (total - 1) `mod` 50) in *.
    rewrite list_elem_of_fmap. split.
    + intros (k & -> & Hk). apply elem_of_seq in Hk.
      exists (1 + Z.of_nat k). lia.
    + intros (k & Hk & -> & Hle). exists (Z.to_nat (k - 1)).
      split; [lia|]. apply elem_of_seq. lia.
  - assert (total ≤ 50) by (destruct (Z.gtb_spec total 50); [discriminate|lia]).
    rewrite elem_of_nil. split; [intros []|]. intros (k & Hk & -> & Hle). lia.
Qed.

(** X8: the pages [get_trials] asks for tile the reported total: every
    position from 1 to the total falls in the window of 50 of exactly one
    requested start, and no page after the first starts beyond the total. *)
Theorem pages_tile_total (total n : Z) :
  1 ≤ n ≤ total →
  (∃ start, start ∈ 1 :: later_starts total
            ∧ start ≤ n < start + size
            ∧ ∀ start', start' ∈ 1 :: later_starts total →
                        start' ≤ n < start' + size → start' = start)
  ∧ ∀ start, start ∈ later_starts total → size < start ≤ total.
Proof.
  intros Hn. split.
  - pose proof (Z.div_mod (n - 1) 50 ltac:(lia)) as Hdiv.
    pose proof (Z.mod_pos_bound (n - 1) 50 ltac:(lia)) as Hmod.
    set (q := (n - 1) `div` 50) in *. set (r := (n - 1) `mod` 50) in *.
    assert (Hstarts : ∀ start, start ∈ 1 :: later_starts total →
                               ∃ k : Z, 0 ≤ k ∧ start = 1 + k * 50).
    { intros start Hin. apply elem_of_cons in Hin as [->|Hin].
      - exists 0. lia.
      - apply elem_of_later_starts in Hin as (k & Hk & -> & _).
        exists k. unfold size. lia. }
    exists (1 + q * 50). unfold size. split; [|split; [lia|]].
    + destruct (decide (q = 0)) as [->|Hq]; [apply elem_of_cons; now left|].
      apply elem_of_cons. right. apply elem_of_later_starts.
      exists q. unfold size. lia.
    + intros start' Hin Hwin. destruct (Hstarts _ Hin) as (k & Hk & ->). nia.
  - intros start Hin. apply elem_of_later_starts in Hin as (k & Hk & -> & Hle).
    unfold size in *. lia.
Qed.

Lemma pages_tile_total_witness :
  (∃ start, start ∈ 1 :: later_starts 120
            ∧ start ≤ 77 < start + size
            ∧ ∀ start', start' ∈ 1 :: later_starts 120 →
                        start' ≤ 77 < start' + size → start' = start)
  ∧ ∀ start, start ∈ later_starts 120 → size < start ≤ 120.
Proof. apply (pages_tile_total 120 77). lia. Defined.

Section GetTrialsProperties.

Variable get_trials_page : Z → gset string → string → Z → option TrialsPage.
Variable iwait : list PageTask → list PageTask.

Lemma yield_pages_all (ncit_codes : gset string) (done : list PageTask) :
  Forall (λ page, is_Some (page_value page)) done →
  yield_pages ncit_codes done = (done ≫= task_trials ncit_codes, UmlsApi.Exhausted).
Proof.
  induction 1 as [|page rest [answer Hanswer] _ IH]; [reflexivity|].
  cbn [yield_pages]. rewrite Hanswer, IH, bind_cons.
  unfold task_trials at 2. now rewrite Hanswer.
Qed.

Lemma yield_pages_failed (ncit_codes : gset string)
    (before : list PageTask) (failed : PageTask) (after : list PageTask) :
  Forall (λ page, is_Some (page_value page)) before →
  page_value failed = None →
  yield_pages ncit_codes (before ++ failed :: after)
  = (before ≫= task_trials ncit_codes, UmlsApi.Raised).
Proof.
  intros Hbefore Hfailed.
  induction Hbefore as [|page rest [answer Hanswer] _ IH].
  - cbn [app yield_pages]. now rewrite Hfailed.
  - rewrite <- app_comm_cons. cbn [yield_pages]. rewrite Hanswer, IH, bind_cons.
    unfold task_trials at 2. now rewrite Hanswer.
Qed.

Lemma yield_pages_annotated (ncit_codes : gset string) (done : list PageTask) :
  ∀ t, t ∈ (yield_pages ncit_codes done).1 →
       found_codes t = ncit_codes ∩ list_to_set (diseases (found_trial t)).
Proof.
  induction done as [|page rest IH]; intros t; cbn [yield_pages].
  - intros Hin. now apply elem_of_nil in Hin.
  - destruct (page_value page) as [answer|]; [|intros Hin; now apply elem_of_nil in Hin].
    destruct (yield_pages ncit_codes rest) as [found ending]. cbn [fst] in *.
    intros Hin. apply elem_of_app in Hin as [Hin|Hin]; [|now apply IH].
    apply list_elem_of_fmap in Hin as (trial & -> & _). reflexivity.
Qed.

Lemma first_failed (done : list PageTask) :
  (∃ page, page ∈ done ∧ page_value page = None) →
  ∃ before failed after,
    done = before ++ failed :: after
    ∧ Forall (λ page, is_Some (page_value page)) before
    ∧ page_value failed = None.
Proof.
  induction done as [|page rest IH]; intros (failed & Hin & Hfailed).
  - now apply elem_of_nil in Hin.
  - destruct (page_value page) as [answer|] eqn:Hpage.
    + apply elem_of_cons in Hin as [->|Hin]; [congruence|].
      destruct (IH (ex_intro _ failed (conj Hin Hfailed)))
        as (before & failed' & after & -> & Hbefore & Hfailed').
      exists (page :: before), failed', after.
      split; [reflexivity|]. split; [|assumption].
      apply Forall_cons. split; [rewrite Hpage; eauto|assumption].
    + exists [], page, rest. split; [reflexivity|]. split; [apply Forall_nil_2|assumption].
Qed.

(** X9: when the first page and every later page is answered, the generator
    is exhausted after yielding the first page's trials, in order, followed
    by the trials of all the later pages, page by page in the order the
    greenlets complete: no trial of a page is lost or yielded twice. *)
Theorem get_trials_all_pages (age : Z) (gender : string) (ncit_codes : gset string)
    (first_page : TrialsPage) :
  (∀ pages, iwait pages ≡ₚ pages) →
  get_trials_page 1 ncit_codes gender age = Some first_page →
  (∀ start_from, start_from ∈ later_starts (page_total first_page) →
                 is_Some (get_trials_page start_from ncit_codes gender age)) →
  ∃ found,
    get_trials get_trials_page iwait age gender ncit_codes
      = ((add_disease_list ncit_codes <$> page_trials first_page) ++ found,
         UmlsApi.Exhausted)
    ∧ found ≡ₚ page_tasks get_trials_page age gender ncit_codes (page_total first_page)
                 ≫= task_trials ncit_codes.
Proof.
  intros Hperm Hfirst Hlater. unfold get_trials. rewrite Hfirst.
  unfold page_tasks, later_starts in *.
  destruct (page_total first_page >? size).
  - set (pages := _ <$> py_range _ _ _).
    assert (Hall : Forall (λ page, is_Some (page_value page)) (iwait pages)).
    { rewrite Hperm. apply Forall_fmap, Forall_forall. intros start Hin. now apply Hlater. }
    rewrite (yield_pages_all _ _ Hall). eexists. split; [reflexivity|].
    now rewrite Hperm.
  - exists []. now rewrite app_nil_r.
Qed.

(** X10: a later page whose request raises ends the generator with an
    exception at the moment its greenlet is handed over: what has been
    yielded by then is the first page and the pages handed over before it;
    the trials of the pages after it are never yielded. *)
Theorem get_trials_failed_page (age : Z) (gender : string) (ncit_codes : gset string)
    (first_page : TrialsPage) (start_from : Z) :
  (∀ pages, iwait pages ≡ₚ pages) →
  get_trials_page 1 ncit_codes gender age = Some first_page →
  start_from ∈ later_starts (page_total first_page) →
  get_trials_page start_from ncit_codes gender age = None →
  ∃ before failed after,
    iwait (page_tasks get_trials_page age gender ncit_codes (page_total first_page))
      = before ++ failed :: after
    ∧ Forall (λ page, is_Some (page_value page)) before
    ∧ page_value failed = None
    ∧ get_trials get_trials_page iwait age gender ncit_codes
      = ((add_disease_list ncit_codes <$> page_trials first_page)
           ++ (before ≫= task_trials ncit_codes),
         UmlsApi.Raised).
Proof.
  intros Hperm Hfirst Hin Hnone.
  set (pages := page_tasks get_trials_page age gender ncit_codes (page_total first_page)).
  destruct (first_failed (iwait pages)) as (before & failed & after & Hsplit & Hbefore & Hfailed).
  { exists {| page_value := get_trials_page start_from ncit_codes gender age;
              page_start := start_from |}.
    split; [|exact Hnone]. rewrite Hperm. unfold pages, page_tasks.
    apply list_elem_of_fmap. eauto. }
  exists before, failed, after. split; [exact Hsplit|]. split; [exact Hbefore|].
  split; [exact Hfailed|]. unfold get_trials. rewrite Hfirst.
  assert (Hbig : (page_total first_page >? size) = true).
  { apply elem_of_later_starts in Hin as (k & Hk & -> & Hle).
    apply Z.gtb_lt. unfold size in *. lia. }
  rewrite Hbig. unfold pages, page_tasks, later_starts in Hsplit. rewrite Hbig in Hsplit.
  rewrite Hsplit, (yield_pages_failed _ _ _ _ Hbefore Hfailed). reflexivity.
Qed.

(** X11: every trial [get_trials] yields, from whichever page and however
    the generator ends, carries under [ncit_codes] exactly the requested
    codes that are among its diseases, so never a code that was not asked
    for; the set is empty when the trial has none of them. *)
Theorem yielded_codes_requested (age : Z) (gender : string) (ncit_codes : gset string)
    (t : FoundTrial) :
  t ∈ (get_trials get_trials_page iwait age gender ncit_codes).1 →
  found_codes t ⊆ ncit_codes
  ∧ ∀ code, code ∈ found_codes t ↔ code ∈ ncit_codes ∧ code ∈ diseases (found_trial t).
Proof.
  intros Hin.
  assert (Hcodes : found_codes t = ncit_codes ∩ list_to_set (diseases (found_trial t))).
  { revert Hin. unfold get_trials.
    destruct (get_trials_page 1 ncit_codes gender age) as [first_page|];
      [|intros Hin; now apply elem_of_nil in Hin].
    assert (Hfirst : t ∈ (add_disease_list ncit_codes <$> page_trials first_page) →
                     found_codes t = ncit_codes ∩ list_to_set (diseases (found_trial t))).
    { intros Hin. apply list_elem_of_fmap in Hin as (trial & -> & _). reflexivity. }
    destruct (page_total first_page >? size); [|exact Hfirst].
    pose proof (yield_pages_annotated ncit_codes
                  (iwait ((λ start_from,
                             {| page_value := get_trials_page start_from ncit_codes gender age;
                                page_start := start_from |})
                            <$> py_range (1 + size) (1 + page_total first_page) size)))
      as Hlater.
    destruct (yield_pages _ _) as [found ending]. cbn [fst] in *.
    intros Hin. apply elem_of_app in Hin as [Hin|Hin]; auto. }
  rewrite Hcodes. split; [set_solver|]. intros code. set_solver.
Qed.

End GetTrialsProperties.

End NciFacts.

(** ** [UmlsApi.get_matches] *)

Module CrosswalkFacts.
Import UmlsApi.

Section GetMatchesProperties.

Variable get_response : string → string → option Response.
Variable iwait : list Lookup → list Lookup.

Lemma yield_matches_all (done : list Lookup) :
  Forall (λ m, is_Some (lookup_value m)) done →
  (yield_matches done).2 = Exhausted
  ∧ (yield_matches done).1.*1 = lookup_code <$> done.
Proof.
  induction 1 as [|m rest [[ncit_code ncit_desc] Hvalue] _ [IHend IHitems]];
    [split; reflexivity|].
  cbn [yield_matches]. rewrite Hvalue.
  destruct (yield_matches rest) as [items ending]. cbn [fst snd] in *.
  split; [exact IHend|]. rewrite !fmap_cons, IHitems.
  now destruct (truthy ncit_code && truthy ncit_desc).
Qed.

Lemma yield_matches_item (done : list Lookup) (orig_code : string) (m : Match) :
  (orig_code, Some m) ∈ (yield_matches done).1 →
  ∃ lookup,
    lookup ∈ done ∧ lookup_code lookup = orig_code
    ∧ lookup_value lookup = Some (Some (match_code m), Some (match_description m))
    ∧ match_code m ≠ "" ∧ match_description m ≠ "".
Proof.
  induction done as [|lookup rest IH]; cbn [yield_matches].
  - intros Hin. now apply elem_of_nil in Hin.
  - destruct (lookup_value lookup) as [[ncit_code ncit_desc]|] eqn:Hvalue;
      [|intros Hin; now apply elem_of_nil in Hin].
    destruct (yield_matches rest) as [items ending]. cbn [fst] in *.
    intros Hin. apply elem_of_cons in Hin as [Hitem|Hin].
    + destruct ncit_code as [code|], ncit_desc as [desc|]; simpl in Hitem;
        try discriminate Hitem.
      * destruct (bool_decide (code ≠ "")) eqn:Hcode;
          destruct (bool_decide (desc ≠ "")) eqn:Hdesc; simpl in Hitem;
          try discriminate Hitem.
        injection Hitem as Horig Hm. subst m. simpl.
        apply bool_decide_eq_true in Hcode, Hdesc.
        exists lookup. split; [apply elem_of_cons; now left|]. auto.
      * destruct (bool_decide (code ≠ "")); discriminate Hitem.
    + destruct (IH Hin) as (lookup' & Hin' & Hrest).
      exists lookup'. split; [apply elem_of_cons; now right|exact Hrest].
Qed.

(** X12: when no crosswalk request raises, [get_matches] is exhausted after
    yielding exactly one item for each source code, in the order its
    greenlets complete. *)
Theorem get_matches_one_item_per_code (conditions_by_code : list (string * string)) :
  (∀ matches, iwait matches ≡ₚ matches) →
  (∀ item, item ∈ conditions_by_code →
           is_Some (get_crosswalk get_response item.1 item.2)) →
  (get_matches get_response iwait conditions_by_code).2 = Exhausted
  ∧ (get_matches get_response iwait conditions_by_code).1.*1 ≡ₚ conditions_by_code.*1.
Proof.
  intros Hperm Hall. unfold get_matches.
  set (matches := _ <$> conditions_by_code).
  assert (Hdone : Forall (λ m, is_Some (lookup_value m)) (iwait matches)).
  { rewrite Hperm. apply Forall_fmap, Forall_forall. intros item Hin. now apply Hall. }
  destruct (yield_matches_all _ Hdone) as [Hend Hitems].
  split; [exact Hend|]. rewrite Hitems, Hperm. unfold matches.
  rewrite <- list_fmap_compose. reflexivity.
Qed.

(** X13: a match that [get_matches] yields for a source code comes from a
    response with status 200 to the request for that code: it is the first
    candidate of the response that is not one of TCGA, OMFAQ and MPN-SAF,
    and its code and its description are both non-empty. *)
Theorem match_is_first_acceptable (conditions_by_code : list (string * string))
    (orig_code : string) (m : Match) :
  (∀ matches lookup, lookup ∈ iwait matches → lookup ∈ matches) →
  (orig_code, Some m) ∈ (get_matches get_response iwait conditions_by_code).1 →
  ∃ codeset response candidates c,
    (orig_code, codeset) ∈ conditions_by_code
    ∧ get_response codeset orig_code = Some response
    ∧ status_code response = 200
    ∧ result response = Some candidates
    ∧ head (filter (λ c, acceptable c = true) candidates) = Some c
    ∧ ui c = Some (match_code m) ∧ name c = Some (match_description m)
    ∧ match_code m ≠ "" ∧ match_description m ≠ ""
    ∧ match_code m ∉ ["TCGA"; "OMFAQ"; "MPN-SAF"].
Proof.
  intros Hsub Hin. unfold get_matches in Hin.
  apply yield_matches_item in Hin as (lookup & Hin & Hcode & Hvalue & Hc & Hd).
  apply Hsub, list_elem_of_fmap in Hin as ([orig codeset] & -> & Hitem).
  cbn [lookup_code lookup_value fst snd] in *. subst orig.
  unfold get_crosswalk in Hvalue.
  destruct (get_response codeset orig_code) as [response|] eqn:Hresponse;
    [|discriminate Hvalue].
  cbv beta iota delta [mbind option_bind] in Hvalue.
  destruct (bool_decide (status_code response ≠ 200)) eqn:Hstatus;
    [discriminate Hvalue|].
  apply bool_decide_eq_false in Hstatus. apply dec_stable in Hstatus.
  unfold search_crosswalk in Hvalue.
  destruct (result response) as [candidates|] eqn:Hresult; [|discriminate Hvalue].
  cbv beta iota delta [mbind option_bind] in Hvalue.
  destruct (filter (λ c, acceptable c = true) candidates) as [|c others] eqn:Hfilter;
    [discriminate Hvalue|].
  cbn [fmap list_fmap head fst snd] in Hvalue. injection Hvalue as Hui Hname.
  exists codeset, response, candidates, c.
  repeat (split; [first [assumption|reflexivity]|]).
  assert (Hacc : acceptable c = true).
  { assert (Hmem : c ∈ filter (λ c, acceptable c = true) candidates)
      by (rewrite Hfilter; apply elem_of_cons; now left).
    now apply list_elem_of_filter in Hmem as [? _]. }
  unfold acceptable in Hacc. rewrite Hui in Hacc.
  apply andb_true_iff in Hacc as [Hacc H3]. apply andb_true_iff in Hacc as [H1 H2].
  apply bool_decide_eq_true in H1, H2, H3.
  split; [now rewrite Hfilter|]. do 4 (split; [assumption|]).
  intros Hmem. rewrite !elem_of_cons, elem_of_nil in Hmem.
  destruct Hmem as [Heq|[Heq|[Heq|[]]]]; rewrite Heq in *; congruence.
Qed.

End GetMatchesProperties.

End CrosswalkFacts.

(** ** The entity-detection fallback, the whole text *)

Lemma append_empty_r (s : string) : s +:+ "" = s.
Proof.
  induction s as [|c s IH]; [reflexivity|].
  change (String c (s +:+ "") = String c s). now rewrite IH.
Qed.

Lemma append_assoc (s1 s2 s3 : string) : (s1 +:+ s2) +:+ s3 = s1 +:+ (s2 +:+ s3).
Proof.
  induction s1 as [|c s1 IH]; [reflexivity|].
  change (String c ((s1 +:+ s2) +:+ s3) = String c (s1 +:+ (s2 +:+ s3))).
  now rewrite IH.
Qed.

Lemma concat_empty_app (l1 l2 : list string) :
  String.concat "" (l1 ++ l2) = String.concat "" l1 +:+ String.concat "" l2.
Proof.
  induction l1 as [|x l1 IH]; [reflexivity|].
  rewrite <- app_comm_cons, !concat_empty_cons, IH. now rewrite append_assoc.
Qed.

Lemma get_description_length (descriptions : list string) :
  ∀ data,
    String.length (String.concat "" (get_description data descriptions))
    = (String.length data
       + String.length (String.concat "" (prepare <$> descriptions)))%nat.
Proof.
  induction descriptions as [|value rest IH]; intros data;
    cbn [get_description fmap list_fmap].
  - rewrite concat_empty_cons, length_append. reflexivity.
  - fold (fmap prepare rest). rewrite (concat_empty_cons (prepare value)), length_append.
    destruct (Z.gtb_spec (len (prepare value)) limit) as [Hbig|Hfits].
    + destruct (split_description_pieces (prepare value) limit limit_positive)
        as (pieces & _ & Hcat & _ & Hrun).
      rewrite Hrun by lia. change (default [] (Some pieces)) with pieces.
      rewrite concat_empty_app, length_append, Hcat, IH. lia.
    + destruct (Z.gtb_spec (len data + len (prepare value)) limit) as [Hfull|Hroom].
      * rewrite concat_empty_cons, length_append, IH. lia.
      * rewrite IH, length_append. lia.
Qed.

Lemma get_description_text (descriptions : list string) :
  Forall (λ value, len (prepare value) <= limit) descriptions →
  ∀ data,
    String.concat "" (get_description data descriptions)
    = data +:+ String.concat "" (prepare <$> descriptions).
Proof.
  induction 1 as [|value rest Hfits _ IH]; intros data;
    cbn [get_description fmap list_fmap].
  - now rewrite concat_empty_cons.
  - fold (fmap prepare rest). rewrite (concat_empty_cons (prepare value)).
    destruct (Z.gtb_spec (len (prepare value)) limit) as [Hbig|_]; [lia|].
    destruct (Z.gtb_spec (len data + len (prepare value)) limit) as [Hfull|Hroom].
    + now rewrite concat_empty_cons, IH.
    + now rewrite IH, append_assoc.
Qed.

(** X14: the texts [get_mapping_with_aws_comprehend] sends to the detection
    service hold together as many characters as the prepared entries, so
    nothing is dropped or sent twice; and when no entry is longer than the
    limit, the texts sent, joined in order, are the prepared entries joined
    in order. *)
Theorem fallback_sends_whole_text detect_entities (descriptions : list string) :
  String.length
    (String.concat "" (get_mapping_with_aws_comprehend detect_entities descriptions).2)
  = String.length (String.concat "" (prepare <$> descriptions))
  ∧ (Forall (λ value, len (prepare value) <= limit) descriptions →
     String.concat "" (get_mapping_with_aws_comprehend detect_entities descriptions).2
     = String.concat "" (prepare <$> descriptions)).
Proof.
  unfold get_mapping_with_aws_comprehend. rewrite detect_chunks_calls, app_nil_l.
  split.
  - now rewrite get_description_length.
  - intros Hfit. now rewrite get_description_text.
Qed.

(** ** The entity-detection fallback, the conditions *)

Section FallbackProperties.

Variable detect_entities : string → option (list Entity).

Lemma detected_mono (chunks chunks' : list string) (conditions : list (string * string)) :
  chunks ⊆ chunks' →
  detected detect_entities chunks conditions →
  detected detect_entities chunks' conditions.
Proof.
  intros Hsub [Hdup Hall]. split; [exact Hdup|].
  intros entity_type text Hget. destruct (Hall _ _ Hget) as [Hcell Hfrom].
  split; [exact Hcell|].
  destruct Hfrom as (chunk & entities & entity & attribute & Hin & Hrest).
  exists chunk, entities, entity, attribute. split; [now apply Hsub|exact Hrest].
Qed.

Lemma record_entity_detected (chunks : list string) (chunk : string)
    (entities : list Entity) :
  chunk ∈ chunks → detect_entities chunk = Some entities →
  ∀ read conditions,
    read ⊆ entities →
    detected detect_entities chunks conditions →
    detected detect_entities chunks (foldl record_entity conditions read).
Proof.
  intros Hchunk Hanswer. induction read as [|entity rest IH];
    intros conditions Hsub Hinv; [exact Hinv|].
  cbn [foldl]. apply IH; [set_solver|].
  unfold record_entity.
  destruct (existsb _ cell_types) eqn:Htracked; [|exact Hinv].
  destruct (Attributes entity) as [|attribute others] eqn:Hattributes; [exact Hinv|].
  destruct Hinv as [Hdup Hall]. split.
  - rewrite dict_keys_set. now apply NoDup_touch.
  - intros entity_type text.
    destruct (decide (Text entity = entity_type)) as [<-|Hother].
    + rewrite dict_get_set_eq. intros [= <-]. split.
      * apply existsb_exists in Htracked as (cell_type & Hin & Heq).
        apply bool_decide_eq_true in Heq as <-. now apply list_elem_of_In.
      * exists chunk, entities, entity, attribute.
        rewrite Hattributes. repeat split; try assumption; try reflexivity.
        apply Hsub, elem_of_cons. now left.
    + rewrite dict_get_set_ne by assumption. apply Hall.
Qed.

Lemma detect_chunks_detected (chunks : list string) :
  ∀ conditions calls,
    detected detect_entities calls conditions →
    detected detect_entities (calls ++ chunks)
      (detect_chunks detect_entities chunks (conditions, calls)).1.
Proof.
  induction chunks as [|chunk rest IH]; intros conditions calls Hinv;
    cbn [detect_chunks].
  - now rewrite app_nil_r.
  - replace (calls ++ chunk :: rest) with ((calls ++ [chunk]) ++ rest)
      by now rewrite <- app_assoc.
    assert (Hmore : detected detect_entities (calls ++ [chunk]) conditions)
      by (eapply detected_mono; [|exact Hinv]; set_solver).
    destruct (detect_entities chunk) as [entities|] eqn:Hanswer; apply IH; [|exact Hmore].
    apply (record_entity_detected _ chunk entities); [set_solver|exact Hanswer|set_solver|].
    exact Hmore.
Qed.

(** X15: every condition the fallback returns is keyed by the text of an
    entity that is a tracked cell type up to case, and is that text followed
    by the entity's first attribute, for an entity the service returned for
    one of the texts it was called with; no key occurs twice. *)
Theorem fallback_conditions_detected (descriptions : list string)
    (entity_type text : string) :
  Dict.get entity_type (get_mapping_with_aws_comprehend detect_entities descriptions).1
    = Some text →
  lower entity_type ∈ cell_types
  ∧ ∃ chunk entities entity attribute,
      chunk ∈ (get_mapping_with_aws_comprehend detect_entities descriptions).2
      ∧ detect_entities chunk = Some entities
      ∧ entity ∈ entities ∧ Text entity = entity_type
      ∧ head (Attributes entity) = Some attribute
      ∧ text = entity_type +:+ attribute.
Proof.
  intros Hget. unfold get_mapping_with_aws_comprehend in *.
  rewrite detect_chunks_calls.
  destruct (detect_chunks_detected (get_description "" descriptions) [] [])
    as [_ Hall]; [|now apply Hall].
  split; [apply NoDup_nil_2|]. intros ? ? [=].
Qed.

Lemma detect_chunks_failed_as_empty (chunks : list string) :
  ∀ st,
    detect_chunks detect_entities chunks st
    = detect_chunks (λ text, Some (default [] (detect_entities text))) chunks st.
Proof.
  induction chunks as [|chunk rest IH]; intros [conditions calls]; [reflexivity|].
  cbn [detect_chunks]. destruct (detect_entities chunk) as [entities|]; apply IH.
Qed.

(** X16: a call of the detection service that raises counts as one that
    found no entity: the fallback returns the same conditions, after the
    same calls, as with a service that answers no entities where the given
    one raises.  In particular a failing chunk does not stop the others. *)
Theorem failed_chunk_as_empty_answer (descriptions : list string) :
  get_mapping_with_aws_comprehend detect_entities descriptions
  = get_mapping_with_aws_comprehend (λ text, Some (default [] (detect_entities text)))
      descriptions.
Proof. apply detect_chunks_failed_as_empty. Qed.

Lemma conditions_later_mentions (cell_type : string)
    (post : list (string * string * string)) :
  (∀ m', m' ∈ post → m'.1.2 ≠ cell_type) →
  ∀ conditions,
    Dict.get cell_type (foldl (λ conditions m, Dict.set m.1.2 m.1.1 conditions)
                          conditions post)
    = Dict.get cell_type conditions.
Proof.
  induction post as [|m' post IH]; intros Hother conditions; [reflexivity|].
  cbn [foldl]. rewrite IH by (intros m'' Hin; apply Hother, elem_of_cons; now right).
  apply dict_get_set_ne, Hother, elem_of_cons. now left.
Qed.

(** X17: when the pattern finds several mentions of one cell type and the
    fast path is taken, the condition [find_conditions] returns for the cell
    type is the text of the last of these mentions, and the detection
    service is not called. *)
Theorem last_mention_wins (trial : TrialJson)
    (pre post : list (string * string * string)) (m : string * string * string) :
  findall3 conditions_pattern (joined_description trial) = pre ++ m :: post →
  (∀ m', m' ∈ post → m'.1.2 ≠ m.1.2) →
  length (conditions_of_matches (pre ++ m :: post)) = 3%nat →
  Dict.get m.1.2 (find_conditions detect_entities trial) = Some m.1.1
  ∧ (find_conditions_calls detect_entities trial).2 = [].
Proof.
  intros Hmatches Hlast Hthree. unfold find_conditions, find_conditions_calls.
  destruct (decide (joined_description trial = "")) as [Hempty|Hdescription].
  { rewrite Hempty in Hmatches. vm_compute in Hmatches. now destruct pre. }
  rewrite bool_decide_true by assumption. rewrite Hmatches.
  destruct (pre ++ m :: post) as [|first others] eqn:Hlist; [now destruct pre|].
  rewrite bool_decide_true by assumption. cbn [fst snd]. split; [|reflexivity].
  rewrite <- Hlist. unfold conditions_of_matches.
  rewrite foldl_app. cbn [foldl]. rewrite conditions_later_mentions by assumption.
  apply dict_get_set_eq.
Qed.

End FallbackProperties.

(** ** [split_description] with a limit that is not positive *)

(** X18: with a limit of zero and a non-empty description, or with a
    negative limit, the loop of [split_description] never ends: whatever
    the number of rounds it is given, it has not returned. *)
Theorem split_description_no_progress (fuel : nat) (description : string) (limit0 : Z) :
  limit0 < 0 ∨ (limit0 = 0 ∧ description ≠ "") →
  split_description fuel description limit0 = None.
Proof.
  intros [Hneg|[-> Hne]].
  - unfold split_description. generalize (@nil string) as data. revert description.
    induction fuel as [|fuel IH]; intros description data; [reflexivity|].
    cbn [split_description_loop].
    replace (len description >? limit0) with true
      by (symmetry; apply Z.gtb_lt; unfold len; lia).
    apply IH.
  - destruct description as [|c description]; [congruence|].
    apply split_description_zero_limit.
Qed.

Lemma split_description_no_progress_witness :
  split_description 1000 "hemoglobin" (-3) = None.
Proof. apply split_description_no_progress. left. lia. Defined.

(** ** [access_json_dump] and [load_patient] *)

(** X19: [load_patient] returns exactly for an object that has both a
    "patient" and an "access_code" member; the object [access_json_dump]
    writes has the token under "access_token", so [load_patient] raises on
    every file that [access_json_dump] wrote. *)
Theorem load_patient_rejects_dump :
  (∀ code, is_Some (load_patient code)
           ↔ "patient" ∈ Dict.keys code ∧ "access_code" ∈ Dict.keys code)
  ∧ ∀ mrn token, load_patient (access_json_dump mrn token) = None.
Proof.
  split; [|reflexivity]. intros code. unfold load_patient.
  destruct (Dict.get "patient" code) as [mrn|] eqn:Hmrn;
    destruct (Dict.get "access_code" code) as [token|] eqn:Htoken;
    cbv beta iota delta [mbind option_bind].
  - split; [intros _|eauto]. split.
    + destruct (decide ("patient" ∈ Dict.keys code)) as [?|Hout]; [assumption|].
      apply dict_get_None in Hout. congruence.
    + destruct (decide ("access_code" ∈ Dict.keys code)) as [?|Hout]; [assumption|].
      apply dict_get_None in Hout. congruence.
  - apply dict_get_None in Htoken. split; [intros [? [=]]|tauto].
  - apply dict_get_None in Hmrn. split; [intros [? [=]]|tauto].
  - apply dict_get_None in Hmrn. split; [intros [? [=]]|tauto].
Qed.

(** ** [convert_expressions]: thousands separators *)

Lemma replace_comma_no_comma (s : string) : contains "," (replace "," "" s) = false.
Proof.
  unfold replace. induction s as [|c s IH]; [reflexivity|].
  cbn [replace_go String.prefix].
  destruct (ascii_dec "," c) as [<-|Hother].
  - destruct s; exact IH.
  - cbn [contains String.prefix]. destruct (ascii_dec "," c); [contradiction|].
    exact IH.
Qed.

(** X20: the comparison text [convert_expressions] returns never contains a
    comma, whatever the condition: the separators of a threshold such as
    100,000 do not reach [eval]. *)
Theorem converted_condition_no_comma (lab_value : LabValue) (condition : string) :
  contains "," (convert_expressions lab_value condition).2 = false.
Proof.
  unfold convert_expressions.
  destruct (findall1 expression_pattern condition) as [|first others]; [reflexivity|].
  apply replace_comma_no_comma.
Qed.

(** ** [get_lab_observations_by_patient]: paging without end *)

Section EndlessPaging.

Variable get_api : string → string → option ObservationsPage.

Lemma missing_code_short (code : string) (seen : list (option Observation))
    (lab_results : list (string * LabResult)) :
  code ∈ Dict.keys LOINC_CODES →
  latest_of seen lab_results →
  (∀ o, Some o ∈ seen → observation_code o ≠ code) →
  length lab_results ≠ 3%nat.
Proof.
  intros Hcode (Hdup & Hstored & _) Hmissing.
  assert (Hsub : Dict.keys lab_results
                 ⊆+ filter (λ c, c ≠ code) (Dict.keys LOINC_CODES)).
  { apply NoDup_submseteq; [exact Hdup|]. intros c Hin.
    destruct (Dict.get c lab_results) as [stored|] eqn:Hget;
      [|now apply dict_get_None in Hget].
    destruct (Hstored _ _ Hget) as ([cell Hcell] & o & Hseen & Ho & _).
    apply list_elem_of_filter. split.
    - intros ->. now apply (Hmissing o).
    - destruct (decide (c ∈ Dict.keys LOINC_CODES)) as [?|Hout]; [assumption|].
      apply dict_get_None in Hout. congruence. }
  apply submseteq_length in Hsub. unfold Dict.keys in Hsub at 1.
  rewrite length_fmap in Hsub.
  assert (length (filter (λ c, c ≠ code) (Dict.keys LOINC_CODES)) = 2%nat).
  { apply list_elem_of_In in Hcode. simpl in Hcode.
    destruct Hcode as [<-|[<-|[<-|[]]]]; reflexivity. }
  lia.
Qed.

Lemma observations_loop_endless (code token : string) :
  code ∈ Dict.keys LOINC_CODES →
  (∀ url, ∃ page entries next,
     get_api token url = Some page
     ∧ observations_entry page = Some entries
     ∧ next_page_url (observations_link page) = Some next
     ∧ ∀ o, Some o ∈ entries → observation_code o ≠ code) →
  ∀ fuel seen lab_results url requested,
    latest_of seen lab_results →
    (∀ o, Some o ∈ seen → observation_code o ≠ code) →
    observations_loop get_api fuel token lab_results (Some url) requested = OutOfFuel.
Proof.
  intros Hcode Hpages.
  induction fuel as [|fuel IH]; intros seen lab_results url requested Hinv Hmissing;
    [reflexivity|].
  cbn [observations_loop].
  rewrite bool_decide_true by (eapply missing_code_short; eassumption).
  destruct (Hpages url) as (page & entries & next & -> & -> & -> & Hentries).
  apply (IH (seen ++ entries)).
  - now apply read_observations_latest.
  - intros o Hin. apply elem_of_app in Hin as [Hin|Hin]; auto.
Qed.

(** X21: nothing bounds the number of requests: while every page links to
    a next one and some tracked code has not appeared on any page, the loop
    of [get_lab_observations_by_patient] keeps requesting and does not
    return, however many rounds it is given. *)
Theorem paging_never_ends (fuel : nat) (patient_id token code : string) :
  code ∈ Dict.keys LOINC_CODES →
  (∀ url, ∃ page entries next,
     get_api token url = Some page
     ∧ observations_entry page = Some entries
     ∧ next_page_url (observations_link page) = Some next
     ∧ ∀ o, Some o ∈ entries → observation_code o ≠ code) →
  get_lab_observations_by_patient get_api fuel patient_id token = OutOfFuel.
Proof.
  intros Hcode Hpages. unfold get_lab_observations_by_patient.
  rewrite (observations_loop_endless code token Hcode Hpages fuel [] []);
    [reflexivity| |].
  - split; [apply NoDup_nil_2|]. split; [discriminate|].
    intros o Hin. now apply elem_of_nil in Hin.
  - intros o Hin. now apply elem_of_nil in Hin.
Qed.

End EndlessPaging.

(** ** [find_conditions]: when the fallback is called *)

Lemma replace_nonempty (old new : string) (c : ascii) (s : string) :
  new ≠ "" → replace old new (String c s) ≠ "".
Proof.
  intros Hnew. unfold replace. cbn [replace_go].
  destruct (String.prefix old (String c s)); [|discriminate].
  destruct new as [|c' new]; [congruence|discriminate].
Qed.

Lemma joined_description_nonempty (trial : TrialJson) :
  (∃ value, value ∈ unstructured_descriptions trial ∧ mentions_cell_type value = true) →
  joined_description trial ≠ "".
Proof.
  intros (value & Hin & Hmentions). unfold joined_description.
  assert (Hkept : value ∈ filter (λ value, mentions_cell_type value = true)
                            (unstructured_descriptions trial))
    by (apply list_elem_of_filter; auto).
  assert (Hall : Forall (λ value, value ≠ "")
                   (filter (λ value, mentions_cell_type value = true)
                      (unstructured_descriptions trial))).
  { apply Forall_forall. intros v Hv. apply list_elem_of_filter in Hv as [Hv _].
    intros ->. discriminate Hv. }
  destruct (filter _ (unstructured_descriptions trial)) as [|first others];
    [now apply elem_of_nil in Hkept|].
  apply Forall_cons in Hall as [Hfirst _].
  destruct first as [|c first]; [congruence|].
  rewrite fmap_cons. unfold join.
  destruct (replace CRLF " " (String c first)) as [|c' text] eqn:Htext;
    [now apply replace_nonempty in Htext|].
  cbn [lower String.concat]. destruct (_ <$> others); discriminate.
Qed.

Lemma get_description_nonempty (descriptions : list string) :
  ∀ data, get_description data descriptions ≠ [].
Proof.
  induction descriptions as [|value rest IH]; intros data; cbn [get_description];
    [discriminate|].
  destruct (len (prepare value) >? limit).
  - intros Hnil. apply app_eq_nil in Hnil as [_ Hnil]. now apply IH in Hnil.
  - destruct (len data + len (prepare value) >? limit); [discriminate|apply IH].
Qed.

(** X22: when some inclusion entry mentions a tracked cell type and the
    pattern does not yield three conditions, [find_conditions] returns what
    the fallback returns for all the inclusion entries, those that mention
    no cell type included: the detection service is called at least once,
    with the chunks of the whole text and not of the unmatched rest. *)
Theorem partial_match_calls_fallback detect_entities (trial : TrialJson) :
  (∃ value, value ∈ unstructured_descriptions trial ∧ mentions_cell_type value = true) →
  length (conditions_of_matches
            (findall3 conditions_pattern (joined_description trial))) ≠ 3%nat →
  find_conditions_calls detect_entities trial
    = get_mapping_with_aws_comprehend detect_entities (unstructured_descriptions trial)
  ∧ (find_conditions_calls detect_entities trial).2
    = get_description "" (unstructured_descriptions trial)
  ∧ (find_conditions_calls detect_entities trial).2 ≠ [].
Proof.
  intros Hmentions Hpartial.
  assert (Hfallback : find_conditions_calls detect_entities trial
            = get_mapping_with_aws_comprehend detect_entities
                (unstructured_descriptions trial)).
  { unfold find_conditions_calls.
    rewrite bool_decide_true by now apply joined_description_nonempty.
    destruct (findall3 conditions_pattern (joined_description trial)) as [|m ms];
      [reflexivity|].
    now rewrite bool_decide_false by assumption. }
  rewrite Hfallback. unfold get_mapping_with_aws_comprehend.
  rewrite detect_chunks_calls, app_nil_l.
  split; [reflexivity|]. split; [reflexivity|]. apply get_description_nonempty.
Qed.

(** ** The further properties on the samples *)

Lemma load_conditions_first_page_witness :
  ∃ api_res,
    MoreSamples.conditions_api "token" (CONDITIONS_URL +:+ "mrn") = Some api_res
    ∧ NoDup ["Anemia"; "Malignant tumor of breast"]
    ∧ NoDup ["271737000"; "254837009"]
    ∧ (∀ x, x ∈ ["Anemia"; "Malignant tumor of breast"]
            ↔ ∃ e, e ∈ conditions_entry api_res
                   ∧ x = rchop (condition_text e) " (disorder)")
    ∧ (∀ x, x ∈ ["271737000"; "254837009"]
            ↔ ∃ e, e ∈ conditions_entry api_res ∧ x = condition_code e).
Proof.
  apply (load_conditions_first_page MoreSamples.conditions_api "mrn" "token").
  vm_compute. reflexivity.
Defined.

Lemma load_conditions_needs_self_and_last_witness :
  is_Some (load_conditions MoreSamples.conditions_api "mrn" "token")
  ↔ (∃ link, link ∈ conditions_link MoreSamples.conditions_page ∧ relation link = "self")
    ∧ (∃ link, link ∈ conditions_link MoreSamples.conditions_page ∧ relation link = "last").
Proof.
  apply (load_conditions_needs_self_and_last MoreSamples.conditions_api "mrn" "token").
  reflexivity.
Defined.

Lemma find_trials_pages_requested_witness :
  find_trials MoreSamples.trials_service 5
    [MoreSamples.code_of "C123"; MoreSamples.code_of "C456"] "female" 60
  = Returned ([MoreSamples.code_of "C123"; MoreSamples.code_of "C456"] ≫= λ ncit_dict,
                pages_of MoreSamples.trials_answer ncit_dict (page_froms 120)).
Proof.
  apply (find_trials_pages_requested MoreSamples.trials_service "female" 60
           MoreSamples.trials_answer (λ _, 120)).
  - repeat constructor.
  - repeat constructor.
Defined.

Lemma latest_observation_wins_witness :
  let values := [ ("hemoglobin", ("12.5", "g/dL")); ("platelets", ("150000", "g/dL"));
                  ("leukocytes", ("4000", "g/dL")) ] in
  let requested := [ OBSERVATION_URL +:+ "?patient=p1&_count=100"; "page-2" ] in
  NoDup (Dict.keys values)
  ∧ Dict.keys values ⊆ cell_types
  ∧ (∀ cell_type lab_value,
       Dict.get cell_type values = Some lab_value →
       ∃ o, Some o ∈ fetched_entries MoreSamples.observations_api "t" requested
            ∧ Dict.get (observation_code o) LOINC_CODES = Some cell_type
            ∧ observation_value o = lab_value
            ∧ ∀ o', Some o' ∈ fetched_entries MoreSamples.observations_api "t" requested →
                    observation_code o' = observation_code o → not_after o' o)
  ∧ (∀ o cell_type,
       Some o ∈ fetched_entries MoreSamples.observations_api "t" requested →
       Dict.get (observation_code o) LOINC_CODES = Some cell_type →
       is_Some (Dict.get cell_type values)).
Proof.
  apply (latest_observation_wins MoreSamples.observations_api 5 "p1" "t").
  vm_compute. reflexivity.
Defined.

Lemma three_codes_stop_paging_witness :
  ∃ values,
    get_lab_observations_by_patient MoreSamples.full_page_api 2 "p1" "t"
      = Returned (values, [OBSERVATION_URL +:+ "?patient=" +:+ "p1" +:+ "&_count=100"])
    ∧ length values = 3%nat.
Proof.
  apply (three_codes_stop_paging MoreSamples.full_page_api 2 "p1" "t"
           MoreSamples.full_page
           [ MoreSamples.observation "777-3" "150000" "2020-03-01";
             MoreSamples.observation "718-7" "12.5" "2020-05-01";
             MoreSamples.observation "6690-2" "4000" "2020-03-01" ]).
  - lia.
  - reflexivity.
  - reflexivity.
  - intros code Hin. apply list_elem_of_In in Hin. simpl in Hin.
    destruct Hin as [<-|[<-|[<-|[]]]];
      [ exists {| observation_code := "718-7"; observation_value := ("12.5", "g/dL");
                  effectiveDateTime := "2020-05-01" |}
      | exists {| observation_code := "6690-2"; observation_value := ("4000", "g/dL");
                  effectiveDateTime := "2020-03-01" |}
      | exists {| observation_code := "777-3"; observation_value := ("150000", "g/dL");
                  effectiveDateTime := "2020-03-01" |} ];
      (split; [apply list_elem_of_In; simpl; auto|reflexivity]).
Defined.

Lemma get_trials_all_pages_witness :
  ∃ found,
    NciApi.get_trials MoreSamples.all_pages MoreSamples.last_first 60 "female" {["C123"]}
      = ((NciApi.add_disease_list {["C123"]}
            <$> NciApi.page_trials (MoreSamples.nci_page 1)) ++ found,
         UmlsApi.Exhausted)
    ∧ found ≡ₚ page_tasks MoreSamples.all_pages 60 "female" {["C123"]}
                 (NciApi.page_total (MoreSamples.nci_page 1))
                 ≫= task_trials {["C123"]}.
Proof.
  apply (NciFacts.get_trials_all_pages MoreSamples.all_pages MoreSamples.last_first
           60 "female" {["C123"]} (MoreSamples.nci_page 1)).
  - intros pages. apply reverse_Permutation.
  - reflexivity.
  - intros start_from _. eexists. reflexivity.
Defined.

Lemma get_trials_failed_page_witness :
  ∃ before failed after,
    MoreSamples.last_first
      (page_tasks MoreSamples.failing_pages 60 "female" {["C123"]}
         (NciApi.page_total (MoreSamples.nci_page 1)))
      = before ++ failed :: after
    ∧ Forall (λ page, is_Some (NciApi.page_value page)) before
    ∧ NciApi.page_value failed = None
    ∧ NciApi.get_trials MoreSamples.failing_pages MoreSamples.last_first 60 "female"
        {["C123"]}
      = ((NciApi.add_disease_list {["C123"]}
            <$> NciApi.page_trials (MoreSamples.nci_page 1))
           ++ (before ≫= task_trials {["C123"]}),
         UmlsApi.Raised).
Proof.
  apply (NciFacts.get_trials_failed_page MoreSamples.failing_pages MoreSamples.last_first
           60 "female" {["C123"]} (MoreSamples.nci_page 1) 101).
  - intros pages. apply reverse_Permutation.
  - reflexivity.
  - apply list_elem_of_In. simpl. auto.
  - reflexivity.
Defined.

Lemma yielded_codes_requested_witness :
  let t := NciApi.add_disease_list {["C123"]}
             {| NciApi.nci_id := "NCI-1"; NciApi.diseases := ["C123"; "C999"] |} in
  NciApi.found_codes t ⊆ ({["C123"]} : gset string)
  ∧ ∀ code, code ∈ NciApi.found_codes t
            ↔ code ∈ ({["C123"]} : gset string)
              ∧ code ∈ NciApi.diseases (NciApi.found_trial t).
Proof.
  apply (NciFacts.yielded_codes_requested MoreSamples.all_pages MoreSamples.last_first
           60 "female" {["C123"]}).
  unfold NciApi.get_trials.
  change (MoreSamples.all_pages 1 {["C123"]} "female" 60)
    with (Some (MoreSamples.nci_page 1)).
  cbv beta iota.
  change (NciApi.page_total (MoreSamples.nci_page 1) >? NciApi.size) with true.
  cbv beta iota.
  destruct (NciApi.yield_pages _ _) as [found ending]. cbn [fst].
  apply elem_of_app. left. apply list_elem_of_fmap.
  eexists. split; [reflexivity|]. apply list_elem_of_In. simpl. auto.
Defined.

Lemma get_matches_one_item_per_code_witness :
  let conditions_by_code := [ ("3000", "SNOMEDCT_US"); ("4000", "SNOMEDCT_US") ] in
  (UmlsApi.get_matches UmlsSample.sample_service UmlsSample.in_order conditions_by_code).2
    = UmlsApi.Exhausted
  ∧ (UmlsApi.get_matches UmlsSample.sample_service UmlsSample.in_order
       conditions_by_code).1.*1
    ≡ₚ conditions_by_code.*1.
Proof.
  apply (CrosswalkFacts.get_matches_one_item_per_code UmlsSample.sample_service
           UmlsSample.in_order).
  - intros matches. reflexivity.
  - intros item Hin. apply list_elem_of_In in Hin. simpl in Hin.
    destruct Hin as [<-|[<-|[]]]; vm_compute; eauto.
Defined.

Lemma match_is_first_acceptable_witness :
  let m := {| UmlsApi.match_code := "C3262"; UmlsApi.match_description := "Neoplasm" |} in
  ∃ codeset response candidates c,
    ("3000", codeset) ∈ [ ("3000", "SNOMEDCT_US"); ("4000", "SNOMEDCT_US") ]
    ∧ UmlsSample.sample_service codeset "3000" = Some response
    ∧ UmlsApi.status_code response = 200
    ∧ UmlsApi.result response = Some candidates
    ∧ head (filter (λ c, UmlsApi.acceptable c = true) candidates) = Some c
    ∧ UmlsApi.ui c = Some (UmlsApi.match_code m)
    ∧ UmlsApi.name c = Some (UmlsApi.match_description m)
    ∧ UmlsApi.match_code m ≠ "" ∧ UmlsApi.match_description m ≠ ""
    ∧ UmlsApi.match_code m ∉ ["TCGA"; "OMFAQ"; "MPN-SAF"].
Proof.
  apply (CrosswalkFacts.match_is_first_acceptable UmlsSample.sample_service
           UmlsSample.in_order [ ("3000", "SNOMEDCT_US"); ("4000", "SNOMEDCT_US") ]).
  - intros matches lookup Hin. exact Hin.
  - apply list_elem_of_In. vm_compute. auto.
Defined.

Lemma fallback_sends_whole_text_witness :
  String.concat ""
    (get_mapping_with_aws_comprehend Sample.finds_hemoglobin
       ["Hemoglobin, normal"; "Age >= 18"]).2
  = String.concat "" (prepare <$> ["Hemoglobin, normal"; "Age >= 18"]).
Proof.
  apply (fallback_sends_whole_text Sample.finds_hemoglobin
           ["Hemoglobin, normal"; "Age >= 18"]).
  repeat constructor; vm_compute; discriminate.
Defined.

Lemma fallback_conditions_detected_witness :
  lower "hemoglobin" ∈ cell_types
  ∧ ∃ chunk entities entity attribute,
      chunk ∈ (get_mapping_with_aws_comprehend Sample.finds_hemoglobin
                 ["Hemoglobin, normal"; "Age >= 18"]).2
      ∧ Sample.finds_hemoglobin chunk = Some entities
      ∧ entity ∈ entities ∧ Text entity = "hemoglobin"
      ∧ head (Attributes entity) = Some attribute
      ∧ "hemoglobin normal" = "hemoglobin" +:+ attribute.
Proof.
  apply (fallback_conditions_detected Sample.finds_hemoglobin
           ["Hemoglobin, normal"; "Age >= 18"]).
  vm_compute. reflexivity.
Defined.

Lemma last_mention_wins_witness :
  Dict.get "hemoglobin"
    (find_conditions Sample.service_down (trial_json MoreSamples.two_hemoglobins))
    = Some "hemoglobin >= 10 g/dl"
  ∧ (find_conditions_calls Sample.service_down
       (trial_json MoreSamples.two_hemoglobins)).2 = [].
Proof.
  apply (last_mention_wins Sample.service_down (trial_json MoreSamples.two_hemoglobins)
           [ ("hemoglobin >= 9 g/dl", "hemoglobin", "");
             ("platelets >= 100,000/ul", "platelets", "");
             ("leukocytes >= 3,000/mcl", "leukocytes", "") ]
           [] ("hemoglobin >= 10 g/dl", "hemoglobin", "")).
  - vm_compute. reflexivity.
  - intros m' Hin. now apply elem_of_nil in Hin.
  - vm_compute. reflexivity.
Defined.

Lemma paging_never_ends_witness :
  get_lab_observations_by_patient MoreSamples.endless_api 1000 "p1" "t" = OutOfFuel.
Proof.
  apply (paging_never_ends MoreSamples.endless_api 1000 "p1" "t" "718-7").
  - apply list_elem_of_In. simpl. auto.
  - intros url. eexists _, _, _.
    split; [reflexivity|]. split; [reflexivity|]. split; [reflexivity|].
    intros o Hin. apply list_elem_of_In in Hin. simpl in Hin.
    destruct Hin as [[= <-]|[]]. discriminate.
Defined.

Lemma partial_match_calls_fallback_witness :
  let descriptions := unstructured_descriptions (trial_json MoreSamples.two_markers) in
  find_conditions_calls Sample.finds_hemoglobin (trial_json MoreSamples.two_markers)
    = get_mapping_with_aws_comprehend Sample.finds_hemoglobin descriptions
  ∧ (find_conditions_calls Sample.finds_hemoglobin (trial_json MoreSamples.two_markers)).2
    = get_description "" descriptions
  ∧ (find_conditions_calls Sample.finds_hemoglobin (trial_json MoreSamples.two_markers)).2
    ≠ [].
Proof.
  apply (partial_match_calls_fallback Sample.finds_hemoglobin
           (trial_json MoreSamples.two_markers)).
  - exists "Hemoglobin >= 9 g/dL". split; [|vm_compute; reflexivity].
    apply list_elem_of_In. vm_compute. auto.
  - vm_compute. discriminate.
Defined.

(** * The fast path of [find_conditions] on a text of mentions *)

(** ** The pattern on a mention *)

Ltac each_ascii c :=
  destruct c as [[] [] [] [] [] [] [] []]; try reflexivity; try discriminate.

Lemma digit_is_word (c : ascii) : is_digit c = true → is_word c = true.
Proof. each_ascii c. Qed.

Lemma digit_not_space (c : ascii) : is_digit c = true → is_space c = false.
Proof. each_ascii c. Qed.

Lemma digit_not_cmp (c : ascii) : is_digit c = true → is_cmp c = false.
Proof. each_ascii c. Qed.

Lemma digit_not_separator (c : ascii) : is_digit c = true → is_dot_or_comma c = false.
Proof. each_ascii c. Qed.

Lemma separator_not_digit (c : ascii) : is_dot_or_comma c = true → is_digit c = false.
Proof. each_ascii c. Qed.

Lemma space_not_cmp (c : ascii) : is_space c = true → is_cmp c = false.
Proof. each_ascii c. Qed.

Lemma space_not_separator (c : ascii) : is_space c = true → is_dot_or_comma c = false.
Proof. each_ascii c. Qed.

Lemma space_not_bracket (c : ascii) : is_space c = true → is_char "]" c = false.
Proof. each_ascii c. Qed.

Lemma cmp_not_space (c : ascii) : is_cmp c = true → is_space c = false.
Proof. each_ascii c. Qed.

Lemma cmp_not_bracket (c : ascii) : is_cmp c = true → is_char "]" c = false.
Proof. each_ascii c. Qed.

Lemma word_not_space (c : ascii) : is_word c = true → is_space c = false.
Proof. each_ascii c. Qed.

Lemma word_not_separator (c : ascii) : is_word c = true → is_dot_or_comma c = false.
Proof. each_ascii c. Qed.

Lemma append_cons (c : ascii) (s t : string) : String c s +:+ t = String c (s +:+ t).
Proof. reflexivity. Qed.

Lemma append_empty_l (t : string) : "" +:+ t = t.
Proof. reflexivity. Qed.

Lemma many_blocked (p : ascii → bool) (x : string) :
  starts_with p x = false → many p x = [x].
Proof. destruct x as [|c x]; [reflexivity|]. cbn [starts_with many]. now intros ->. Qed.

Lemma many_head (p : ascii → bool) (w x : string) :
  all_of p w = true → starts_with p x = false →
  ∃ more, many p (w +:+ x) = x :: more.
Proof.
  intros Hall Hx. induction w as [|c w IH].
  - exists []. now apply many_blocked.
  - cbn [all_of] in Hall. apply andb_true_iff in Hall as [Hc Hall].
    destruct (IH Hall) as [more Hmore]. rewrite append_cons. cbn [many].
    rewrite Hc, Hmore. eexists. reflexivity.
Qed.

Lemma many_two (p : ascii → bool) (w : string) (last : ascii) (x : string) :
  all_of p w = true → p last = true → starts_with p x = false →
  ∃ more, many p (w +:+ String last x) = x :: String last x :: more.
Proof.
  intros Hall Hlast Hx. induction w as [|c w IH].
  - exists []. rewrite append_empty_l. cbn [many]. now rewrite Hlast, many_blocked.
  - cbn [all_of] in Hall. apply andb_true_iff in Hall as [Hc Hall].
    destruct (IH Hall) as [more Hmore]. rewrite append_cons. cbn [many].
    rewrite Hc, Hmore. eexists. reflexivity.
Qed.

(** A string with a character at least is its beginning and its last
    character. *)
Lemma last_character (s : string) :
  s ≠ "" → ∃ init last, s = init +:+ String last "".
Proof.
  induction s as [|c s IH]; [congruence|]. intros _.
  destruct s as [|c' s].
  - exists "", c. reflexivity.
  - destruct (IH ltac:(discriminate)) as (init & last & Heq).
    exists (String c init), last. now rewrite append_cons, <- Heq.
Qed.

Lemma all_of_app (p : ascii → bool) (s t : string) :
  all_of p (s +:+ t) = all_of p s && all_of p t.
Proof.
  induction s as [|c s IH]; [reflexivity|].
  rewrite append_cons. cbn [all_of]. now rewrite IH, andb_assoc.
Qed.

(** The first way a regex matches: the head of [run]. *)
Lemma first_seq (r1 r2 : regex) caps s st more res :
  run r1 caps s = st :: more →
  head (run r2 st.1 st.2) = Some res →
  head (run (Seq r1 r2) caps s) = Some res.
Proof.
  intros H1 H2. cbn [run]. rewrite H1. cbn [flat_map].
  destruct (run r2 st.1 st.2); [discriminate|]. exact H2.
Qed.

Lemma next_seq (r1 r2 : regex) caps s st more :
  run r1 caps s = st :: more →
  run r2 st.1 st.2 = [] →
  run (Seq r1 r2) caps s = flat_map (λ st, run r2 st.1 st.2) more.
Proof. intros H1 H2. cbn [run]. rewrite H1. cbn [flat_map]. now rewrite H2. Qed.

Lemma opt_chars_blocked (p : ascii → bool) caps s :
  starts_with p s = false → run (Opt (Chars p)) caps s = [(caps, s)].
Proof.
  intros Hs. cbn [run]. destruct s as [|c s]; [reflexivity|].
  cbn [starts_with] in Hs. now rewrite Hs.
Qed.

Lemma opt_chars_taken (p : ascii → bool) caps c s :
  p c = true → run (Opt (Chars p)) caps (String c s) = [(caps, s); (caps, String c s)].
Proof. intros Hc. cbn [run]. now rewrite Hc. Qed.

(** An optional space before something that does not begin with a space. *)
Lemma opt_space_first caps (sp rest : string) :
  opt_space sp = true → starts_with is_space rest = false →
  ∃ more, run (Opt (Chars is_space)) caps (sp +:+ rest) = (caps, rest) :: more.
Proof.
  intros Hsp Hrest. destruct sp as [|c [|c' sp]]; try discriminate Hsp.
  - rewrite append_empty_l, opt_chars_blocked by assumption. eexists. reflexivity.
  - cbn [opt_space] in Hsp. rewrite append_cons, append_empty_l, opt_chars_taken by assumption.
    eexists. reflexivity.
Qed.

Lemma many1_first (p : ascii → bool) caps (w rest : string) :
  some_of p w = true → starts_with p rest = false →
  ∃ more, run (Many1 p) caps (w +:+ rest) = (caps, rest) :: more.
Proof.
  intros Hw Hrest. destruct w as [|c w]; [discriminate|].
  cbn [some_of all_of] in Hw. apply andb_true_iff in Hw as [Hc Hw].
  rewrite append_cons. cbn [run]. rewrite Hc.
  destruct (many_head p w rest Hw Hrest) as [more ->]. eexists. reflexivity.
Qed.

Lemma many_first (p : ascii → bool) caps (w rest : string) :
  all_of p w = true → starts_with p rest = false →
  ∃ more, run (Many p) caps (w +:+ rest) = (caps, rest) :: more.
Proof.
  intros Hw Hrest. cbn [run].
  destruct (many_head p w rest Hw Hrest) as [more ->]. eexists. reflexivity.
Qed.

Lemma pattern_parts :
  conditions_pattern
  = Group 1 (Seq (Opt (Chars (is_char "["))) (Seq (Group 2 match_type) comparison_part)).
Proof. reflexivity. Qed.

Lemma ends_mention_word (x : string) :
  ends_mention x = true → starts_with is_word x = false.
Proof.
  destruct x as [|c x]; [reflexivity|]. cbn [ends_mention starts_with].
  intros H. apply andb_true_iff in H as [H _]. now apply negb_true_iff in H.
Qed.

Lemma exponent_skipped caps (x : string) :
  ends_mention x = true → run exponent caps x = [(caps, x)].
Proof.
  intros Hx. unfold exponent. cbn [run]. destruct x as [|c x]; [reflexivity|].
  cbn [ends_mention] in Hx. apply andb_true_iff in Hx as [_ Hx].
  apply negb_true_iff in Hx. now rewrite Hx.
Qed.

Lemma some_of_starts (p q : ascii → bool) (w rest : string) :
  (∀ c, p c = true → q c = false) →
  some_of p w = true → starts_with q (w +:+ rest) = false.
Proof.
  intros Hpq Hw. destruct w as [|c w]; [discriminate|].
  cbn [some_of all_of] in Hw. apply andb_true_iff in Hw as [Hc _].
  rewrite append_cons. cbn [starts_with]. now apply Hpq.
Qed.

Lemma after_slash_first caps (w2 x : string) :
  some_of is_word w2 = true → ends_mention x = true →
  head (run after_slash caps (w2 +:+ x)) = Some (caps, x).
Proof.
  intros Hw2 Hx. unfold after_slash.
  eapply first_seq.
  { apply opt_chars_blocked. apply (some_of_starts is_word is_space); [apply word_not_space|exact Hw2]. }
  cbn [fst snd].
  destruct (many1_first is_word caps w2 x Hw2 (ends_mention_word x Hx)) as [more Hrun].
  eapply first_seq; [exact Hrun|]. cbn [fst snd].
  now rewrite exponent_skipped.
Qed.

(** With a word before the slash. *)
Lemma unit_part_first caps (sp3 w1 w2 x : string) :
  opt_space sp3 = true → some_of is_word w1 = true →
  some_of is_word w2 = true → ends_mention x = true →
  head (run unit_part caps (sp3 +:+ w1 +:+ String "/" (w2 +:+ x))) = Some (caps, x).
Proof.
  intros Hsp3 Hw1 Hw2 Hx. unfold unit_part.
  destruct (opt_space_first caps sp3 (w1 +:+ String "/" (w2 +:+ x)) Hsp3) as [more Hrun].
  { apply (some_of_starts is_word is_space); [apply word_not_space|exact Hw1]. }
  eapply first_seq; [exact Hrun|]. cbn [fst snd].
  destruct (many1_first is_word caps w1 (String "/" (w2 +:+ x)) Hw1) as [more' Hrun'];
    [reflexivity|].
  eapply first_seq; [exact Hrun'|]. cbn [fst snd].
  eapply first_seq; [now apply opt_chars_taken|]. cbn [fst snd].
  now apply after_slash_first.
Qed.

(** The unit cannot begin with the slash. *)
Lemma unit_part_slash caps (rest : string) : run unit_part caps (String "/" rest) = [].
Proof. reflexivity. Qed.

(** With the slash at once after the number, the last digit is the word
    before the slash. *)
Lemma unit_part_digit caps (d : ascii) (w2 x : string) :
  is_digit d = true → some_of is_word w2 = true → ends_mention x = true →
  head (run unit_part caps (String d (String "/" (w2 +:+ x)))) = Some (caps, x).
Proof.
  intros Hd Hw2 Hx.
  apply (unit_part_first caps "" (String d "") w2 x); try assumption; [reflexivity|].
  cbn [some_of all_of]. now rewrite (digit_is_word d Hd).
Qed.

Lemma second_seq (r1 r2 : regex) caps s st1 st2 more res :
  run r1 caps s = st1 :: st2 :: more →
  run r2 st1.1 st1.2 = [] →
  head (run r2 st2.1 st2.2) = Some res →
  head (run (Seq r1 r2) caps s) = Some res.
Proof.
  intros H1 Hfail H2. rewrite (next_seq r1 r2 caps s st1 (st2 :: more) H1 Hfail).
  cbn [flat_map]. destruct (run r2 st2.1 st2.2); [discriminate|]. exact H2.
Qed.

Lemma after_digits_slash caps (rest : string) :
  run after_digits caps (String "/" rest) = [].
Proof. reflexivity. Qed.

(** The digits give up their last one to the unit. *)
Lemma spare_digit_first caps (init : string) (last : ascii) (w2 x : string) :
  all_of is_digit init = true → is_digit last = true →
  some_of is_word w2 = true → ends_mention x = true →
  head (run (Seq (Many is_digit) unit_part) caps
          (init +:+ String last (String "/" (w2 +:+ x)))) = Some (caps, x).
Proof.
  intros Hinit Hlast Hw2 Hx.
  destruct (many_two is_digit init last (String "/" (w2 +:+ x)) Hinit Hlast eq_refl)
    as [more Hmany].
  eapply second_seq.
  - cbn [run]. rewrite Hmany. cbn [map]. reflexivity.
  - apply unit_part_slash.
  - cbn [fst snd]. now apply unit_part_digit.
Qed.

Lemma after_digits_spare caps (last : ascii) (w2 x : string) :
  is_digit last = true → some_of is_word w2 = true → ends_mention x = true →
  head (run after_digits caps (String last (String "/" (w2 +:+ x)))) = Some (caps, x).
Proof.
  intros Hlast Hw2 Hx. unfold after_digits.
  eapply first_seq.
  { apply opt_chars_blocked. cbn [starts_with]. now apply digit_not_separator. }
  cbn [fst snd]. now apply (spare_digit_first caps "" last).
Qed.

Lemma starts_with_unit (p : ascii → bool) (sp3 w1 rest : string) :
  w1 ≠ "" → starts_with p (sp3 +:+ w1 +:+ rest) = starts_with p (sp3 +:+ w1).
Proof. intros Hw1. destruct sp3; [|reflexivity]. destruct w1; [congruence|reflexivity]. Qed.

Lemma unit_not_separator (sp3 w1 : string) :
  opt_space sp3 = true → some_of is_word w1 = true →
  starts_with is_dot_or_comma (sp3 +:+ w1) = false.
Proof.
  intros Hsp3 Hw1. destruct sp3 as [|c [|c' sp3]]; try discriminate Hsp3.
  - rewrite append_empty_l. destruct w1 as [|c w1]; [discriminate|].
    cbn [some_of all_of] in Hw1. apply andb_true_iff in Hw1 as [Hc _].
    now apply word_not_separator.
  - now apply space_not_separator.
Qed.

(** The number and the unit of a mention. *)
Lemma number_part_first caps (m : Mention) (x : string) :
  well_formed m = true → ends_mention x = true →
  head (run number_part caps
          (digits m +:+ decimals_text (decimals m)
             +:+ before_unit m +:+ unit_over m +:+ String "/" (unit_under m +:+ x)))
  = Some (caps, x).
Proof.
  intros Hm Hx. unfold well_formed in Hm.
  repeat (apply andb_true_iff in Hm as [Hm ?]).
  destruct m as [c sp1 ops sp2 ds dec sp3 w1 w2]. cbn [mention_cell before_signs signs
    after_signs digits decimals before_unit unit_over unit_under] in *.
  unfold number_part.
  destruct w1 as [|c1 w1].
  - (* the slash at once after the number *)
    match goal with H : bool_decide (sp3 = "") && _ = true |- _ =>
      apply andb_true_iff in H as [Hsp3 Hspare] end.
    apply bool_decide_eq_true in Hsp3 as ->. rewrite !append_empty_l.
    destruct dec as [[separator ds2]|].
    + match goal with H : is_dot_or_comma separator && _ = true |- _ =>
        apply andb_true_iff in H as [Hsep Hds2] end.
      apply negb_true_iff, bool_decide_eq_false in Hspare.
      destruct (last_character ds2 Hspare) as (init & last & ->).
      rewrite all_of_app in Hds2. apply andb_true_iff in Hds2 as [Hinit Hlast].
      cbn [all_of] in Hlast. rewrite andb_true_r in Hlast.
      cbn [decimals_text].
      destruct (many1_first is_digit caps ds
                  (String separator ((init +:+ String last "")
                                       +:+ String "/" (w2 +:+ x)))) as [more Hrun];
        [assumption|now apply separator_not_digit|].
      eapply first_seq; [exact Hrun|]. cbn [fst snd]. unfold after_digits.
      eapply first_seq; [now apply opt_chars_taken|]. cbn [fst snd].
      rewrite append_assoc, append_cons, append_empty_l. now apply spare_digit_first.
    + cbn [decimals_text]. rewrite append_empty_l.
      apply Nat.leb_le in Hspare.
      destruct ds as [|c0 ds1]; [discriminate|].
      assert (Hds1 : ds1 ≠ "") by (intros ->; simpl in Hspare; lia).
      destruct (last_character ds1 Hds1) as (init & last & ->).
      match goal with H : some_of is_digit _ = true |- _ =>
        cbn [some_of all_of] in H; apply andb_true_iff in H as [Hc0 Hds] end.
      rewrite all_of_app in Hds. apply andb_true_iff in Hds as [Hinit Hlast].
      cbn [all_of] in Hlast. rewrite andb_true_r in Hlast.
      rewrite append_cons, append_assoc, append_cons, append_empty_l.
      destruct (many_two is_digit init last (String "/" (w2 +:+ x)) Hinit Hlast eq_refl)
        as [more Hmany].
      eapply second_seq.
      * cbn [run]. rewrite Hc0, Hmany. cbn [map]. reflexivity.
      * apply after_digits_slash.
      * cbn [fst snd]. now apply after_digits_spare.
  - (* a word before the slash *)
    match goal with H : opt_space sp3 && _ && _ = true |- _ =>
      apply andb_true_iff in H as [H Hnot]; apply andb_true_iff in H as [Hsp3 Hw1] end.
    apply negb_true_iff in Hnot.
    assert (Hword : some_of is_word (String c1 w1) = true) by exact Hw1.
    assert (Hunit : ∀ p, starts_with p (sp3 +:+ String c1 w1 +:+ String "/" (w2 +:+ x))
                         = starts_with p (sp3 +:+ String c1 w1))
      by (intros p; now apply starts_with_unit).
    destruct dec as [[separator ds2]|].
    + match goal with H : is_dot_or_comma separator && _ = true |- _ =>
        apply andb_true_iff in H as [Hsep Hds2] end.
      cbn [decimals_text]. rewrite append_cons.
      destruct (many1_first is_digit caps ds
                  (String separator
                     (ds2 +:+ sp3 +:+ String c1 w1 +:+ String "/" (w2 +:+ x))))
        as [more Hrun]; [assumption|now apply separator_not_digit|].
      eapply first_seq; [exact Hrun|]. cbn [fst snd]. unfold after_digits.
      eapply first_seq; [now apply opt_chars_taken|]. cbn [fst snd].
      destruct (many_first is_digit caps ds2
                  (sp3 +:+ String c1 w1 +:+ String "/" (w2 +:+ x)) Hds2) as [more' Hrun'];
        [now rewrite Hunit|].
      eapply first_seq; [exact Hrun'|]. cbn [fst snd].
      now apply unit_part_first.
    + cbn [decimals_text]. rewrite append_empty_l.
      destruct (many1_first is_digit caps ds
                  (sp3 +:+ String c1 w1 +:+ String "/" (w2 +:+ x)))
        as [more Hrun]; [assumption|now rewrite Hunit|].
      eapply first_seq; [exact Hrun|]. cbn [fst snd]. unfold after_digits.
      eapply first_seq.
      { apply opt_chars_blocked. rewrite Hunit. now apply unit_not_separator. }
      cbn [fst snd].
      destruct (many_first is_digit caps ""
                  (sp3 +:+ String c1 w1 +:+ String "/" (w2 +:+ x)) eq_refl) as [more' Hrun'];
        [now rewrite Hunit|].
      rewrite append_empty_l in Hrun'.
      eapply first_seq; [exact Hrun'|]. cbn [fst snd].
      now apply unit_part_first.
Qed.

Lemma opt_space_starts (q : ascii → bool) (sp w rest : string) :
  (∀ c, is_space c = true → q c = false) →
  opt_space sp = true → starts_with q (w +:+ rest) = false →
  starts_with q (sp +:+ w +:+ rest) = false.
Proof.
  intros Hq Hsp Hw. destruct sp as [|c [|c' sp]]; try discriminate Hsp.
  - exact Hw.
  - now apply Hq.
Qed.

(** From the closing bracket the cell type may have to the end. *)
Lemma comparison_part_first caps (m : Mention) (x : string) :
  well_formed m = true → ends_mention x = true →
  head (run comparison_part caps
          (before_signs m +:+ signs m +:+ after_signs m
             +:+ digits m +:+ decimals_text (decimals m)
             +:+ before_unit m +:+ unit_over m +:+ String "/" (unit_under m +:+ x)))
  = Some (caps, x).
Proof.
  intros Hm Hx. pose proof (number_part_first caps m x Hm Hx) as Hnumber.
  unfold well_formed in Hm. repeat (apply andb_true_iff in Hm as [Hm ?]).
  destruct m as [c sp1 ops sp2 ds dec sp3 w1 w2]. cbn [mention_cell before_signs signs
    after_signs digits decimals before_unit unit_over unit_under] in *.
  set (unit := decimals_text dec +:+ sp3 +:+ w1 +:+ String "/" (w2 +:+ x)) in *.
  assert (Hdigits : ∀ q, (∀ c, is_digit c = true → q c = false) →
                         starts_with q (ds +:+ unit) = false)
    by (intros q Hq; now apply (some_of_starts is_digit)).
  assert (Hsigns : ∀ q, (∀ c, is_cmp c = true → q c = false) →
                        starts_with q (ops +:+ sp2 +:+ ds +:+ unit) = false)
    by (intros q Hq; now apply (some_of_starts is_cmp)).
  unfold comparison_part.
  eapply first_seq.
  { apply opt_chars_blocked.
    apply opt_space_starts; [apply space_not_bracket|assumption|].
    apply Hsigns, cmp_not_bracket. }
  cbn [fst snd].
  destruct (opt_space_first caps sp1 (ops +:+ sp2 +:+ ds +:+ unit)) as [more1 Hrun1];
    [assumption|apply Hsigns, cmp_not_space|].
  eapply first_seq; [exact Hrun1|]. cbn [fst snd].
  destruct (many1_first is_cmp caps ops (sp2 +:+ ds +:+ unit)) as [more2 Hrun2];
    [assumption| |].
  { apply opt_space_starts; [apply space_not_cmp|assumption|].
    apply Hdigits, digit_not_cmp. }
  eapply first_seq; [exact Hrun2|]. cbn [fst snd].
  destruct (opt_space_first caps sp2 (ds +:+ unit)) as [more3 Hrun3];
    [assumption|apply Hdigits, digit_not_space|].
  eapply first_seq; [exact Hrun3|]. cbn [fst snd].
  exact Hnumber.
Qed.

Lemma prefix_append (l rest : string) : String.prefix l (l +:+ rest) = true.
Proof.
  induction l as [|c l IH]; [now destruct rest|].
  rewrite append_cons. cbn [String.prefix]. now destruct (ascii_dec c c).
Qed.

Lemma cell_type_first caps (c rest : string) :
  c ∈ cell_types →
  run (Group 2 match_type) caps (c +:+ rest) = [((2%nat, c) :: caps, rest)].
Proof.
  intros Hc.
  assert (Htaken : str_take (String.length (c +:+ rest) - String.length rest) (c +:+ rest)
                   = c).
  { rewrite length_append, Nat.add_sub. apply str_take_length_append. }
  assert (Hrun : run match_type caps (c +:+ rest) = [(caps, rest)]).
  { unfold cell_types in Hc. rewrite !elem_of_cons, elem_of_nil in Hc.
    unfold match_type. cbn [run].
    destruct Hc as [->|[->|[->|[]]]].
    - rewrite prefix_append, str_drop_length_append. reflexivity.
    - rewrite prefix_append, str_drop_length_append. reflexivity.
    - rewrite prefix_append, str_drop_length_append. reflexivity. }
  cbn [run]. rewrite Hrun. cbn [map fst snd]. now rewrite Htaken.
Qed.

Lemma cell_type_no_bracket (c rest : string) :
  c ∈ cell_types → starts_with (is_char "[") (c +:+ rest) = false.
Proof.
  unfold cell_types. rewrite !elem_of_cons, elem_of_nil.
  intros [->|[->|[->|[]]]]; reflexivity.
Qed.

Lemma mention_text_app (m : Mention) (x : string) :
  mention_text m +:+ x
  = mention_cell m +:+ before_signs m +:+ signs m +:+ after_signs m
      +:+ digits m +:+ decimals_text (decimals m)
      +:+ before_unit m +:+ unit_over m +:+ String "/" (unit_under m +:+ x).
Proof. unfold mention_text. now rewrite !append_assoc, append_cons. Qed.

(** The pattern, tried where a well-formed mention begins, matches the
    mention and nothing more. *)
Lemma mention_matches (m : Mention) (x : string) :
  well_formed m = true → ends_mention x = true →
  match_here conditions_pattern (mention_text m +:+ x)
  = Some ([(1%nat, mention_text m); (2%nat, mention_cell m)], x).
Proof.
  intros Hm Hx.
  assert (Hcell : mention_cell m ∈ cell_types).
  { unfold well_formed in Hm. repeat (apply andb_true_iff in Hm as [Hm ?]).
    now apply bool_decide_eq_true in Hm. }
  assert (Htaken : str_take (String.length (mention_text m +:+ x) - String.length x)
                     (mention_text m +:+ x) = mention_text m).
  { rewrite length_append, Nat.add_sub. apply str_take_length_append. }
  unfold match_here. rewrite pattern_parts. cbn [run].
  set (inner := flat_map _ _).
  assert (Hinner : head inner = Some ([(2%nat, mention_cell m)], x)).
  { subst inner. rewrite mention_text_app.
    change (head (run (Seq (Opt (Chars (is_char "[")))
                         (Seq (Group 2 match_type) comparison_part)) []
                    (mention_cell m +:+ before_signs m +:+ signs m +:+ after_signs m
                       +:+ digits m +:+ decimals_text (decimals m)
                       +:+ before_unit m +:+ unit_over m
                       +:+ String "/" (unit_under m +:+ x)))
            = Some ([(2%nat, mention_cell m)], x)).
    eapply first_seq.
    { apply opt_chars_blocked. now apply cell_type_no_bracket. }
    cbn [fst snd].
    eapply first_seq; [now apply cell_type_first|]. cbn [fst snd].
    now apply comparison_part_first. }
  destruct inner as [|st more]; [discriminate|]. injection Hinner as ->.
  cbn [map head fst snd]. now rewrite Htaken.
Qed.

(** ** The scan of a text made of mentions *)

Lemma run_group_eq (n : nat) (r : regex) caps (s : string) :
  run (Group n r) caps s
  = map (λ st, ((n, str_take (String.length s - String.length st.2) s) :: st.1, st.2))
      (run r caps s).
Proof. reflexivity. Qed.

Lemma run_seq_eq (r1 r2 : regex) caps (s : string) :
  run (Seq r1 r2) caps s = flat_map (λ st, run r2 st.1 st.2) (run r1 caps s).
Proof. reflexivity. Qed.

Lemma no_cell_type caps (t : string) :
  (∀ cell_type, cell_type ∈ cell_types → String.prefix cell_type t = false) →
  run (Seq (Group 2 match_type) comparison_part) caps t = [].
Proof.
  intros Hnone. rewrite run_seq_eq, run_group_eq. unfold match_type. cbn [run].
  rewrite !Hnone by (unfold cell_types; rewrite !elem_of_cons; auto).
  reflexivity.
Qed.

(** Where no cell type begins, bare or after a bracket, the pattern does
    not match. *)
Lemma no_start (t : string) :
  starts_mention t = false → match_here conditions_pattern t = None.
Proof.
  intros Hnone.
  assert (Hbare : ∀ cell_type, cell_type ∈ cell_types →
                               String.prefix cell_type t = false).
  { intros cell_type Hin. unfold starts_mention in Hnone.
    apply list_elem_of_In in Hin.
    destruct (String.prefix cell_type t) eqn:Hprefix; [|reflexivity].
    assert (existsb (λ cell_type, String.prefix cell_type t
                                  || String.prefix (String "[" cell_type) t)
              cell_types = true)
      by (apply existsb_exists; exists cell_type; now rewrite Hprefix).
    congruence. }
  assert (Hbracket : ∀ t', t = String "[" t' →
                           ∀ cell_type, cell_type ∈ cell_types →
                                        String.prefix cell_type t' = false).
  { intros t' -> cell_type Hin. unfold starts_mention in Hnone.
    apply list_elem_of_In in Hin.
    destruct (String.prefix cell_type t') eqn:Hprefix; [|reflexivity].
    assert (existsb (λ cell_type, String.prefix cell_type (String "[" t')
                                  || String.prefix (String "[" cell_type) (String "[" t'))
              cell_types = true).
    { apply existsb_exists. exists cell_type. split; [assumption|].
      apply orb_true_iff. right. cbn [String.prefix].
      now destruct (ascii_dec "[" "["). }
    congruence. }
  unfold match_here. rewrite pattern_parts, run_group_eq, run_seq_eq.
  assert (Hinner : flat_map
                     (λ st, run (Seq (Group 2 match_type) comparison_part) st.1 st.2)
                     (run (Opt (Chars (is_char "["))) [] t) = []).
  { destruct t as [|c t'].
    - rewrite opt_chars_blocked by reflexivity. cbn [flat_map fst snd].
      now rewrite no_cell_type.
    - destruct (is_char "[" c) eqn:Hc.
      + rewrite opt_chars_taken by assumption. cbn [flat_map fst snd].
        unfold is_char in Hc. apply bool_decide_eq_true in Hc as <-.
        rewrite (no_cell_type [] t') by now apply Hbracket.
        now rewrite no_cell_type.
      + rewrite opt_chars_blocked by assumption. cbn [flat_map fst snd].
        now rewrite no_cell_type. }
  now rewrite Hinner.
Qed.

Lemma scan_clear (stretch following : string) :
  clear_of_mentions stretch following = true →
  scan conditions_pattern 0 (stretch +:+ following)
  = scan conditions_pattern 0 following.
Proof.
  induction stretch as [|c stretch IH]; [reflexivity|].
  cbn [clear_of_mentions]. intros H. apply andb_true_iff in H as [Hhere Hrest].
  apply negb_true_iff in Hhere. rewrite append_cons in *. cbn [scan].
  rewrite (no_start _ Hhere). now apply IH.
Qed.

Lemma scan_skip (r : regex) (passed following : string) :
  scan r (String.length passed) (passed +:+ following) = scan r 0 following.
Proof.
  induction passed as [|c passed IH]; [reflexivity|].
  rewrite append_cons. cbn [String.length scan]. exact IH.
Qed.

Lemma scan_match (r : regex) (matched following : string) caps :
  matched ≠ "" →
  match_here r (matched +:+ following) = Some (caps, following) →
  scan r 0 (matched +:+ following) = caps :: scan r 0 following.
Proof.
  intros Hne Hmatch. destruct matched as [|c matched]; [congruence|].
  rewrite append_cons in *. cbn [scan]. rewrite Hmatch.
  replace (String.length (String c (matched +:+ following))
           - String.length following - 1)%nat with (String.length matched)
    by (cbn [String.length]; rewrite length_append; lia).
  now rewrite scan_skip.
Qed.

Lemma mention_text_nonempty (m : Mention) : well_formed m = true → mention_text m ≠ "".
Proof.
  intros Hm. unfold well_formed in Hm. repeat (apply andb_true_iff in Hm as [Hm ?]).
  apply bool_decide_eq_true in Hm. unfold mention_text, cell_types in *.
  rewrite !elem_of_cons, elem_of_nil in Hm.
  destruct Hm as [->|[->|[->|[]]]]; discriminate.
Qed.

Lemma separates_ends (between_mentions following : string) :
  separates between_mentions = true →
  ends_mention (between_mentions +:+ following) = true.
Proof. destruct between_mentions; [discriminate|]. intros H. exact H. Qed.

(** The matches the pattern finds in a text of three well-formed mentions
    kept apart. *)
Lemma scan_three_mentions (a b c : Mention) (pre g1 g2 g3 : string) :
  well_formed a = true → well_formed b = true → well_formed c = true →
  separates g1 = true → separates g2 = true → ends_mention g3 = true →
  clear_of_mentions pre (mention_text a +:+ g1 +:+ mention_text b +:+ g2
                           +:+ mention_text c +:+ g3) = true →
  clear_of_mentions g1 (mention_text b +:+ g2 +:+ mention_text c +:+ g3) = true →
  clear_of_mentions g2 (mention_text c +:+ g3) = true →
  clear_of_mentions g3 "" = true →
  findall3 conditions_pattern
    (pre +:+ mention_text a +:+ g1 +:+ mention_text b +:+ g2 +:+ mention_text c +:+ g3)
  = [ (mention_text a, mention_cell a, "");
      (mention_text b, mention_cell b, "");
      (mention_text c, mention_cell c, "") ].
Proof.
  intros Ha Hb Hc Hg1 Hg2 Hg3 Hpre Hclear1 Hclear2 Hclear3.
  unfold findall3.
  rewrite (scan_clear _ _ Hpre).
  rewrite (scan_match _ _ _ _ (mention_text_nonempty a Ha)
             (mention_matches a _ Ha (separates_ends g1 _ Hg1))).
  rewrite (scan_clear _ _ Hclear1).
  rewrite (scan_match _ _ _ _ (mention_text_nonempty b Hb)
             (mention_matches b _ Hb (separates_ends g2 _ Hg2))).
  rewrite (scan_clear _ _ Hclear2).
  rewrite (scan_match _ _ _ _ (mention_text_nonempty c Hc)
             (mention_matches c _ Hc Hg3)).
  rewrite <- (append_empty_r g3), (scan_clear _ _ Hclear3).
  reflexivity.
Qed.

(** The texts of the sample mentions. *)
Example mention_text_sample :
  mention_text MentionSample.hemoglobin_mention = "hemoglobin >= 9 g/dl"
  ∧ mention_text MentionSample.platelets_mention = "platelets >= 100,000/ul"
  ∧ mention_text MentionSample.leukocytes_mention = "leukocytes >= 3,000/mcl".
Proof. repeat split. Qed.

(** C8: when the joined eligibility text is made of three well-formed
    mentions, one of each cell type (a cell type, comparison signs, a number
    and a unit with a slash), each followed by a character that is neither a
    word character nor a caret, or by the end of the text, and no cell type
    begins anywhere outside the mentions, [find_conditions] returns exactly
    the three conditions, each cell type with the text of its mention, and
    the detection service is not called. *)
Theorem three_mentions_fast_path detect_entities (trial : TrialJson)
    (a b c : Mention) (pre g1 g2 g3 : string) :
  joined_description trial
    = pre +:+ mention_text a +:+ g1 +:+ mention_text b +:+ g2 +:+ mention_text c +:+ g3 →
  well_formed a = true → well_formed b = true → well_formed c = true →
  [mention_cell a; mention_cell b; mention_cell c] ≡ₚ cell_types →
  separates g1 = true → separates g2 = true → ends_mention g3 = true →
  clear_of_mentions pre (mention_text a +:+ g1 +:+ mention_text b +:+ g2
                           +:+ mention_text c +:+ g3) = true →
  clear_of_mentions g1 (mention_text b +:+ g2 +:+ mention_text c +:+ g3) = true →
  clear_of_mentions g2 (mention_text c +:+ g3) = true →
  clear_of_mentions g3 "" = true →
  find_conditions_calls detect_entities trial
  = ([ (mention_cell a, mention_text a);
       (mention_cell b, mention_text b);
       (mention_cell c, mention_text c) ], []).
Proof.
  intros Htext Ha Hb Hc Hcells Hg1 Hg2 Hg3 Hpre Hclear1 Hclear2 Hclear3.
  apply (fast_path_of_matches detect_entities trial
           (mention_text a, mention_cell a, "")
           (mention_text b, mention_cell b, "")
           (mention_text c, mention_cell c, "")).
  - rewrite Htext. now apply scan_three_mentions.
  - exact Hcells.
Qed.

Lemma three_mentions_fast_path_witness :
  find_conditions_calls Sample.service_down (trial_json Sample.three_mentions)
  = ([ ("hemoglobin", "hemoglobin >= 9 g/dl");
       ("platelets", "platelets >= 100,000/ul");
       ("leukocytes", "leukocytes >= 3,000/mcl") ], []).
Proof.
  apply (three_mentions_fast_path Sample.service_down (trial_json Sample.three_mentions)
           MentionSample.hemoglobin_mention MentionSample.platelets_mention
           MentionSample.leukocytes_mention "" " " " " "");
    vm_compute; reflexivity.
Defined.

(** C8 as stated fails: each of the three mentions is matched by the pattern
    when it stands alone, but in the joined text the first match runs on
    over "platelets", the scan finds two matches, and the detection service
    is called. *)
Lemma one_word_units_call_fallback :
  findall3 conditions_pattern "leukocytes >= 3000 cells"
    = [ ("leukocytes >= 3000 cells", "leukocytes", "") ]
  ∧ findall3 conditions_pattern "platelets >= 100000 cells"
    = [ ("platelets >= 100000 cells", "platelets", "") ]
  ∧ findall3 conditions_pattern "hemoglobin >= 9 gm"
    = [ ("hemoglobin >= 9 gm", "hemoglobin", "") ]
  ∧ joined_description (trial_json MentionSample.one_word_units)
    = "leukocytes >= 3000 cells platelets >= 100000 cells hemoglobin >= 9 gm"
  ∧ findall3 conditions_pattern (joined_description (trial_json MentionSample.one_word_units))
    = [ ("leukocytes >= 3000 cells platelets", "leukocytes", "");
        ("hemoglobin >= 9 gm", "hemoglobin", "") ]
  ∧ find_conditions_calls Sample.finds_hemoglobin (trial_json MentionSample.one_word_units)
    = ([ ("hemoglobin", "hemoglobin normal") ],
       [ "leukocytes >= 3000 cellsplatelets >= 100000 cellshemoglobin >= 9 gm" ]).
Proof. vm_compute. repeat split. Qed.
